(** * analyze_safetensors.py: dtype distribution of a safetensors header

    A shallow embedding of the script [analyze_safetensors.py] and proofs of
    the properties its specification states.

    The script reads an 8-byte little-endian length, reads that many bytes,
    decodes them with [json.loads], walks the resulting mapping (skipping the
    key [__metadata__]), multiplies out each tensor's shape, accumulates the
    result per dtype and in a grand total, and prints one percentage row per
    dtype.

    Modelling choices, all visible in the definitions below:
    - Python integers are [Z]; Python floats are IEEE-754 binary64 values,
      every operation being the exact result rounded to nearest, ties to even;
    - [json.loads] belongs to the Python library: it is a variable of the
      section, as is [repr] on floats; everything else is defined;
    - the machine is a variable of the section as well: [can_allocate], the
      objects that its memory can hold, and [stdout_encodes], the characters
      beyond ASCII that the encoding of standard output has;
    - the limits are those of CPython 3.11 on a 64-bit machine: an index is
      a signed 64-bit number, a bytes object holds at most [2^63 - 34] bytes,
      an integer of more than 4300 digits is not converted to text;
    - a Python [dict] is an association list in insertion order;
    - an uncaught exception ends the run with exit status 1, [sys.exit(n)]
      with status [n];
    - text is a [string] of characters, of which those below 128 are the
      ASCII ones; [print] writes it as it is, followed by a line feed. *)

From Stdlib Require Import ZArith List String Ascii Bool Lia DecimalString.
From Stdlib Require Import Strings.Byte.
From Stdlib Require Import Sorting.Permutation.
Import ListNotations.

Local Open Scope string_scope.
Local Open Scope list_scope.
Local Open Scope Z_scope.

(** ** Text *)

(** The line feed that [print] appends and that the literals of the script
    spell [\n]. *)
Definition nl : string := String (ascii_of_nat 10) EmptyString.

(** The decimal digits of an integer, with a minus sign when it is
    negative. *)
Definition str_Z (n : Z) : string := NilEmpty.string_of_int (Z.to_int n).

(** The characters every encoding of standard output has. *)
Definition is_ascii (c : ascii) : bool :=
  match c with
  | Ascii _ _ _ _ _ _ _ b7 => negb b7
  end.

(** ** Python floats *)

Module PyFloat.

(** A binary64 value; [FFin neg m e] is the non-zero number [(-1)^neg * m * 2^e]. *)
Inductive float : Type :=
| FNan
| FInf (neg : bool)
| FZero (neg : bool)
| FFin (neg : bool) (m : positive) (e : Z).

(** [scale n d k] is the fraction [n / (d * 2^k)], kept as a pair of integers. *)
Definition scale (n d k : Z) : Z * Z :=
  if 0 <=? k then (n, d * 2 ^ k) else (n * 2 ^ (- k), d).

(** Nearest integer to [a / b] for [0 <= a], [0 < b], ties to even. *)
Definition round_half_even (a b : Z) : Z :=
  let q := a / b in
  let r := a mod b in
  if 2 * r <? b then q
  else if b <? 2 * r then q + 1
  else if Z.even q then q else q + 1.

(** [floor (log2 (n / d))] for [0 < n], [0 < d]. *)
Definition ilog2_ratio (n d : Z) : Z :=
  let l := Z.log2 n - Z.log2 d in
  let '(a, b) := scale n d l in
  if a <? b then l - 1 else l.

(** The binary64 number nearest to [n / d], for [0 < n] and [0 < d]:
    53 significant bits, least exponent -1074, overflow to infinity. *)
Definition round_q (neg : bool) (n d : Z) : float :=
  let e := Z.max (ilog2_ratio n d - 52) (-1074) in
  let '(a, b) := scale n d e in
  let m := round_half_even a b in
  if m <=? 0 then FZero neg
  else if 1024 <=? Z.log2 m + e then FInf neg
  else FFin neg (Z.to_pos m) e.

Definition of_Z (n : Z) : float :=
  if n =? 0 then FZero false else round_q (n <? 0) (Z.abs n) 1.

Definition is_inf (x : float) : bool :=
  match x with FInf _ => true | _ => false end.

Definition is_finite (x : float) : bool :=
  match x with FZero _ | FFin _ _ _ => true | _ => false end.

Definition is_zero (x : float) : bool :=
  match x with FZero _ => true | _ => false end.

Definition fmul (x y : float) : float :=
  match x, y with
  | FNan, _ | _, FNan => FNan
  | FInf _, FZero _ | FZero _, FInf _ => FNan
  | FInf s, FInf t | FInf s, FFin t _ _ | FFin s _ _, FInf t => FInf (xorb s t)
  | FZero s, FZero t | FZero s, FFin t _ _ | FFin s _ _, FZero t => FZero (xorb s t)
  | FFin s m1 e1, FFin t m2 e2 =>
      let '(n, d) := scale (Z.pos m1 * Z.pos m2) 1 (- (e1 + e2)) in
      round_q (xorb s t) n d
  end.

Definition signed (s : bool) (m : positive) : Z :=
  if s then Z.neg m else Z.pos m.

Definition fadd (x y : float) : float :=
  match x, y with
  | FNan, _ | _, FNan => FNan
  | FInf s, FInf t => if Bool.eqb s t then FInf s else FNan
  | FInf s, _ | _, FInf s => FInf s
  | FZero s, FZero t => FZero (s && t)
  | FZero _, z | z, FZero _ => z
  | FFin s m1 e1, FFin t m2 e2 =>
      let e := Z.min e1 e2 in
      let v := signed s m1 * 2 ^ (e1 - e) + signed t m2 * 2 ^ (e2 - e) in
      if v =? 0 then FZero false
      else let '(n, d) := scale (Z.abs v) 1 (- e) in round_q (v <? 0) n d
  end.

(** IEEE division for a non-zero divisor (Python raises on a zero one). *)
Definition fdiv (x y : float) : float :=
  match x, y with
  | FNan, _ | _, FNan => FNan
  | FInf _, FInf _ => FNan
  | FInf s, FZero t | FInf s, FFin t _ _ => FInf (xorb s t)
  | FZero s, FInf t | FFin s _ _, FInf t => FZero (xorb s t)
  | FZero _, FZero _ => FNan
  | FZero s, FFin t _ _ => FZero (xorb s t)
  | FFin s _ _, FZero t => FInf (xorb s t)
  | FFin s m1 e1, FFin t m2 e2 =>
      let '(n, d) := scale (Z.pos m1) (Z.pos m2) (e2 - e1) in
      round_q (xorb s t) n d
  end.

(** Python's [==] between two floats that are distinct objects. *)
Definition feqb (x y : float) : bool :=
  match x, y with
  | FInf s, FInf t => Bool.eqb s t
  | FZero _, FZero _ => true
  | FFin s m1 e1, FFin t m2 e2 =>
      let e := Z.min e1 e2 in
      Bool.eqb s t && (Z.pos m1 * 2 ^ (e1 - e) =? Z.pos m2 * 2 ^ (e2 - e))
  | _, _ => false
  end.

(** Python's [==] between a float and an integer: exact comparison. *)
Definition feqb_Z (x : float) (n : Z) : bool :=
  match x with
  | FZero _ => n =? 0
  | FFin s m e =>
      if 0 <=? e then signed s m * 2 ^ e =? n
      else signed s m =? n * 2 ^ (- e)
  | _ => false
  end.

Definition sign_text (neg : bool) : string := if neg then "-" else "".

(** The format specification [.2f]: the exact value rounded to hundredths,
    ties to even, at least one digit before the point and two after it. *)
Definition format_2f (x : float) : string :=
  match x with
  | FNan => "nan"
  | FInf s => sign_text s ++ "inf"
  | FZero s => sign_text s ++ "0.00"
  | FFin s m e =>
      let '(a, b) := scale (Z.pos m * 100) 1 (- e) in
      let c := round_half_even a b in
      sign_text s ++ str_Z (c / 100) ++ "."
        ++ str_Z (c mod 100 / 10) ++ str_Z (c mod 10)
  end%string.

End PyFloat.

(** ** Values, exceptions and results *)

Import PyFloat.

#[local] Set Warnings "-register-all".

(** What [json.loads] returns. An object keeps its members in document
    order, one per key; the integer and float literals of JSON stay apart,
    as in Python. *)
Inductive json : Type :=
| JNull
| JBool (b : bool)
| JInt (n : Z)
| JFloat (x : float)
| JStr (s : string)
| JList (elems : list json)
| JDict (members : list (string * json)).

(** What [json.loads] raises; [DigitLimitError] is the [ValueError] of an
    integer literal of more than 4300 digits. *)
Inductive decode_error : Type :=
| JSONDecodeError (msg : string) (pos : Z)
| UnicodeDecodeError (pos : Z)
| RecursionError
| DigitLimitError.

(** The exceptions of a run. Messages are left out; [KeyError] carries the
    key that was not found. *)
Inductive exn : Type :=
| SystemExit (code : Z)
| StructError
| DecodeError (e : decode_error)
| AttributeError
| KeyError (key : string)
| TypeError
| OverflowError
| ZeroDivisionError
| ValueError
| MemoryError
| UnicodeEncodeError.

(** An expression gives a value or raises. *)
Inductive result (A : Type) : Type :=
| Ok (a : A)
| Raise (e : exn).

Arguments Ok {A} a.
Arguments Raise {A} e.

Definition bind {A B : Type} (r : result A) (k : A -> result B) : result B :=
  match r with
  | Ok a => k a
  | Raise e => Raise e
  end.

Declare Scope result_scope.
Delimit Scope result_scope with result.
Notation "x <- r ;; k" := (bind r (fun x => k))
  (at level 61, r at next level, right associativity) : result_scope.

(** A number held by the script: a bucket count, the grand total. *)
Inductive num : Type :=
| NInt (n : Z)
| NFloat (x : float).

(** The value of [num_elements] while a shape is multiplied out. Python's
    [*] repeats a string or a list when the other operand is an integer; the
    script can only fail on such a value, at a later product or at the sum
    that follows, so of a sequence only what decides these failures is kept:
    whether it is a text and how long it is. *)
Inductive pyval : Type :=
| PNum (v : num)
| PSeq (text : bool) (len : Z).

(** A key of the [dtypes] dictionary: a hashable JSON value. *)
Inductive key : Type :=
| KNone
| KBool (b : bool)
| KInt (n : Z)
| KFloat (x : float)
| KStr (s : string).

Definition Z_of_bool (b : bool) : Z := if b then 1 else 0.

(** ** The limits of the interpreter *)

(** [sys.maxsize], the largest index, and the least one. *)
Definition ssize_max : Z := 2 ^ 63 - 1.

Definition ssize_min : Z := - 2 ^ 63.

(** The length of the longest [bytes] object: the object's own fields take
    33 bytes of the address space. *)
Definition bytes_max : Z := ssize_max - 33.

(** [sys.int_info.default_max_str_digits]. *)
Definition max_str_digits : Z := 4300.

(** The objects that the script can make too large for the machine: the
    bytes of a read, a repeated text, a repeated list. *)
Inductive object_kind : Type :=
| Bytes
| Text
| Items.

(** An object of this many elements is always allocated: it is the size of
    the buffer the opened file already has. *)
Definition small_object : Z := 8192.

(** The least integer that has too many digits to be converted to text. *)
Definition str_limit : Z := 10 ^ max_str_digits.

Arguments str_limit : simpl never.

(** A number that can be a count of repetitions. *)
Definition fits_index (n : Z) : bool := (ssize_min <=? n) && (n <=? ssize_max).

(** ** The operations the script applies to values *)

(** [float(n)]: fails when [n] rounds beyond the largest float. *)
Definition float_of_int (n : Z) : result float :=
  let x := of_Z n in
  if is_inf x then Raise OverflowError else Ok x.

(** [str(n)], also what an f-string does with an integer: integers of more
    than 4300 digits are refused. *)
Definition py_str (n : Z) : result string :=
  if str_limit <=? Z.abs n then Raise ValueError else Ok (str_Z n).

(** [value[field]] for a string [field]. *)
Definition getitem (value : json) (field : string) : result json :=
  match value with
  | JDict members =>
      match find (fun kv => String.eqb (fst kv) field) members with
      | Some kv => Ok (snd kv)
      | None => Raise (KeyError field)
      end
  | _ => Raise TypeError
  end.

(** The values [for dim in shape] runs through. A string yields its
    characters, a dictionary its keys. *)
Definition iterate (shape : json) : result (list json) :=
  match shape with
  | JList elems => Ok elems
  | JStr s => Ok (map (fun c => JStr (String c EmptyString)) (list_ascii_of_string s))
  | JDict members => Ok (map (fun kv => JStr (fst kv)) members)
  | _ => Raise TypeError
  end.

(** [a + b] where [a] is a bucket count or the grand total. *)
Definition py_add (a : num) (b : pyval) : result num :=
  match a, b with
  | NInt x, PNum (NInt y) => Ok (NInt (x + y))
  | NInt x, PNum (NFloat y) =>
      (x' <- float_of_int x ;; Ok (NFloat (fadd x' y)))%result
  | NFloat x, PNum (NInt y) =>
      (y' <- float_of_int y ;; Ok (NFloat (fadd x y')))%result
  | NFloat x, PNum (NFloat y) => Ok (NFloat (fadd x y))
  | _, PSeq _ _ => Raise TypeError
  end.

(** [a / b], Python's true division. Two integers give the correctly
    rounded quotient; otherwise both operands are converted first. *)
Definition py_truediv (a b : num) : result float :=
  match a, b with
  | NInt x, NInt y =>
      if y =? 0 then Raise ZeroDivisionError
      else if x =? 0 then Ok (FZero (y <? 0))
      else
        let q := round_q (xorb (x <? 0) (y <? 0)) (Z.abs x) (Z.abs y) in
        if is_inf q then Raise OverflowError else Ok q
  | _, _ =>
      (x <- match a with NInt n => float_of_int n | NFloat x => Ok x end ;;
       y <- match b with NInt n => float_of_int n | NFloat y => Ok y end ;;
       if is_zero y then Raise ZeroDivisionError else Ok (fdiv x y))%result
  end.

(** The key a value makes in a dictionary; lists and dictionaries are
    unhashable. *)
Definition to_key (v : json) : result key :=
  match v with
  | JNull => Ok KNone
  | JBool b => Ok (KBool b)
  | JInt n => Ok (KInt n)
  | JFloat x => Ok (KFloat x)
  | JStr s => Ok (KStr s)
  | JList _ | JDict _ => Raise TypeError
  end.

(** Equality of dictionary keys. Numbers compare by value across [bool],
    [int] and [float]; the NaN of a decoded document is one shared object,
    which a dictionary finds by identity. *)
Definition key_eqb (k1 k2 : key) : bool :=
  match k1, k2 with
  | KNone, KNone => true
  | KStr s, KStr t => String.eqb s t
  | KBool a, KBool b => Bool.eqb a b
  | KBool a, KInt n | KInt n, KBool a => Z_of_bool a =? n
  | KInt m, KInt n => m =? n
  | KFloat x, KBool a | KBool a, KFloat x => feqb_Z x (Z_of_bool a)
  | KFloat x, KInt n | KInt n, KFloat x => feqb_Z x n
  | KFloat FNan, KFloat FNan => true
  | KFloat x, KFloat y => feqb x y
  | _, _ => false
  end.

(** The dictionary [dtypes], in insertion order. *)
Definition pydict : Type := list (key * num).

(** [d.get(k, default)]. *)
Fixpoint dict_get (d : pydict) (k : key) (default : num) : num :=
  match d with
  | [] => default
  | (k', v) :: rest => if key_eqb k' k then v else dict_get rest k default
  end.

(** [d[k] = v]: an existing key keeps its place and its first spelling,
    a new key goes last. *)
Fixpoint dict_set (d : pydict) (k : key) (v : num) : pydict :=
  match d with
  | [] => [(k, v)]
  | (k', v') :: rest =>
      if key_eqb k' k then (k', v) :: rest else (k', v') :: dict_set rest k v
  end.

(** ** The run: a file, a log of what happened, a result *)

(** What a run does, in program order: a read that returned, a text that
    was written, a call of [json.loads]. *)
Inductive event : Type :=
| EvRead (size : Z) (got : list byte)
| EvPrint (text : string)
| EvLoads (doc : list byte).

Record world : Type := mkWorld {
  unread : list byte;
  events : list event
}.

(** A statement of the script: it may change the world and may raise. *)
Definition io (A : Type) : Type := world -> result A * world.

Definition ret {A : Type} (a : A) : io A := fun w => (Ok a, w).

Definition throw {A : Type} (e : exn) : io A := fun w => (Raise e, w).

Definition lift {A : Type} (r : result A) : io A := fun w => (r, w).

Definition io_bind {A B : Type} (m : io A) (k : A -> io B) : io B :=
  fun w =>
    match m w with
    | (Ok a, w') => k a w'
    | (Raise e, w') => (Raise e, w')
    end.

Declare Scope io_scope.
Delimit Scope io_scope with io.
Notation "x <- m ;; k" := (io_bind m (fun x => k))
  (at level 61, m at next level, right associativity) : io_scope.
Notation "m ;; k" := (io_bind m (fun _ => k))
  (at level 61, right associativity) : io_scope.

Definition emit (ev : event) : io unit :=
  fun w => (Ok tt, mkWorld (unread w) (events w ++ [ev])).

(** [sys.exit(code)]. *)
Definition sys_exit {A : Type} (code : Z) : io A := throw (SystemExit code).

Definition Z_of_byte (b : byte) : Z := Z.of_N (Byte.to_N b).

(** An unsigned integer from its bytes, least significant first. *)
Fixpoint le_uint (bs : list byte) : Z :=
  match bs with
  | [] => 0
  | b :: rest => Z.lor (Z_of_byte b) (Z.shiftl (le_uint rest) 8)
  end.

(** [struct.unpack("<Q", bs)[0]]. *)
Definition unpack_Q (bs : list byte) : result Z :=
  if Nat.eqb (List.length bs) 8 then Ok (le_uint bs) else Raise StructError.

(** What is written to standard output: each printed text and a line feed. *)
Fixpoint stdout (evs : list event) : string :=
  match evs with
  | [] => EmptyString
  | EvPrint text :: rest => (text ++ nl ++ stdout rest)%string
  | _ :: rest => stdout rest
  end.

(** The sizes of the reads that returned, in order. *)
Fixpoint reads (evs : list event) : list Z :=
  match evs with
  | [] => []
  | EvRead size _ :: rest => size :: reads rest
  | _ :: rest => reads rest
  end.

(** The exit status of the process. *)
Definition exit_status (r : result unit) : Z :=
  match r with
  | Ok _ => 0
  | Raise (SystemExit code) => code
  | Raise _ => 1
  end.

(** ** The script: what does not depend on the machine *)

Definition metadata_key : string := "__metadata__".

(** [header.items()]. *)
Definition py_items (header : json) : result (list (string * json)) :=
  match header with
  | JDict members => Ok members
  | _ => Raise AttributeError
  end.

(** [count / total_elements * 100]. *)
Definition percentage (count total_elements : num) : result float :=
  (q <- py_truediv count total_elements ;; Ok (fmul q (of_Z 100)))%result.

(** The text of one row of the report, from the texts of its parts. *)
Definition row_text (label amount : string) (pct : float) : string :=
  (label ++ ": " ++ amount ++ " elements (" ++ format_2f pct ++ "%)")%string.

(** ** Sample files, for running the script inside the proof assistant *)

Module Sample.

(** JSON text written with apostrophes in the place of double quotes. *)
Definition json_text (s : string) : string :=
  string_of_list_ascii
    (map (fun c => if Ascii.eqb c "'" then ascii_of_nat 34 else c)
       (list_ascii_of_string s)).

Definition byte_of_Z (n : Z) : byte :=
  match Byte.of_N (Z.to_N (n mod 256)) with
  | Some b => b
  | None => x00
  end.

(** [struct.pack("<Q", n)]. *)
Definition pack_Q (n : Z) : list byte :=
  map (fun i => byte_of_Z (Z.shiftr n (8 * Z.of_nat i))) (seq 0 8).

(** A file: the length of the header text, the text, the tensor data. *)
Definition file_of (text : string) (payload : list byte) : list byte :=
  pack_Q (Z.of_nat (String.length text)) ++ list_byte_of_string text ++ payload.

Definition tensor (dtype : string) (shape : list Z) : json :=
  JDict [("dtype", JStr dtype); ("shape", JList (map JInt shape))].

(** Headers and the text they are decoded from. *)
Definition two_dtypes : list (string * json) :=
  [("a", tensor "F32" [2]); ("b", tensor "I64" [2]);
   ("__metadata__", JDict [("format", JStr "pt")])].

Definition two_dtypes_text : string :=
  json_text
    "{'a':{'dtype':'F32','shape':[2]},'b':{'dtype':'I64','shape':[2]},'__metadata__':{'format':'pt'}}".

Definition only_metadata : list (string * json) :=
  [("__metadata__", JDict [("format", JStr "pt")])].

Definition only_metadata_text : string :=
  json_text "{'__metadata__':{'format':'pt'}}".

(** A shape with the float that [json.loads] makes of [1e999]. *)
Definition infinite_shape : list (string * json) :=
  [("a", JDict [("dtype", JStr "F32"); ("shape", JList [JFloat (FInf false)])])].

Definition infinite_shape_text : string :=
  json_text "{'a':{'dtype':'F32','shape':[1e999]}}".

(** A shape with [NaN], which is not JSON and which [json.loads] takes. *)
Definition nan_shape : list (string * json) :=
  [("a", JDict [("dtype", JStr "F32"); ("shape", JList [JFloat FNan])])].

Definition nan_shape_text : string :=
  json_text "{'a':{'dtype':'F32','shape':[NaN]}}".

Definition empty_tensor : list (string * json) :=
  [("a", tensor "F32" [0; 4]); ("b", tensor "F16" [3])].

Definition all_empty : list (string * json) := [("a", tensor "F32" [0])].

Definition no_dtype : list (string * json) :=
  [("w", JDict [("shape", JList [JInt 1])])].

(** A count of 4401 digits before a tensor without elements. *)
Definition huge_count : list (string * json) :=
  [("b", tensor "I8" [10 ^ 2200; 10 ^ 2200]); ("a", tensor "F32" [0])].

(** A label that standard output cannot encode, before a tensor without
    elements. *)
Definition unprintable_label : list (string * json) :=
  [("b", tensor (String (ascii_of_nat 255) EmptyString) [1]);
   ("a", tensor "F32" [0])].

(** A decoder for the texts above; it rejects every other document with
    the error [json.loads] gives for [oops]. *)
Definition loads (doc : list byte) : json + decode_error :=
  let text := string_of_list_byte doc in
  if String.eqb text two_dtypes_text then inl (JDict two_dtypes)
  else if String.eqb text only_metadata_text then inl (JDict only_metadata)
  else if String.eqb text infinite_shape_text then inl (JDict infinite_shape)
  else if String.eqb text nan_shape_text then inl (JDict nan_shape)
  else inr (JSONDecodeError "Expecting value" 0).

(** [repr] on the floats that the sample runs print: the infinities, NaN
    and the zeros. *)
Definition repr (x : float) : string :=
  match x with
  | FNan => "nan"
  | FInf s => sign_text s ++ "inf"
  | FZero s => sign_text s ++ "0.0"
  | FFin _ _ _ => ""
  end.

(** A machine that allocates objects of up to [2^32] elements and whose
    standard output is in UTF-8: it has every character but the unpaired
    surrogates, for which the sample alphabet has the character 255. *)
Definition memory (kind : object_kind) (n : Z) : bool := n <=? 2 ^ 32.

Definition encodes (c : ascii) : bool := negb (Ascii.eqb c (ascii_of_nat 255)).

Definition short_file : list byte := [x02; x00; x00; x00].

Definition two_dtypes_file : list byte := file_of two_dtypes_text [x00; x00].

Definition only_metadata_file : list byte := file_of only_metadata_text [].

Definition malformed_file : list byte := file_of "oops" [].

Definition infinite_shape_file : list byte := file_of infinite_shape_text [].

Definition nan_shape_file : list byte := file_of nan_shape_text [].

End Sample.

Section Script.

(** [json.loads] on the bytes of the header. *)
Variable json_loads : list byte -> json + decode_error.

(** [repr] of a float, as an f-string renders it. *)
Variable float_repr : float -> string.

(** Whether the machine can allocate an object of a kind with so many
    elements (bytes, characters, items). *)
Variable can_allocate : object_kind -> Z -> bool.

(** The characters beyond ASCII that the encoding of standard output has. *)
Variable stdout_encodes : ascii -> bool.

(** ** The script: what depends on the machine *)

(** Whether an object of [n] elements is allocated. *)
Definition allocates (kind : object_kind) (n : Z) : bool :=
  (n <=? small_object) || can_allocate kind n.

(** A sequence of [len] elements repeated [n] times: [n * seq] and
    [seq *= n]. The count must be an index; a count below 1 or an empty
    sequence gives the empty sequence; a text repeated once, and a list
    repeated once in place, is the sequence itself; otherwise a sequence of
    [len * n] elements is allocated, if that length is an index. A text too
    long raises [OverflowError], a list too long [MemoryError]. *)
Definition py_repeat (text in_place : bool) (len n : Z) : result pyval :=
  if negb (fits_index n) then Raise OverflowError
  else if (n <=? 0) || (len =? 0) then Ok (PSeq text 0)
  else if (n =? 1) && (text || in_place) then Ok (PSeq text len)
  else if ssize_max / n <? len
       then Raise (if text then OverflowError else MemoryError)
  else if allocates (if text then Text else Items) (len * n)
       then Ok (PSeq text (len * n))
  else Raise MemoryError.

(** [acc * dim], the step of [num_elements *= dim]. *)
Definition py_mul (acc : pyval) (dim : json) : result pyval :=
  match acc, dim with
  | PNum (NInt a), JInt b => Ok (PNum (NInt (a * b)))
  | PNum (NInt a), JBool b => Ok (PNum (NInt (a * Z_of_bool b)))
  | PNum (NInt a), JFloat y =>
      (x <- float_of_int a ;; Ok (PNum (NFloat (fmul x y))))%result
  | PNum (NInt a), JStr s => py_repeat true false (Z.of_nat (String.length s)) a
  | PNum (NInt a), JList elems =>
      py_repeat false false (Z.of_nat (List.length elems)) a
  | PNum (NFloat x), JInt b =>
      (y <- float_of_int b ;; Ok (PNum (NFloat (fmul x y))))%result
  | PNum (NFloat x), JBool b => Ok (PNum (NFloat (fmul x (of_Z (Z_of_bool b)))))
  | PNum (NFloat x), JFloat y => Ok (PNum (NFloat (fmul x y)))
  | PSeq text len, JInt b => py_repeat text true len b
  | PSeq text len, JBool b => py_repeat text true len (Z_of_bool b)
  | _, _ => Raise TypeError
  end.

(** The body of [for dim in shape: num_elements *= dim]. *)
Fixpoint multiply_out (dims : list json) (num_elements : pyval) : result pyval :=
  match dims with
  | [] => Ok num_elements
  | dim :: rest =>
      (num_elements <- py_mul num_elements dim ;; multiply_out rest num_elements)%result
  end.

(** Lines 30 to 36: the element count of one descriptor and its dtype. *)
Definition tensor_entry (value : json) : result (json * pyval) :=
  (dtype <- getitem value "dtype" ;;
   shape <- getitem value "shape" ;;
   dims <- iterate shape ;;
   num_elements <- multiply_out dims (PNum (NInt 1)) ;;
   Ok (dtype, num_elements))%result.

(** Lines 26 to 39: the loop over [header.items()]. *)
Fixpoint tensor_loop (items : list (string * json)) (dtypes : pydict)
    (total_elements : num) : result (pydict * num) :=
  match items with
  | [] => Ok (dtypes, total_elements)
  | (key, value) :: rest =>
      if String.eqb key metadata_key then tensor_loop rest dtypes total_elements
      else
        (entry <- tensor_entry value ;;
         let '(dtype, num_elements) := entry in
         k <- to_key dtype ;;
         count <- py_add (dict_get dtypes k (NInt 0)) num_elements ;;
         total_elements <- py_add total_elements num_elements ;;
         tensor_loop rest (dict_set dtypes k count) total_elements)%result
  end.

(** A text that standard output can encode. *)
Definition printable (text : string) : bool :=
  forallb (fun c => is_ascii c || stdout_encodes c) (list_ascii_of_string text).

(** [print(text)]: the text is encoded in full before anything is
    written. *)
Definition print (text : string) : io unit :=
  if printable text then emit (EvPrint text) else throw UnicodeEncodeError.

(** A read that returns: the next [size] bytes, fewer at the end of the
    file. *)
Definition served (size : Z) (w : world) : result (list byte) * world :=
  let got := firstn (Z.to_nat size) (unread w) in
  (Ok got, mkWorld (skipn (Z.to_nat size) (unread w)) (events w ++ [EvRead size got])).

(** [f.read(size)]. A size that the file holds is served: a file is
    shorter than [bytes_max], and the machine that holds it is taken to hold
    its header. For a larger size the reader allocates [size] bytes before
    it reads: a size beyond [bytes_max] raises [OverflowError], and one that
    the machine cannot allocate [MemoryError]; nothing is read then. *)
Definition f_read (size : Z) : io (list byte) :=
  fun w =>
    if size <=? Z.of_nat (List.length (unread w)) then served size w
    else if bytes_max <? size then (Raise OverflowError, w)
    else if allocates Bytes size then served size w
    else (Raise MemoryError, w).

(** What an f-string makes of a bucket key and of a count. *)
Definition format_key (k : key) : result string :=
  match k with
  | KNone => Ok "None"
  | KBool b => Ok (if b then "True" else "False")
  | KInt n => py_str n
  | KFloat x => Ok (float_repr x)
  | KStr s => Ok s
  end.

Definition format_num (v : num) : result string :=
  match v with
  | NInt n => py_str n
  | NFloat x => Ok (float_repr x)
  end.

(** The f-string of line 43: its fields are evaluated and formatted from
    left to right, the dtype, then the count, then the percentage. *)
Definition row (dtype : key) (count total_elements : num) : result string :=
  (label <- format_key dtype ;;
   amount <- format_num count ;;
   pct <- percentage count total_elements ;;
   Ok (row_text label amount pct))%result.

(** Lines 42 and 43: the loop over [dtypes.items()]. *)
Fixpoint report_loop (rows : pydict) (total_elements : num) : io unit :=
  match rows with
  | [] => ret tt
  | (dtype, count) :: rest =>
      (text <- lift (row dtype count total_elements) ;;
       print text ;;
       report_loop rest total_elements)%io
  end.

(** Lines 21 to 43: what the script does with the decoded header. *)
Definition analyze (header : json) : io unit :=
  (print (nl ++ "Tensor analysis:") ;;
   items <- lift (py_items header) ;;
   agg <- lift (tensor_loop items [] (NInt 0)) ;;
   let '(dtypes, total_elements) := agg in
   print (nl ++ "Data Type Distribution (by number of elements):") ;;
   report_loop dtypes total_elements)%io.

Definition loads (doc : list byte) : io json :=
  (emit (EvLoads doc) ;;
   lift (match json_loads doc with
         | inl v => Ok v
         | inr e => Raise (DecodeError e)
         end))%io.

(** The whole script, from the first read on the opened file. *)
Definition main : io unit :=
  (header_size_bytes <- f_read 8 ;;
   (if negb (Nat.eqb (List.length header_size_bytes) 8)
    then print "File too short" ;; sys_exit 1
    else ret tt) ;;
   header_size <- lift (unpack_Q header_size_bytes) ;;
   size_text <- lift (py_str header_size) ;;
   print ("Header size: " ++ size_text) ;;
   header_json <- f_read header_size ;;
   header <- loads header_json ;;
   analyze header)%io.

(** A run of the script on a file. *)
Definition run (file : list byte) : result unit * world :=
  main (mkWorld file []).

(** ** The words of the specification *)

(** The header entries that describe tensors: all but [__metadata__]. *)
Definition is_tensor (entry : string * json) : bool :=
  negb (String.eqb (fst entry) metadata_key).

Definition tensors (items : list (string * json)) : list (string * json) :=
  filter is_tensor items.

(** A sequence of non-negative integer dimensions. *)
Fixpoint dimensions (elems : list json) : option (list Z) :=
  match elems with
  | [] => Some []
  | JInt n :: rest =>
      if 0 <=? n then option_map (cons n) (dimensions rest) else None
  | _ :: _ => None
  end.

(** A well-formed tensor descriptor: a text [dtype] and a [shape] that is a
    sequence of non-negative integers. *)
Definition descriptor (value : json) : option (string * list Z) :=
  match getitem value "dtype", getitem value "shape" with
  | Ok (JStr dtype), Ok (JList elems) => option_map (pair dtype) (dimensions elems)
  | _, _ => None
  end.

Definition well_formed (items : list (string * json)) : bool :=
  forallb (fun entry => match descriptor (snd entry) with
                        | Some _ => true
                        | None => false
                        end) (tensors items).

(** The product of the dimensions of a shape; 1 for the empty shape. *)
Definition product (shape : list Z) : Z := fold_right Z.mul 1 shape.

(** The well-formed descriptors of a header, in header order. *)
Definition descriptors (items : list (string * json)) : list (string * list Z) :=
  flat_map (fun entry => match descriptor (snd entry) with
                         | Some d => [d]
                         | None => []
                         end) (tensors items).

Definition sum_Z (l : list Z) : Z := fold_right Z.add 0 l.

(** The sum over all tensors of the product of their dimensions. *)
Definition spec_total (items : list (string * json)) : Z :=
  sum_Z (map (fun d => product (snd d)) (descriptors items)).

(** The same sum over the tensors of one dtype. *)
Definition dtype_total (dtype : string) (items : list (string * json)) : Z :=
  sum_Z (map (fun d => product (snd d))
           (filter (fun d => String.eqb (fst d) dtype) (descriptors items))).

(** Buckets with text labels and integer counts, and the dictionary they
    stand for. *)
Definition counts : Type := list (string * Z).

Definition of_counts (l : counts) : pydict :=
  map (fun sc => (KStr (fst sc), NInt (snd sc))) l.

(** Add [n] to the bucket of [dtype], creating it last if it is new. *)
Fixpoint add_count (l : counts) (dtype : string) (n : Z) : counts :=
  match l with
  | [] => [(dtype, n)]
  | (d, c) :: rest =>
      if String.eqb d dtype then (d, c + n) :: rest
      else (d, c) :: add_count rest dtype n
  end.

(** The buckets after the descriptors [descs] have been added to [l]. *)
Definition accumulate (descs : list (string * list Z)) (l : counts) : counts :=
  fold_left (fun l d => add_count l (fst d) (product (snd d))) descs l.

(** The count of a dtype in the buckets; 0 when it has no bucket. *)
Fixpoint count_of (l : counts) (dtype : string) : Z :=
  match l with
  | [] => 0
  | (d, c) :: rest => if String.eqb d dtype then c else count_of rest dtype
  end.

(** The sum of the bucket counts, when they are all integers. *)
Fixpoint sum_counts (d : pydict) : option Z :=
  match d with
  | [] => Some 0
  | (_, NInt n) :: rest => option_map (Z.add n) (sum_counts rest)
  | (_, NFloat _) :: _ => None
  end.

(** The dtype of each tensor entry in header order, as a dictionary key. *)
Definition dtype_keys (items : list (string * json)) : list key :=
  flat_map
    (fun entry =>
       match getitem (snd entry) "dtype" with
       | Ok dtype => match to_key dtype with Ok k => [k] | Raise _ => [] end
       | Raise _ => []
       end) (tensors items).

(** First-seen order: scanning [ks] from the left, a key is appended to
    [seen] when no key already there equals it. *)
Fixpoint first_seen_from (seen ks : list key) : list key :=
  match ks with
  | [] => seen
  | k :: rest =>
      first_seen_from
        (if existsb (fun k' => key_eqb k' k) seen then seen else seen ++ [k]) rest
  end.

Definition first_seen (ks : list key) : list key := first_seen_from [] ks.

(** The same order on text labels, said the other way round: a label stays
    where it first occurs, its later occurrences are dropped. *)
Fixpoint keep_first (ss : list string) : list string :=
  match ss with
  | [] => []
  | s :: rest => s :: filter (fun s' => negb (String.eqb s s')) (keep_first rest)
  end.

(** The first eight bytes read as an unsigned little-endian number:
    byte [i] weighs [256^i]. *)
Fixpoint le_value (bs : list byte) : Z :=
  match bs with
  | [] => 0
  | b :: rest => Z_of_byte b + 256 * le_value rest
  end.

(** The header length a file announces and the bytes the script decodes. *)
Definition header_size_of (file : list byte) : Z := le_uint (firstn 8 file).

Definition header_json_of (file : list byte) : list byte :=
  firstn (Z.to_nat (header_size_of file)) (skipn 8 file).

(** What is left of the file after the header. *)
Definition after_header (file : list byte) : list byte :=
  skipn (Z.to_nat (header_size_of file)) (skipn 8 file).

(** What a run has done when it asks for the header. *)
Definition opening (file : list byte) : list event :=
  [ EvRead 8 (firstn 8 file);
    EvPrint ("Header size: " ++ str_Z (header_size_of file)) ].

(** What a run has done when it calls [json.loads]. *)
Definition prologue (file : list byte) : list event :=
  [ EvRead 8 (firstn 8 file);
    EvPrint ("Header size: " ++ str_Z (header_size_of file));
    EvRead (header_size_of file) (header_json_of file);
    EvLoads (header_json_of file) ].

(** How the read of the header fails, if it does: the file does not hold
    the announced length, and the length is beyond a bytes object or beyond
    the memory of the machine. *)
Definition header_read (file : list byte) : option exn :=
  if 8 + header_size_of file <=? Z.of_nat (List.length file) then None
  else if bytes_max <? header_size_of file then Some OverflowError
  else if allocates Bytes (header_size_of file) then None
  else Some MemoryError.

Definition tensor_heading : string := (nl ++ "Tensor analysis:")%string.

Definition distribution_heading : string :=
  (nl ++ "Data Type Distribution (by number of elements):")%string.

(** The rows [report_loop] prints before it ends, and how it ends. *)
Fixpoint report_rows (rows : pydict) (total_elements : num)
    : list string * result unit :=
  match rows with
  | [] => ([], Ok tt)
  | (dtype, count) :: rest =>
      match row dtype count total_elements with
      | Ok text =>
          if printable text
          then let '(lines, r) := report_rows rest total_elements in
               (text :: lines, r)
          else ([], Raise UnicodeEncodeError)
      | Raise e => ([], Raise e)
      end
  end.

(** The texts [analyze] prints, and how it ends. *)
Definition analysis (header : json) : list string * result unit :=
  match py_items header with
  | Raise e => ([tensor_heading], Raise e)
  | Ok items =>
      match tensor_loop items [] (NInt 0) with
      | Raise e => ([tensor_heading], Raise e)
      | Ok (dtypes, total_elements) =>
          let '(lines, r) := report_rows dtypes total_elements in
          (tensor_heading :: distribution_heading :: lines, r)
      end
  end.

(** The text of a dtype and of a count in a row: what [str] gives. *)
Definition key_text (k : key) : string :=
  match k with
  | KNone => "None"
  | KBool b => if b then "True" else "False"
  | KInt n => str_Z n
  | KFloat x => float_repr x
  | KStr s => s
  end.

Definition num_text (v : num) : string :=
  match v with
  | NInt n => str_Z n
  | NFloat x => float_repr x
  end.

(** A text without a character beyond ASCII. *)
Definition ascii_text (text : string) : bool :=
  forallb is_ascii (list_ascii_of_string text).

(** A failure names the key [k] when the exception carries [k]; of the
    exceptions of a run only [KeyError] carries a key. *)
Definition names_key (e : exn) (k : string) : bool :=
  match e with
  | KeyError k' => String.eqb k' k
  | _ => false
  end.

(** A value that lacks the field: subscripting it with the field fails. *)
Definition lacks (value : json) (field : string) : bool :=
  match getitem value field with
  | Ok _ => false
  | Raise _ => true
  end.

(** The exceptions the loop over the header can raise. *)
Definition loop_error (e : exn) : Prop :=
  match e with
  | KeyError _ | TypeError | OverflowError | MemoryError => True
  | _ => False
  end.

(** The two digits after the point and the digits before it, for a number
    of hundredths. *)
Definition hundredths_text (c : Z) : string :=
  (str_Z (c / 100) ++ "." ++ str_Z (c mod 100 / 10) ++ str_Z (c mod 10))%string.

(** ** The sentences of the specification that the script does not bear out *)

(** On a zero grand total, for the header with members [items]: the run
    fails on the division and the buckets are empty. *)
Definition zero_total_sentence (items : list (string * json)) : Prop :=
  forall dtypes,
    tensor_loop items [] (NInt 0) = Ok (dtypes, NInt 0) ->
    snd (analysis (JDict items)) = Raise ZeroDivisionError /\ dtypes = [].

(** On a descriptor without [dtype] or [shape], for the header with members
    [items]: the run fails with non-zero status and the failure names the
    key of the entry. *)
Definition missing_field_sentence (items : list (string * json)) : Prop :=
  forall name value,
    In (name, value) items ->
    is_tensor (name, value) = true ->
    lacks value "dtype" = true \/ lacks value "shape" = true ->
    exists e,
      snd (analysis (JDict items)) = Raise e
      /\ exit_status (Raise e) <> 0
      /\ names_key e name = true.

Definition one_of (chars : string) (c : ascii) : bool :=
  existsb (Ascii.eqb c) (list_ascii_of_string chars).

Definition is_digit (c : ascii) : bool := one_of "0123456789" c.

(** A text that ends with a point and two digits. *)
Definition two_decimals (s : string) : Prop :=
  exists whole d1 d2,
    is_digit d1 = true /\ is_digit d2 = true
    /\ s = (whole ++ "." ++ String d1 (String d2 EmptyString))%string.

(** On the report, for the header with members [items]: when the report
    ends normally, every row reads [<dtype>: <count> elements (<p>%)] with
    a percentage [p] of exactly two decimals. *)
Definition report_sentence (items : list (string * json)) : Prop :=
  forall dtypes total_elements lines,
    tensor_loop items [] (NInt 0) = Ok (dtypes, total_elements) ->
    report_rows dtypes total_elements = (lines, Ok tt) ->
    Forall (fun line =>
              exists label amount p,
                line = (label ++ ": " ++ amount ++ " elements (" ++ p ++ "%)")%string
                /\ two_decimals p) lines.


(** *** JSON text, after RFC 8259 *)

Definition quote : ascii := ascii_of_nat 34.

Definition backslash : ascii := ascii_of_nat 92.

Definition is_ws (c : ascii) : bool :=
  Ascii.eqb c " " || Ascii.eqb c (ascii_of_nat 9)
  || Ascii.eqb c (ascii_of_nat 10) || Ascii.eqb c (ascii_of_nat 13).

Definition is_hex (c : ascii) : bool := one_of "0123456789abcdefABCDEF" c.

(** A control character, below the space. *)
Definition is_control (c : ascii) : bool :=
  match c with
  | Ascii _ _ _ _ _ b5 b6 b7 => negb (b5 || b6 || b7)
  end.

Fixpoint skip (p : ascii -> bool) (s : list ascii) : list ascii :=
  match s with
  | c :: rest => if p c then skip p rest else s
  | [] => []
  end.

(** What follows the literal [lit] at the head of [s]. *)
Fixpoint after (lit s : list ascii) : option (list ascii) :=
  match lit, s with
  | [], _ => Some s
  | c :: lit', c' :: s' => if Ascii.eqb c c' then after lit' s' else None
  | _ :: _, [] => None
  end.

(** What follows a string, from behind its opening quote: characters other
    than the quote, the backslash and the control characters, and the
    escapes. *)
Fixpoint string_tail (s : list ascii) : option (list ascii) :=
  match s with
  | [] => None
  | c :: rest =>
      if Ascii.eqb c quote then Some rest
      else if Ascii.eqb c backslash then
        match rest with
        | e :: rest' =>
            if Ascii.eqb e quote || one_of "\/bfnrt" e then string_tail rest'
            else if Ascii.eqb e "u" then
              match rest' with
              | h1 :: h2 :: h3 :: h4 :: rest'' =>
                  if is_hex h1 && is_hex h2 && is_hex h3 && is_hex h4
                  then string_tail rest'' else None
              | _ => None
              end
            else None
        | [] => None
        end
      else if is_control c then None
      else string_tail rest
  end.

(** What follows one digit or more. *)
Definition digits_tail (s : list ascii) : option (list ascii) :=
  match s with
  | d :: rest => if is_digit d then Some (skip is_digit rest) else None
  | [] => None
  end.

(** What follows a number: an optional minus, [0] or digits that do not
    start with [0], an optional fraction, an optional exponent. *)
Definition number_tail (s : list ascii) : option (list ascii) :=
  let unsigned :=
    match s with
    | c :: rest => if Ascii.eqb c "-" then rest else s
    | [] => s
    end in
  let whole :=
    match unsigned with
    | d :: rest =>
        if Ascii.eqb d "0" then Some rest
        else if is_digit d then Some (skip is_digit rest) else None
    | [] => None
    end in
  let fraction :=
    match whole with
    | Some (c :: rest) => if Ascii.eqb c "." then digits_tail rest else whole
    | _ => whole
    end in
  match fraction with
  | Some (c :: rest) =>
      if one_of "eE" c
      then digits_tail match rest with
                       | sign :: rest' => if one_of "+-" sign then rest' else rest
                       | [] => rest
                       end
      else fraction
  | _ => fraction
  end.

(** What follows a value, the members of an object, the elements of an
    array; [fuel] bounds the depth of the recursion. *)
Fixpoint value_tail (fuel : nat) (s : list ascii) : option (list ascii) :=
  match fuel with
  | O => None
  | S fuel =>
      match s with
      | [] => None
      | c :: rest =>
          if Ascii.eqb c "{" then
            match skip is_ws rest with
            | c' :: rest' =>
                if Ascii.eqb c' "}" then Some rest'
                else members_tail fuel (c' :: rest')
            | [] => None
            end
          else if Ascii.eqb c "[" then
            match skip is_ws rest with
            | c' :: rest' =>
                if Ascii.eqb c' "]" then Some rest'
                else elements_tail fuel (c' :: rest')
            | [] => None
            end
          else if Ascii.eqb c quote then string_tail rest
          else if Ascii.eqb c "t" then after (list_ascii_of_string "rue") rest
          else if Ascii.eqb c "f" then after (list_ascii_of_string "alse") rest
          else if Ascii.eqb c "n" then after (list_ascii_of_string "ull") rest
          else number_tail s
      end
  end
with members_tail (fuel : nat) (s : list ascii) : option (list ascii) :=
  match fuel with
  | O => None
  | S fuel =>
      match s with
      | c :: rest =>
          if Ascii.eqb c quote then
            match string_tail rest with
            | Some s1 =>
                match skip is_ws s1 with
                | c1 :: s2 =>
                    if Ascii.eqb c1 ":" then
                      match value_tail fuel (skip is_ws s2) with
                      | Some s3 =>
                          match skip is_ws s3 with
                          | c3 :: s4 =>
                              if Ascii.eqb c3 "}" then Some s4
                              else if Ascii.eqb c3 ","
                                   then members_tail fuel (skip is_ws s4)
                                   else None
                          | [] => None
                          end
                      | None => None
                      end
                    else None
                | [] => None
                end
            | None => None
            end
          else None
      | [] => None
      end
  end
with elements_tail (fuel : nat) (s : list ascii) : option (list ascii) :=
  match fuel with
  | O => None
  | S fuel =>
      match value_tail fuel s with
      | Some s1 =>
          match skip is_ws s1 with
          | c :: s2 =>
              if Ascii.eqb c "]" then Some s2
              else if Ascii.eqb c ","
                   then elements_tail fuel (skip is_ws s2)
                   else None
          | [] => None
          end
      | None => None
      end
  end.

(** Bytes that are a JSON text: one value, with white space around it. *)
Definition valid_json (doc : list byte) : bool :=
  let s := map ascii_of_byte doc in
  match value_tail (2 * List.length s + 2) (skip is_ws s) with
  | Some rest =>
      match skip is_ws rest with
      | [] => true
      | _ :: _ => false
      end
  | None => false
  end.

(** On a header that is not JSON, for a file: the run ends at the call of
    [json.loads], with the error of the decoder. *)
Definition malformed_header_sentence (file : list byte) : Prop :=
  valid_json (header_json_of file) = false ->
  exists e,
    fst (run file) = Raise (DecodeError e)
    /\ events (snd (run file)) = prologue file.

(** ** Further words, for the properties beyond the specification *)

(** A sequence of integer dimensions of either sign: the script multiplies
    them as they come. *)
Fixpoint integers (elems : list json) : option (list Z) :=
  match elems with
  | [] => Some []
  | JInt n :: rest => option_map (cons n) (integers rest)
  | _ :: _ => None
  end.

(** A descriptor with a text [dtype] and integer dimensions of either sign. *)
Definition signed_descriptor (value : json) : option (string * list Z) :=
  match getitem value "dtype", getitem value "shape" with
  | Ok (JStr dtype), Ok (JList elems) => option_map (pair dtype) (integers elems)
  | _, _ => None
  end.

Definition signed_descriptors (items : list (string * json))
    : list (string * list Z) :=
  flat_map (fun entry => match signed_descriptor (snd entry) with
                         | Some d => [d]
                         | None => []
                         end) (tensors items).

Definition integer_shaped (items : list (string * json)) : bool :=
  forallb (fun entry => match signed_descriptor (snd entry) with
                        | Some _ => true
                        | None => false
                        end) (tensors items).

Definition signed_total (items : list (string * json)) : Z :=
  sum_Z (map (fun d => product (snd d)) (signed_descriptors items)).



(** No two of the keys are equal as dictionary keys. *)
Definition distinct_keys (ks : list key) : Prop :=
  ForallOrdPairs (fun k1 k2 => key_eqb k1 k2 = false) ks.

(** ** Reading the length prefix *)

Lemma Z_of_byte_range (b : byte) : 0 <= Z_of_byte b < 256.
Proof.
  unfold Z_of_byte. pose proof (Byte.to_N_bounded b) as Hb. lia.
Qed.

Lemma lor_shiftl_8 (a x : Z) :
  0 <= a < 256 -> Z.lor a (Z.shiftl x 8) = a + 256 * x.
Proof.
  intros Ha.
  rewrite Z.shiftl_mul_pow2 by lia.
  rewrite <- Z.lxor_lor, <- Z.add_nocarry_lxor; [change (2 ^ 8) with 256; lia | | ].
  all: apply Z.bits_inj'; intros n Hn; rewrite Z.land_spec, Z.bits_0;
    destruct (Z.lt_ge_cases n 8) as [Hlt | Hge];
    [ rewrite Z.mul_pow2_bits_low by lia; apply andb_false_r
    | replace (Z.testbit a n) with false; [reflexivity | ];
      symmetry; destruct (Z.eq_dec a 0) as [-> | Hnz];
      [ apply Z.bits_0
      | apply Z.bits_above_log2; [lia | ];
        apply Z.log2_lt_pow2; [lia | ];
        apply Z.lt_le_trans with (2 ^ 8); [change (2 ^ 8) with 256; lia | ];
        apply Z.pow_le_mono_r; lia ] ].
Qed.

Lemma le_uint_value (bs : list byte) : le_uint bs = le_value bs.
Proof.
  induction bs as [| b rest IH]; cbn [le_uint le_value]; [reflexivity | ].
  rewrite lor_shiftl_8 by apply Z_of_byte_range. now rewrite IH.
Qed.

Lemma le_value_range (bs : list byte) :
  0 <= le_value bs < 256 ^ Z.of_nat (List.length bs).
Proof.
  induction bs as [| b rest IH]; [simpl; lia | ].
  cbn [le_value List.length]. rewrite Nat2Z.inj_succ, Z.pow_succ_r by lia.
  pose proof (Z_of_byte_range b). lia.
Qed.

(** ** Texts that can be printed *)

Lemma append_assoc (s1 s2 s3 : string) :
  ((s1 ++ s2) ++ s3 = s1 ++ (s2 ++ s3))%string.
Proof.
  induction s1 as [| c s1 IH]; [reflexivity | ]. cbn. now rewrite IH.
Qed.

Lemma list_ascii_app (s1 s2 : string) :
  list_ascii_of_string (s1 ++ s2)
  = list_ascii_of_string s1 ++ list_ascii_of_string s2.
Proof.
  induction s1 as [| c s1 IH]; [reflexivity | ]. cbn. now rewrite IH.
Qed.

Lemma ascii_text_app (s1 s2 : string) :
  ascii_text (s1 ++ s2) = ascii_text s1 && ascii_text s2.
Proof. unfold ascii_text. now rewrite list_ascii_app, forallb_app. Qed.

Lemma printable_app (s1 s2 : string) :
  printable (s1 ++ s2) = printable s1 && printable s2.
Proof. unfold printable. now rewrite list_ascii_app, forallb_app. Qed.

Lemma ascii_text_printable (s : string) :
  ascii_text s = true -> printable s = true.
Proof.
  unfold ascii_text, printable. rewrite !forallb_forall.
  intros H c Hc. now rewrite (H c Hc).
Qed.

Lemma ascii_text_uint (d : Decimal.uint) :
  ascii_text (NilEmpty.string_of_uint d) = true.
Proof. induction d; cbn; auto. Qed.

Lemma ascii_text_str_Z (n : Z) : ascii_text (str_Z n) = true.
Proof.
  unfold str_Z. destruct (Z.to_int n) as [d | d]; cbn [NilEmpty.string_of_int].
  - apply ascii_text_uint.
  - change (String "-" ?s) with ("-" ++ s)%string.
    exact (ascii_text_uint d).
Qed.

Lemma ascii_text_hundredths (c : Z) : ascii_text (hundredths_text c) = true.
Proof.
  unfold hundredths_text. now rewrite !ascii_text_app, !ascii_text_str_Z.
Qed.

Lemma ascii_text_format_2f (x : float) : ascii_text (format_2f x) = true.
Proof.
  destruct x as [ | s | s | s m e]; cbn [format_2f];
    [reflexivity | now destruct s | now destruct s | ].
  destruct (scale (Z.pos m * 100) 1 (- e)) as [a b].
  rewrite !ascii_text_app, !ascii_text_str_Z. now destruct s.
Qed.

Lemma print_ok (text : string) (w : world) :
  printable text = true ->
  print text w = (Ok tt, mkWorld (unread w) (events w ++ [EvPrint text])).
Proof. unfold print. now intros ->. Qed.

Lemma print_fails (text : string) (w : world) :
  printable text = false -> print text w = (Raise UnicodeEncodeError, w).
Proof. unfold print. now intros ->. Qed.

(** ** Integers that can be printed *)

Lemma str_limit_above_64 : 2 ^ 64 <= str_limit.
Proof. apply Z.leb_le. vm_compute. reflexivity. Qed.

Lemma py_str_ok (n : Z) : Z.abs n < str_limit -> py_str n = Ok (str_Z n).
Proof.
  intros H. unfold py_str. destruct (Z.leb_spec str_limit (Z.abs n)); [lia | ].
  reflexivity.
Qed.

Lemma py_str_fails (n : Z) : str_limit <= Z.abs n -> py_str n = Raise ValueError.
Proof.
  intros H. unfold py_str. destruct (Z.leb_spec str_limit (Z.abs n)); [ | lia].
  reflexivity.
Qed.

(** ** The run up to the decoded header *)

Lemma header_size_range (file : list byte) :
  0 <= header_size_of file < 2 ^ 64.
Proof.
  unfold header_size_of. rewrite le_uint_value.
  pose proof (le_value_range (firstn 8 file)) as R.
  assert (L : (List.length (firstn 8 file) <= 8)%nat)
    by (rewrite length_firstn; apply Nat.le_min_l).
  assert (P : 256 ^ Z.of_nat (List.length (firstn 8 file)) <= 256 ^ 8)
    by (apply Z.pow_le_mono_r; lia).
  change (256 ^ 8) with (2 ^ 64) in P. lia.
Qed.

Lemma header_size_nonneg (file : list byte) : 0 <= header_size_of file.
Proof. apply header_size_range. Qed.

Lemma header_size_text (file : list byte) :
  py_str (header_size_of file) = Ok (str_Z (header_size_of file)).
Proof.
  apply py_str_ok. pose proof (header_size_range file).
  pose proof str_limit_above_64. lia.
Qed.

Lemma header_size_printable (file : list byte) :
  printable ("Header size: " ++ str_Z (header_size_of file)) = true.
Proof.
  apply ascii_text_printable. rewrite ascii_text_app, ascii_text_str_Z.
  reflexivity.
Qed.

Lemma f_read_8 (w : world) :
  f_read 8 w
  = (Ok (firstn 8 (unread w)),
     mkWorld (skipn 8 (unread w)) (events w ++ [EvRead 8 (firstn 8 (unread w))])).
Proof.
  unfold f_read, served, allocates. change (bytes_max <? 8) with false.
  change (8 <=? small_object) with true. cbn [orb].
  now destruct (8 <=? Z.of_nat (List.length (unread w))).
Qed.

Lemma run_short (file : list byte) :
  (List.length file < 8)%nat ->
  run file
  = (Raise (SystemExit 1), mkWorld [] [EvRead 8 file; EvPrint "File too short"]).
Proof.
  intros Hlen. unfold run, main, io_bind. rewrite f_read_8.
  cbn [unread events app].
  rewrite firstn_all2, skipn_all2 by lia.
  destruct (Nat.eqb_spec (List.length file) 8) as [E | _]; [lia | ].
  reflexivity.
Qed.

(** The run as far as the header is asked for. *)
Lemma run_opening (file : list byte) :
  (8 <= List.length file)%nat ->
  run file
  = ((header_json <- f_read (header_size_of file) ;;
      header <- loads header_json ;;
      analyze header)%io (mkWorld (skipn 8 file) (opening file))).
Proof.
  intros Hlen. unfold run, main. unfold io_bind at 1. rewrite f_read_8.
  cbn [unread events app].
  assert (L : List.length (firstn 8 file) = 8%nat) by (rewrite length_firstn; lia).
  unfold io_bind at 1. rewrite L. cbn [Nat.eqb negb ret].
  unfold io_bind at 1, lift at 1, unpack_Q. rewrite L. cbn [Nat.eqb].
  fold (header_size_of file).
  unfold io_bind at 1, lift at 1. rewrite header_size_text.
  unfold io_bind at 1. rewrite print_ok by apply header_size_printable.
  reflexivity.
Qed.

Lemma run_long (file : list byte) :
  (8 <= List.length file)%nat ->
  run file
  = match header_read file with
    | Some e => (Raise e, mkWorld (skipn 8 file) (opening file))
    | None =>
        match json_loads (header_json_of file) with
        | inl header => analyze header (mkWorld (after_header file) (prologue file))
        | inr e => (Raise (DecodeError e), mkWorld (after_header file) (prologue file))
        end
    end.
Proof.
  intros Hlen. rewrite (run_opening file Hlen).
  unfold io_bind at 1, f_read, served, header_read. cbn [unread events].
  rewrite length_skipn.
  replace (header_size_of file <=? Z.of_nat (List.length file - 8))
    with (8 + header_size_of file <=? Z.of_nat (List.length file))
    by (destruct (Z.leb_spec (8 + header_size_of file) (Z.of_nat (List.length file)));
        destruct (Z.leb_spec (header_size_of file) (Z.of_nat (List.length file - 8)));
        lia).
  assert (Served :
    (header <- loads (header_json_of file) ;; analyze header)%io
      (mkWorld (after_header file)
         (opening file
            ++ [EvRead (header_size_of file) (header_json_of file)]))
    = match json_loads (header_json_of file) with
      | inl header => analyze header (mkWorld (after_header file) (prologue file))
      | inr e => (Raise (DecodeError e), mkWorld (after_header file) (prologue file))
      end).
  { unfold loads, io_bind, emit, lift. cbn [unread events app opening].
    fold (prologue file).
    destruct (json_loads (header_json_of file)); reflexivity. }
  fold (header_json_of file). fold (after_header file).
  destruct (8 + header_size_of file <=? Z.of_nat (List.length file));
    [exact Served | ].
  destruct (bytes_max <? header_size_of file); [reflexivity | ].
  destruct (allocates Bytes (header_size_of file)); [exact Served | reflexivity].
Qed.

Lemma header_read_within (file : list byte) :
  8 + header_size_of file <= Z.of_nat (List.length file) ->
  header_read file = None.
Proof.
  intros H. unfold header_read.
  destruct (Z.leb_spec (8 + header_size_of file) (Z.of_nat (List.length file)));
    [reflexivity | lia].
Qed.

(** ** The report and the analysis as lists of printed texts *)

Lemma report_loop_rows (rows : pydict) (total_elements : num) (w : world) :
  report_loop rows total_elements w
  = (snd (report_rows rows total_elements),
     mkWorld (unread w)
       (events w ++ map EvPrint (fst (report_rows rows total_elements)))).
Proof.
  revert w. induction rows as [| [dtype count] rest IH]; intros [u evs].
  - cbn. now rewrite app_nil_r.
  - cbn [report_loop report_rows]. unfold io_bind, lift.
    destruct (row dtype count total_elements) as [text | e].
    + unfold print. destruct (printable text).
      * cbn [emit unread events]. rewrite IH.
        destruct (report_rows rest total_elements) as [lines r].
        cbn [fst snd unread events map]. now rewrite <- app_assoc.
      * cbn. now rewrite app_nil_r.
    + cbn. now rewrite app_nil_r.
Qed.

Lemma analyze_analysis (header : json) (w : world) :
  analyze header w
  = (snd (analysis header),
     mkWorld (unread w) (events w ++ map EvPrint (fst (analysis header)))).
Proof.
  destruct w as [u evs]. unfold analyze, analysis.
  unfold io_bind at 1. rewrite print_ok by reflexivity.
  fold tensor_heading. unfold io_bind at 1, lift at 1. cbn [unread events].
  destruct (py_items header) as [items | e]; [ | reflexivity].
  unfold io_bind at 1, lift at 1.
  destruct (tensor_loop items [] (NInt 0)) as [[dtypes total_elements] | e];
    [ | reflexivity].
  unfold io_bind at 1. rewrite print_ok by reflexivity.
  fold distribution_heading. cbn [unread events].
  rewrite report_loop_rows.
  destruct (report_rows dtypes total_elements) as [lines r].
  cbn [fst snd unread events map]. now rewrite <- !app_assoc.
Qed.

Lemma stdout_app (evs1 evs2 : list event) :
  stdout (evs1 ++ evs2) = (stdout evs1 ++ stdout evs2)%string.
Proof.
  induction evs1 as [| ev rest IH]; [reflexivity | ].
  destruct ev; cbn [app stdout]; rewrite IH; [reflexivity | | reflexivity].
  now rewrite !append_assoc.
Qed.

(** ** Percentages: the arithmetic of binary64 *)

Lemma round_half_even_nonneg (a b : Z) :
  0 <= a -> 0 < b -> 0 <= round_half_even a b.
Proof.
  intros Ha Hb. unfold round_half_even.
  pose proof (Z.div_pos a b Ha Hb).
  destruct (2 * (a mod b) <? b); [lia | ].
  destruct (b <? 2 * (a mod b)); [lia | ].
  destruct (Z.even (a / b)); lia.
Qed.

Lemma scale_nonneg (n d k : Z) :
  0 <= n -> 0 < d -> 0 <= fst (scale n d k) /\ 0 < snd (scale n d k).
Proof.
  intros Hn Hd. unfold scale. destruct (0 <=? k) eqn:E; cbn [fst snd].
  - split; [lia | ]. apply Z.mul_pos_pos; [lia | ]. apply Z.pow_pos_nonneg; lia.
  - split; [ | lia]. apply Z.mul_nonneg_nonneg; [lia | ].
    apply Z.pow_nonneg. lia.
Qed.

Lemma ilog2_ratio_le (n d : Z) : ilog2_ratio n d <= Z.log2 n - Z.log2 d.
Proof.
  unfold ilog2_ratio. destruct (scale n d (Z.log2 n - Z.log2 d)) as [a b].
  destruct (a <? b); lia.
Qed.

Lemma round_half_even_upper (a b N : Z) :
  0 < b -> 0 <= a -> a <= N * b -> round_half_even a b <= N.
Proof.
  intros Hb Ha Hle. unfold round_half_even.
  assert (Hq : a / b <= N) by (apply Z.div_le_upper_bound; lia).
  pose proof (Z.mod_pos_bound a b Hb) as Hr.
  pose proof (Z.div_mod a b ltac:(lia)) as Hdm.
  destruct (Z.ltb_spec (2 * (a mod b)) b) as [H1 | H1]; [exact Hq | ].
  assert (a / b < N) by nia.
  destruct (b <? 2 * (a mod b)); [lia | ].
  destruct (Z.even (a / b)); lia.
Qed.

(** Rounding to the nearest integer errs by at most one half. *)
Lemma round_half_even_near (a b : Z) :
  0 < b -> 2 * Z.abs (round_half_even a b * b - a) <= b.
Proof.
  intros Hb. unfold round_half_even.
  pose proof (Z.mod_pos_bound a b Hb) as Hr.
  pose proof (Z.div_mod a b ltac:(lia)) as Hdm.
  destruct (Z.ltb_spec (2 * (a mod b)) b) as [H1 | H1].
  - replace (a / b * b - a) with (- (a mod b)) by lia. lia.
  - assert (Hup : 2 * Z.abs ((a / b + 1) * b - a) <= b)
      by (replace ((a / b + 1) * b - a) with (b - a mod b) by lia; lia).
    destruct (Z.ltb_spec b (2 * (a mod b))) as [H2 | H2]; [exact Hup | ].
    destruct (Z.even (a / b)); [ | exact Hup].
    replace (a / b * b - a) with (- (a mod b)) by lia. lia.
Qed.

(** A quotient of at most [C], [C <= 2^k], rounds to the float [m * 2^e],
    zero when [m] is 0, with [m] the integer nearest to the quotient scaled
    by [2^-e]. *)
Lemma round_q_near (s : bool) (n d C k : Z) :
  0 < n -> 0 < d -> 0 < C <= 2 ^ k -> 0 <= k <= 50 -> n <= C * d ->
  exists m e,
    e <= k - 52
    /\ 0 <= m <= C * 2 ^ (- e)
    /\ 2 * Z.abs (m * d - n * 2 ^ (- e)) <= d
    /\ round_q s n d = if m <=? 0 then FZero s else FFin s (Z.to_pos m) e.
Proof.
  intros Hn Hd HC Hk Hle. unfold round_q.
  set (e := Z.max (ilog2_ratio n d - 52) (-1074)).
  assert (He : e <= k - 52).
  { pose proof (ilog2_ratio_le n d) as Hl.
    assert (Z.log2 n <= Z.log2 d + k).
    { rewrite Z.add_comm, <- Z.log2_mul_pow2 by lia.
      apply Z.log2_le_mono. nia. }
    lia. }
  assert (Hp : 0 < 2 ^ (- e)) by (apply Z.pow_pos_nonneg; lia).
  unfold scale. destruct (Z.leb_spec 0 e) as [He0 | _]; [lia | ].
  assert (Hm : round_half_even (n * 2 ^ (- e)) d <= C * 2 ^ (- e))
    by (apply round_half_even_upper; nia).
  assert (Hm0 : 0 <= round_half_even (n * 2 ^ (- e)) d)
    by (apply round_half_even_nonneg; nia).
  pose proof (round_half_even_near (n * 2 ^ (- e)) d Hd) as Hnear.
  set (m := round_half_even (n * 2 ^ (- e)) d) in *.
  exists m, e. split; [exact He | ]. split; [lia | ]. split; [exact Hnear | ].
  destruct (Z.leb_spec m 0) as [Hz | Hz]; [reflexivity | ].
  destruct (Z.leb_spec 1024 (Z.log2 m + e)) as [Hov | Hov]; [ | reflexivity].
  exfalso. assert (Z.log2 m < k - e + 1); [ | lia].
  apply Z.log2_lt_pow2; [lia | ].
  replace (k - e + 1) with (k + - e + 1) by lia.
  rewrite !Z.pow_add_r by lia. change (2 ^ 1) with 2. nia.
Qed.

(** Three roundings in a row, of [c / t], of its product by 100 and of the
    hundredths of that, end within one hundredth of [100 * c / t]. *)
Lemma hundredths_near (c t m1 E1 m2 E2 k : Z) :
  0 < t -> 2 ^ 52 <= E1 -> 2 ^ 45 <= E2 ->
  2 * Z.abs (m1 * t - c * E1) <= t ->
  2 * Z.abs (m2 * E1 - 100 * m1 * E2) <= E1 ->
  2 * Z.abs (k * E2 - 100 * m2) <= E2 ->
  Z.abs (k * t - 10000 * c) < t.
Proof.
  change (2 ^ 52) with 4503599627370496. change (2 ^ 45) with 35184372088832.
  intros Ht HE1 HE2 H1 H2 H3.
  set (X := k * E2 - 100 * m2) in *.
  set (Y := m2 * E1 - 100 * m1 * E2) in *.
  set (W := m1 * t - c * E1) in *.
  assert (Hid : (k * t - 10000 * c) * (E1 * E2)
                = t * E1 * X + 100 * t * Y + 10000 * E2 * W)
    by (unfold X, Y, W; ring).
  assert (HX : Z.abs (t * E1 * X) * 2 <= t * E1 * E2).
  { rewrite Z.abs_mul, (Z.abs_eq (t * E1)) by nia.
    rewrite <- Z.mul_assoc. apply Z.mul_le_mono_nonneg_l; [nia | lia]. }
  assert (HY : Z.abs (100 * t * Y) * 2 <= 100 * t * E1).
  { rewrite Z.abs_mul, (Z.abs_eq (100 * t)) by lia.
    rewrite <- Z.mul_assoc. apply Z.mul_le_mono_nonneg_l; lia. }
  assert (HW : Z.abs (10000 * E2 * W) * 2 <= 10000 * E2 * t).
  { rewrite Z.abs_mul, (Z.abs_eq (10000 * E2)) by lia.
    rewrite <- Z.mul_assoc. apply Z.mul_le_mono_nonneg_l; lia. }
  assert (Hsum : Z.abs ((k * t - 10000 * c) * (E1 * E2)) * 2
                 <= t * E1 * E2 + 100 * t * E1 + 10000 * E2 * t).
  { rewrite Hid.
    pose proof (Z.abs_triangle (t * E1 * X + 100 * t * Y) (10000 * E2 * W)).
    pose proof (Z.abs_triangle (t * E1 * X) (100 * t * Y)). lia. }
  rewrite Z.abs_mul, (Z.abs_eq (E1 * E2)) in Hsum by nia.
  destruct (Z.lt_ge_cases (Z.abs (k * t - 10000 * c)) t) as [Hlt | Hge];
    [exact Hlt | exfalso].
  assert (Hbig : t * (E1 * E2) <= Z.abs (k * t - 10000 * c) * (E1 * E2))
    by (apply Z.mul_le_mono_nonneg_r; nia).
  assert (A1 : 35184372088832 * E1 <= E1 * E2)
    by (rewrite (Z.mul_comm E1 E2); apply Z.mul_le_mono_nonneg_r; lia).
  assert (A2 : 4503599627370496 * E2 <= E1 * E2)
    by (apply Z.mul_le_mono_nonneg_r; lia).
  assert (Hprod : t * (100 * E1 + 10000 * E2) < t * (E1 * E2))
    by (apply Z.mul_lt_mono_pos_l; lia).
  lia.
Qed.

Lemma format_2f_hundredths (m e : Z) :
  0 <= m -> e < 0 ->
  format_2f (if m <=? 0 then FZero false else FFin false (Z.to_pos m) e)
  = hundredths_text (round_half_even (m * 100) (2 ^ (- e))).
Proof.
  intros Hm He. destruct (Z.leb_spec m 0) as [Hz | Hz].
  - replace m with 0 by lia. cbn [Z.mul]. unfold round_half_even.
    assert (Hp : 0 < 2 ^ (- e)) by (apply Z.pow_pos_nonneg; lia).
    rewrite Z.div_0_l, Z.mod_0_l by lia.
    destruct (Z.ltb_spec (2 * 0) (2 ^ (- e))); [reflexivity | lia].
  - unfold format_2f, scale. rewrite Z2Pos.id by lia.
    destruct (Z.leb_spec 0 (- e)) as [_ | Hneg]; [ | lia].
    rewrite Z.mul_1_l. reflexivity.
Qed.

(** The percentage of a part of a positive total is finite and prints, with
    two decimals, a number between 0.00 and 100.00 that is within one
    hundredth of [100 * count / total]. *)
Lemma percentage_near (count total : Z) :
  0 <= count <= total -> 0 < total ->
  exists pct c,
    percentage (NInt count) (NInt total) = Ok pct
    /\ is_finite pct = true
    /\ 0 <= c <= 10000
    /\ Z.abs (c * total - 10000 * count) < total
    /\ format_2f pct = hundredths_text c.
Proof.
  intros Hc Ht. unfold percentage, py_truediv.
  destruct (Z.eqb_spec total 0) as [ | _]; [lia | ].
  destruct (Z.ltb_spec total 0) as [Ht0 | _]; [lia | ].
  destruct (Z.eqb_spec count 0) as [-> | Hnz].
  { exists (FZero false), 0. cbn [bind fmul xorb is_finite].
    repeat split; try reflexivity; lia. }
  destruct (Z.ltb_spec count 0) as [Hc0 | _]; [lia | ]. cbn [xorb].
  rewrite !Z.abs_eq by lia.
  destruct (round_q_near false count total 1 0)
    as (m1 & e1 & He1 & Hm1 & N1 & ->); try lia.
  assert (Hp1 : 0 < 2 ^ (- e1)) by (apply Z.pow_pos_nonneg; lia).
  assert (HE1 : 2 ^ 52 <= 2 ^ (- e1)) by (apply Z.pow_le_mono_r; lia).
  set (E1 := 2 ^ (- e1)) in *.
  assert (Q : exists m2 e2,
            e2 <= -45 /\ 0 <= m2
            /\ 2 * Z.abs (m2 * E1 - 100 * m1 * 2 ^ (- e2)) <= E1
            /\ fmul (if m1 <=? 0 then FZero false else FFin false (Z.to_pos m1) e1)
                 (of_Z 100)
               = if m2 <=? 0 then FZero false else FFin false (Z.to_pos m2) e2).
  { destruct (Z.leb_spec m1 0) as [Hz | Hz].
    - exists 0, (-45). replace m1 with 0 by lia.
      split; [lia | ]. split; [lia | ]. split; [ | reflexivity].
      replace (0 * E1 - 100 * 0 * 2 ^ (- -45)) with 0 by ring.
      change (Z.abs 0) with 0. lia.
    - change (of_Z 100) with (FFin false 7036874417766400 (-46)).
      cbn [fmul xorb]. unfold scale. rewrite Z2Pos.id by lia.
      destruct (Z.leb_spec 0 (- (e1 + -46))) as [_ | Hneg]; [ | lia].
      rewrite Z.mul_1_l.
      assert (Hd : 2 ^ (- (e1 + -46)) = 70368744177664 * E1).
      { replace (- (e1 + -46)) with (46 + - e1) by lia.
        rewrite Z.pow_add_r by lia. reflexivity. }
      rewrite Hd.
      destruct (round_q_near false (m1 * 7036874417766400)
                  (70368744177664 * E1) 100 7)
        as (m2 & e2 & He2 & Hm2 & N2 & ->); try lia.
      exists m2, e2. split; [lia | ]. split; [lia | ]. split; [ | reflexivity].
      replace (m2 * (70368744177664 * E1)
               - m1 * 7036874417766400 * 2 ^ (- e2))
        with (70368744177664 * (m2 * E1 - 100 * m1 * 2 ^ (- e2))) in N2 by ring.
      rewrite Z.abs_mul in N2. change (Z.abs 70368744177664) with 70368744177664 in N2.
      lia. }
  destruct Q as (m2 & e2 & He2 & Hm2 & N2 & F).
  assert (Hfin : is_inf (if m1 <=? 0 then FZero false
                         else FFin false (Z.to_pos m1) e1) = false)
    by (now destruct (m1 <=? 0)).
  rewrite Hfin. cbn [bind]. rewrite F.
  assert (HE2 : 2 ^ 45 <= 2 ^ (- e2)) by (apply Z.pow_le_mono_r; lia).
  assert (Hp2 : 0 < 2 ^ (- e2)) by (apply Z.pow_pos_nonneg; lia).
  pose proof (round_half_even_near (m2 * 100) (2 ^ (- e2)) Hp2) as N3.
  set (k := round_half_even (m2 * 100) (2 ^ (- e2))) in *.
  assert (Hnear : Z.abs (k * total - 10000 * count) < total).
  { apply (hundredths_near count total m1 E1 m2 (2 ^ (- e2)) k); try assumption.
    replace (k * 2 ^ (- e2) - 100 * m2) with (k * 2 ^ (- e2) - m2 * 100) by ring.
    exact N3. }
  eexists. exists k. split; [reflexivity | ].
  split; [now destruct (m2 <=? 0) | ].
  split; [ | split; [exact Hnear | apply format_2f_hundredths; lia]].
  assert (0 <= k) by (apply round_half_even_nonneg; lia).
  assert (10000 * count <= 10000 * total) by lia.
  destruct (Z.le_gt_cases k 10000) as [Hle | Hgt]; [lia | exfalso].
  assert (total <= k * total - 10000 * count) by nia.
  lia.
Qed.


Lemma percentage_of_zero_total (count : num) :
  percentage count (NInt 0) = Raise ZeroDivisionError.
Proof. destruct count; reflexivity. Qed.

Lemma ilog2_ratio_same (n : Z) : 0 < n -> ilog2_ratio n n = 0.
Proof.
  intros Hn. unfold ilog2_ratio. rewrite Z.sub_diag. unfold scale.
  cbn [Z.leb Z.compare]. change (2 ^ 0) with 1. rewrite Z.mul_1_r.
  now rewrite Z.ltb_irrefl.
Qed.

Lemma round_q_same (s : bool) (n : Z) :
  0 < n -> round_q s n n = FFin s 4503599627370496 (-52).
Proof.
  intros Hn. unfold round_q. rewrite (ilog2_ratio_same n Hn).
  change (Z.max (0 - 52) (-1074)) with (-52). unfold scale.
  change (0 <=? -52) with false. cbv iota. change (- -52) with 52.
  unfold round_half_even.
  replace (n * 2 ^ 52) with (2 ^ 52 * n) by apply Z.mul_comm.
  rewrite Z.div_mul, Z.mod_mul by lia.
  destruct (Z.ltb_spec (2 * 0) n) as [_ | H]; [ | lia]. reflexivity.
Qed.

Lemma percentage_of_whole (n : Z) :
  0 < n ->
  exists pct,
    percentage (NInt n) (NInt n) = Ok pct /\ format_2f pct = "100.00".
Proof.
  intros Hn. unfold percentage, py_truediv.
  destruct (Z.eqb_spec n 0) as [ | _]; [lia | ].
  rewrite Z.abs_eq, (round_q_same _ n Hn) by lia. cbn [is_inf bind].
  destruct (Z.ltb_spec n 0) as [H | _]; [lia | ]. cbn [xorb].
  eexists. split; [reflexivity | ]. vm_compute. reflexivity.
Qed.

(** ** The length prefix and the decoder *)

(** C3. A file shorter than 8 bytes: the script prints [File too short],
    exits with status 1, and the only read is the first one, of 8 bytes. *)
Theorem short_file_exits (file : list byte) :
  (List.length file < 8)%nat ->
  stdout (events (snd (run file))) = ("File too short" ++ nl)%string
  /\ fst (run file) = Raise (SystemExit 1)
  /\ exit_status (fst (run file)) = 1
  /\ reads (events (snd (run file))) = [8].
Proof.
  intros Hlen. rewrite (run_short file Hlen). repeat split; reflexivity.
Qed.

(** C5. A file of at least 8 bytes: the header length is the first 8 bytes
    read as an unsigned 64-bit little-endian number, and [Header size: H] is
    printed right after the first read. When the read of the header
    returns, the call of [json.loads] follows it; when it fails, the run
    ends there: nothing is decoded before the header size is printed. *)
Theorem header_size_printed_first (file : list byte) :
  (8 <= List.length file)%nat ->
  header_size_of file = le_value (firstn 8 file)
  /\ 0 <= header_size_of file < 2 ^ 64
  /\ exists later,
       events (snd (run file))
       = EvRead 8 (firstn 8 file)
         :: EvPrint ("Header size: " ++ str_Z (header_size_of file))
         :: later
       /\ (header_read file = None ->
           exists rest,
             later = EvRead (header_size_of file) (header_json_of file)
                     :: EvLoads (header_json_of file) :: rest)
       /\ (forall e,
             header_read file = Some e ->
             later = [] /\ fst (run file) = Raise e).
Proof.
  intros Hlen. split; [unfold header_size_of; apply le_uint_value | ].
  split; [apply header_size_range | ].
  rewrite (run_long file Hlen).
  destruct (header_read file) as [e | ].
  - exists []. cbn [fst snd events]. split; [reflexivity | ].
    split; [discriminate | ]. intros e' [= <-]. now split.
  - destruct (json_loads (header_json_of file)) as [header | e].
    + rewrite analyze_analysis. cbn [fst snd events unread].
      unfold prologue. cbn [app]. eexists. split; [reflexivity | ].
      split; [ | discriminate]. intros _. eexists. reflexivity.
    + cbn [fst snd events]. unfold prologue. eexists. split; [reflexivity | ].
      split; [ | discriminate]. intros _. now exists [].
Qed.

Lemma stdout_prologue (file : list byte) :
  stdout (prologue file)
  = ("Header size: " ++ str_Z (header_size_of file) ++ nl)%string.
Proof.
  unfold prologue. cbn [stdout]. now rewrite !append_assoc.
Qed.

(** C8, amended. When [json.loads] rejects the H bytes after the prefix,
    the run ends there with the error of the decoder and exit status 1,
    having printed only the header size; nothing of the analysis or the
    report happens. *)
Theorem malformed_header_stops (file : list byte) (e : decode_error) :
  8 + header_size_of file <= Z.of_nat (List.length file) ->
  json_loads (header_json_of file) = inr e ->
  Z.of_nat (List.length (header_json_of file)) = header_size_of file
  /\ fst (run file) = Raise (DecodeError e)
  /\ exit_status (fst (run file)) = 1
  /\ events (snd (run file)) = prologue file
  /\ stdout (events (snd (run file)))
     = ("Header size: " ++ str_Z (header_size_of file) ++ nl)%string.
Proof.
  intros Hlen Hbad. pose proof (header_size_nonneg file) as Hpos.
  split.
  - unfold header_json_of. rewrite length_firstn, length_skipn. lia.
  - rewrite (run_long file) by lia. rewrite (header_read_within file Hlen), Hbad.
    cbn [fst snd events exit_status].
    split; [reflexivity | ]. split; [reflexivity | ]. split; [reflexivity | ].
    apply stdout_prologue.
Qed.

(** ** The metadata entry *)

Lemma tensor_loop_tensors (items : list (string * json)) :
  forall (dtypes : pydict) (total_elements : num),
    tensor_loop items dtypes total_elements
    = tensor_loop (tensors items) dtypes total_elements.
Proof.
  induction items as [| [name value] rest IH]; intros dtypes total_elements;
    [reflexivity | ].
  cbn [tensors filter tensor_loop]. unfold is_tensor at 1. cbn [fst].
  destruct (String.eqb name metadata_key) eqn:E; cbn [negb].
  - apply IH.
  - cbn [tensor_loop]. rewrite E.
    destruct (tensor_entry value) as [[dtype num_elements] | e]; [ | reflexivity].
    cbn [bind]. destruct (to_key dtype) as [k | e]; [ | reflexivity].
    cbn [bind]. destruct (py_add (dict_get dtypes k (NInt 0)) num_elements);
      [ | reflexivity].
    cbn [bind]. destruct (py_add total_elements num_elements); [ | reflexivity].
    cbn [bind]. apply IH.
Qed.

Lemma tensors_app (pre post : list (string * json)) :
  tensors (pre ++ post) = tensors pre ++ tensors post.
Proof. apply filter_app. Qed.

Lemma analysis_tensors (items : list (string * json)) :
  analysis (JDict items) = analysis (JDict (tensors items)).
Proof.
  unfold analysis, py_items. now rewrite (tensor_loop_tensors items).
Qed.

(** C2. An entry under [__metadata__] adds nothing to any bucket or to the
    grand total, whatever its value is: the loop over the header gives what
    it gives over the header without that entry, and so does the whole
    analysis. *)
Theorem metadata_ignored (pre post : list (string * json)) (value : json)
    (dtypes : pydict) (total_elements : num) (w : world) :
  tensor_loop (pre ++ (metadata_key, value) :: post) dtypes total_elements
  = tensor_loop (pre ++ post) dtypes total_elements
  /\ tensor_loop (pre ++ post) dtypes total_elements
     = tensor_loop (tensors (pre ++ post)) dtypes total_elements
  /\ analyze (JDict (pre ++ (metadata_key, value) :: post)) w
     = analyze (JDict (pre ++ post)) w.
Proof.
  assert (T : tensors (pre ++ (metadata_key, value) :: post) = tensors (pre ++ post))
    by (rewrite !tensors_app; reflexivity).
  split; [ | split].
  - rewrite tensor_loop_tensors, T. symmetry. apply tensor_loop_tensors.
  - apply tensor_loop_tensors.
  - rewrite !analyze_analysis, analysis_tensors, T, <- analysis_tensors.
    reflexivity.
Qed.

(** C9. A header with no entry but [__metadata__] (or none at all): the run
    prints the two headings and no row, and ends normally with status 0;
    the report loop has nothing to divide. *)
Theorem no_tensors_report (file : list byte) (items : list (string * json)) :
  (8 <= List.length file)%nat ->
  header_read file = None ->
  json_loads (header_json_of file) = inl (JDict items) ->
  Forall (fun entry => fst entry = metadata_key) items ->
  fst (run file) = Ok tt
  /\ exit_status (fst (run file)) = 0
  /\ events (snd (run file))
     = prologue file ++ [EvPrint tensor_heading; EvPrint distribution_heading]
  /\ stdout (events (snd (run file)))
     = ("Header size: " ++ str_Z (header_size_of file) ++ nl
          ++ tensor_heading ++ nl ++ distribution_heading ++ nl)%string.
Proof.
  intros Hlen Hread Hparsed Hmeta.
  assert (T : tensors items = []).
  { clear Hparsed.
    induction Hmeta as [| [name value] rest Hk _ IH]; [reflexivity | ].
    cbn [fst] in Hk. subst name. exact IH. }
  assert (A : analysis (JDict items)
              = ([tensor_heading; distribution_heading], Ok tt)).
  { rewrite analysis_tensors, T. reflexivity. }
  rewrite (run_long file Hlen), Hread, Hparsed, analyze_analysis, A.
  cbn [fst snd events unread exit_status map].
  split; [reflexivity | ]. split; [reflexivity | ]. split; [reflexivity | ].
  rewrite stdout_app, stdout_prologue. cbn [stdout].
  now rewrite !append_assoc.
Qed.

(** ** The loop on a well-formed header *)

Lemma multiply_out_dimensions (elems : list json) :
  forall (shape : list Z) (a : Z),
    dimensions elems = Some shape ->
    multiply_out elems (PNum (NInt a)) = Ok (PNum (NInt (a * product shape))).
Proof.
  induction elems as [| dim rest IH]; intros shape a Hd.
  - injection Hd as <-. cbn. f_equal. f_equal. f_equal. lia.
  - cbn [dimensions] in Hd. destruct dim; try discriminate.
    destruct (0 <=? n); [ | discriminate].
    destruct (dimensions rest) as [shape' | ]; [ | discriminate].
    injection Hd as <-. cbn [multiply_out py_mul bind].
    rewrite (IH shape' (a * n) eq_refl). cbn [product fold_right].
    fold (product shape'). f_equal. f_equal. f_equal. lia.
Qed.

Lemma dimensions_nonneg (elems : list json) :
  forall shape : list Z,
    dimensions elems = Some shape -> Forall (fun n => 0 <= n) shape.
Proof.
  induction elems as [| dim rest IH]; intros shape Hd.
  - injection Hd as <-. constructor.
  - cbn [dimensions] in Hd. destruct dim; try discriminate.
    destruct (Z.leb_spec 0 n); [ | discriminate].
    destruct (dimensions rest) as [shape' | ]; [ | discriminate].
    injection Hd as <-. constructor; [assumption | now apply IH].
Qed.

Lemma product_nonneg (shape : list Z) :
  Forall (fun n => 0 <= n) shape -> 0 <= product shape.
Proof.
  induction 1 as [| n rest Hn _ IH]; cbn; [lia | ].
  fold (product rest). now apply Z.mul_nonneg_nonneg.
Qed.

Lemma descriptor_inv (value : json) (dtype : string) (shape : list Z) :
  descriptor value = Some (dtype, shape) ->
  exists elems,
    getitem value "dtype" = Ok (JStr dtype)
    /\ getitem value "shape" = Ok (JList elems)
    /\ dimensions elems = Some shape.
Proof.
  unfold descriptor. intros H.
  destruct (getitem value "dtype") as [[] | ]; try discriminate.
  destruct (getitem value "shape") as [[] | ]; try discriminate.
  destruct (dimensions elems) as [shape' | ] eqn:E; [ | discriminate].
  injection H as <- <-. now exists elems.
Qed.

Lemma tensor_entry_descriptor (value : json) (dtype : string) (shape : list Z) :
  descriptor value = Some (dtype, shape) ->
  tensor_entry value = Ok (JStr dtype, PNum (NInt (product shape))).
Proof.
  intros H. destruct (descriptor_inv _ _ _ H) as (elems & Hd & Hs & Hdim).
  unfold tensor_entry. rewrite Hd, Hs. cbn [bind iterate].
  rewrite (multiply_out_dimensions elems shape 1 Hdim). cbn [bind].
  now rewrite Z.mul_1_l.
Qed.

Lemma dict_get_of_counts (l : counts) (dtype : string) :
  dict_get (of_counts l) (KStr dtype) (NInt 0) = NInt (count_of l dtype).
Proof.
  induction l as [| [d c] rest IH]; [reflexivity | ].
  cbn [of_counts map fst snd dict_get key_eqb count_of].
  destruct (String.eqb d dtype); [reflexivity | exact IH].
Qed.

Lemma dict_set_of_counts (l : counts) (dtype : string) (n : Z) :
  dict_set (of_counts l) (KStr dtype) (NInt (count_of l dtype + n))
  = of_counts (add_count l dtype n).
Proof.
  induction l as [| [d c] rest IH]; [reflexivity | ].
  cbn [of_counts map fst snd dict_set key_eqb count_of add_count].
  destruct (String.eqb d dtype); cbn [map fst snd]; [reflexivity | ].
  f_equal. exact IH.
Qed.

Lemma well_formed_cons (name : string) (value : json)
    (rest : list (string * json)) :
  well_formed ((name, value) :: rest) = true ->
  well_formed rest = true
  /\ (String.eqb name metadata_key = false ->
      exists d, descriptor value = Some d).
Proof.
  unfold well_formed. cbn [tensors filter]. unfold is_tensor at 1. cbn [fst].
  destruct (String.eqb name metadata_key); cbn [negb forallb snd].
  - intros H. split; [exact H | discriminate].
  - destruct (descriptor value) as [d | ]; [ | discriminate].
    cbn [andb]. intros H. split; [exact H | ]. intros _. now exists d.
Qed.

Lemma descriptors_cons_tensor (name : string) (value : json)
    (rest : list (string * json)) (d : string * list Z) :
  String.eqb name metadata_key = false ->
  descriptor value = Some d ->
  descriptors ((name, value) :: rest) = d :: descriptors rest.
Proof.
  intros Hn Hd. unfold descriptors. cbn [tensors filter].
  unfold is_tensor at 1. cbn [fst]. rewrite Hn. cbn [negb flat_map snd].
  now rewrite Hd.
Qed.

Lemma descriptors_cons_metadata (name : string) (value : json)
    (rest : list (string * json)) :
  String.eqb name metadata_key = true ->
  descriptors ((name, value) :: rest) = descriptors rest.
Proof.
  intros Hn. unfold descriptors. cbn [tensors filter].
  unfold is_tensor at 1. cbn [fst]. now rewrite Hn.
Qed.

Lemma descriptors_complete (items : list (string * json)) :
  well_formed items = true ->
  map (fun entry => descriptor (snd entry)) (tensors items)
  = map Some (descriptors items).
Proof.
  unfold well_formed, descriptors.
  induction (tensors items) as [| entry rest IH]; [reflexivity | ].
  cbn [forallb map flat_map].
  destruct (descriptor (snd entry)) as [d | ]; [ | discriminate].
  cbn [andb app map]. intros H. now rewrite (IH H).
Qed.

(** On a well-formed header the loop computes [accumulate]. *)
Lemma tensor_loop_well_formed (items : list (string * json)) :
  forall (l : counts) (t : Z),
    well_formed items = true ->
    tensor_loop items (of_counts l) (NInt t)
    = Ok (of_counts (accumulate (descriptors items) l),
          NInt (t + spec_total items)).
Proof.
  induction items as [| [name value] rest IH]; intros l t Hwf.
  - cbn. now rewrite Z.add_0_r.
  - destruct (well_formed_cons _ _ _ Hwf) as [Hrest Hdesc].
    cbn [tensor_loop]. destruct (String.eqb name metadata_key) eqn:E.
    + rewrite (IH l t Hrest). unfold spec_total.
      now rewrite (descriptors_cons_metadata name value rest E).
    + destruct (Hdesc eq_refl) as [[dtype shape] Hd].
      rewrite (tensor_entry_descriptor _ _ _ Hd). cbn [bind to_key].
      rewrite dict_get_of_counts. cbn [py_add bind].
      rewrite dict_set_of_counts, (IH _ _ Hrest).
      unfold spec_total. rewrite (descriptors_cons_tensor name value rest _ E Hd).
      cbn [accumulate fold_left fst snd map sum_Z fold_right].
      f_equal. f_equal. f_equal. fold (accumulate (descriptors rest)).
      unfold sum_Z. lia.
Qed.

Lemma sum_counts_of_counts (l : counts) :
  sum_counts (of_counts l) = Some (sum_Z (map snd l)).
Proof.
  induction l as [| [d c] rest IH]; [reflexivity | ].
  cbn [of_counts map fst snd sum_counts]. fold (of_counts rest).
  now rewrite IH.
Qed.

Lemma sum_add_count (l : counts) (dtype : string) (n : Z) :
  sum_Z (map snd (add_count l dtype n)) = sum_Z (map snd l) + n.
Proof.
  induction l as [| [d c] rest IH]; cbn [add_count map snd sum_Z fold_right];
    [lia | ].
  destruct (String.eqb d dtype); cbn [map snd sum_Z fold_right];
    fold (sum_Z (map snd rest)); [lia | ].
  fold (sum_Z (map snd (add_count rest dtype n))). rewrite IH. lia.
Qed.

Lemma sum_accumulate (descs : list (string * list Z)) :
  forall l : counts,
    sum_Z (map snd (accumulate descs l))
    = sum_Z (map snd l) + sum_Z (map (fun d => product (snd d)) descs).
Proof.
  induction descs as [| d rest IH]; intros l; cbn [accumulate fold_left map].
  - cbn. lia.
  - fold (accumulate rest). rewrite IH, sum_add_count.
    cbn [sum_Z fold_right]. fold (sum_Z (map (fun d => product (snd d)) rest)).
    lia.
Qed.

(** C1. On a well-formed header the loop ends normally; its grand total is
    the sum over the tensor entries of the product of their dimensions (1
    for an empty shape), and the bucket counts are integers that add up to
    that grand total. *)
Theorem grand_total_is_sum_of_products (items : list (string * json)) :
  well_formed items = true ->
  product [] = 1
  /\ map (fun entry => descriptor (snd entry)) (tensors items)
     = map Some (descriptors items)
  /\ exists dtypes,
       tensor_loop items [] (NInt 0) = Ok (dtypes, NInt (spec_total items))
       /\ sum_counts dtypes = Some (spec_total items).
Proof.
  intros Hwf. split; [reflexivity | ]. split; [now apply descriptors_complete | ].
  exists (of_counts (accumulate (descriptors items) [])). split.
  - exact (tensor_loop_well_formed items [] 0 Hwf).
  - rewrite sum_counts_of_counts, sum_accumulate. reflexivity.
Qed.

(** ** The order of the buckets *)

Lemma dict_set_keys (d : pydict) (k : key) (v : num) :
  map fst (dict_set d k v)
  = if existsb (fun k' => key_eqb k' k) (map fst d)
    then map fst d else map fst d ++ [k].
Proof.
  induction d as [| [k' v'] rest IH]; [reflexivity | ].
  cbn [dict_set map fst existsb].
  destruct (key_eqb k' k); cbn [orb map fst]; [reflexivity | ].
  rewrite IH. now destruct (existsb _ (map fst rest)).
Qed.

Lemma tensor_entry_dtype (value dtype : json) (num_elements : pyval) :
  tensor_entry value = Ok (dtype, num_elements) ->
  getitem value "dtype" = Ok dtype.
Proof.
  unfold tensor_entry.
  destruct (getitem value "dtype") as [dt | ]; [ | discriminate].
  cbn [bind]. destruct (getitem value "shape") as [shape | ]; [ | discriminate].
  cbn [bind]. destruct (iterate shape) as [dims | ]; [ | discriminate].
  cbn [bind]. destruct (multiply_out dims _); [ | discriminate].
  cbn [bind]. now intros [= -> _].
Qed.

Lemma tensor_loop_keys (items : list (string * json)) :
  forall (d d' : pydict) (t t' : num),
    tensor_loop items d t = Ok (d', t') ->
    map fst d' = first_seen_from (map fst d) (dtype_keys items).
Proof.
  unfold dtype_keys.
  induction items as [| [name value] rest IH]; intros d d' t t' H.
  - now injection H as <- _.
  - cbn [tensor_loop] in H. cbn [tensors filter]. unfold is_tensor at 1.
    cbn [fst]. destruct (String.eqb name metadata_key); cbn [negb].
    + exact (IH _ _ _ _ H).
    + destruct (tensor_entry value) as [[dtype num_elements] | ] eqn:E;
        [ | discriminate].
      cbn [bind] in H. destruct (to_key dtype) as [k | ] eqn:K; [ | discriminate].
      cbn [bind] in H.
      destruct (py_add (dict_get d k (NInt 0)) num_elements) as [count | ];
        [ | discriminate].
      cbn [bind] in H.
      destruct (py_add t num_elements) as [t1 | ]; [ | discriminate].
      cbn [bind] in H. cbn [flat_map snd].
      rewrite (tensor_entry_dtype _ _ _ E), K. cbn [app first_seen_from].
      rewrite <- (dict_set_keys d k count). exact (IH _ _ _ _ H).
Qed.

(** ** Buckets with text labels *)

Lemma count_of_add_count (l : counts) (d x : string) (n : Z) :
  count_of (add_count l d n) x
  = if String.eqb d x then count_of l x + n else count_of l x.
Proof.
  induction l as [| [d' c] rest IH]; cbn [add_count count_of].
  - destruct (String.eqb d x); reflexivity.
  - destruct (String.eqb_spec d' d) as [-> | Hne]; cbn [count_of].
    + destruct (String.eqb d x); reflexivity.
    + destruct (String.eqb_spec d' x) as [-> | Hx].
      * destruct (String.eqb_spec d x) as [-> | _]; [congruence | reflexivity].
      * exact IH.
Qed.

Lemma count_of_accumulate (descs : list (string * list Z)) (x : string) :
  forall l : counts,
    count_of (accumulate descs l) x
    = count_of l x
      + sum_Z (map (fun d => product (snd d))
                 (filter (fun d => String.eqb (fst d) x) descs)).
Proof.
  induction descs as [| d rest IH]; intros l;
    cbn [accumulate fold_left filter map].
  - cbn. lia.
  - fold (accumulate rest). rewrite IH, count_of_add_count.
    destruct (String.eqb (fst d) x); cbn [map sum_Z fold_right]; unfold sum_Z; lia.
Qed.

Lemma keys_add_count (l : counts) (d x : string) (n : Z) :
  In x (map fst l) \/ x = d -> In x (map fst (add_count l d n)).
Proof.
  induction l as [| [d' c] rest IH]; cbn [add_count map fst In].
  - intros [[] | ->]. now left.
  - destruct (String.eqb_spec d' d) as [-> | Hne]; cbn [map fst In].
    + intros [[-> | H] | ->]; auto.
    + intros [[-> | H] | ->]; auto.
Qed.

Lemma keys_accumulate (descs : list (string * list Z)) (x : string) :
  forall l : counts,
    In x (map fst l) \/ In x (map fst descs) ->
    In x (map fst (accumulate descs l)).
Proof.
  induction descs as [| d rest IH]; intros l; cbn [accumulate fold_left map In].
  - intros [H | []]. exact H.
  - fold (accumulate rest). intros [H | [H | H]]; apply IH.
    + left. apply keys_add_count. now left.
    + left. apply keys_add_count. now right.
    + now right.
Qed.

Lemma count_of_In (l : counts) (x : string) :
  In x (map fst l) -> In (x, count_of l x) l.
Proof.
  induction l as [| [d c] rest IH]; cbn [map fst In count_of]; [tauto | ].
  destruct (String.eqb_spec d x) as [-> | Hne]; [now left | ].
  intros [H | H]; [congruence | right; now apply IH].
Qed.

Lemma nonneg_add_count (l : counts) (d : string) (n : Z) :
  0 <= n ->
  Forall (fun sc => 0 <= snd sc) l ->
  Forall (fun sc => 0 <= snd sc) (add_count l d n).
Proof.
  intros Hn. induction 1 as [| [d' c] rest Hc Hrest IH]; cbn [add_count].
  - constructor; [exact Hn | constructor].
  - cbn [snd] in Hc. destruct (String.eqb d' d); constructor; cbn [snd];
      try lia; assumption.
Qed.

Lemma nonneg_accumulate (descs : list (string * list Z)) :
  Forall (fun d => 0 <= product (snd d)) descs ->
  forall l : counts,
    Forall (fun sc => 0 <= snd sc) l ->
    Forall (fun sc => 0 <= snd sc) (accumulate descs l).
Proof.
  induction 1 as [| d rest Hd _ IH]; intros l Hl; [exact Hl | ].
  cbn [accumulate fold_left]. apply IH. now apply nonneg_add_count.
Qed.

Lemma nonneg_le_sum (l : counts) :
  Forall (fun sc => 0 <= snd sc) l ->
  Forall (fun sc => 0 <= snd sc <= sum_Z (map snd l)) l
  /\ 0 <= sum_Z (map snd l).
Proof.
  induction 1 as [| [d c] rest Hc _ [IH Hs]]; cbn [map snd sum_Z fold_right].
  - split; [constructor | lia].
  - fold (sum_Z (map snd rest)). cbn [snd] in Hc. split; [ | lia].
    constructor; [cbn [snd]; lia | ].
    eapply Forall_impl; [ | exact IH]. cbn beta. intros sc. lia.
Qed.


Lemma descriptors_nonneg (items : list (string * json)) :
  Forall (fun d => 0 <= product (snd d)) (descriptors items).
Proof.
  apply Forall_forall. intros [dtype shape] Hin.
  unfold descriptors in Hin. apply in_flat_map in Hin as (entry & _ & Hd).
  destruct (descriptor (snd entry)) as [d | ] eqn:E; [ | contradiction].
  destruct Hd as [-> | []].
  destruct (descriptor_inv _ _ _ E) as (elems & _ & _ & Hdim).
  cbn [snd]. apply product_nonneg. exact (dimensions_nonneg _ _ Hdim).
Qed.


Lemma of_counts_In (l : counts) (d : string) (c : Z) :
  In (d, c) l -> In (KStr d, NInt c) (of_counts l).
Proof.
  intros H. unfold of_counts.
  exact (in_map (fun sc => (KStr (fst sc), NInt (snd sc))) l (d, c) H).
Qed.

Lemma keys_of_add_count (l : counts) (d : string) (n : Z) :
  map fst (add_count l d n)
  = if existsb (fun d' => String.eqb d' d) (map fst l)
    then map fst l else map fst l ++ [d].
Proof.
  induction l as [| [d' c] rest IH]; [reflexivity | ].
  cbn [add_count map fst existsb].
  destruct (String.eqb d' d); cbn [orb map fst]; [reflexivity | ].
  rewrite IH. now destruct (existsb _ (map fst rest)).
Qed.

Lemma existsb_eqb_In (l : list string) (d : string) :
  existsb (fun d' => String.eqb d' d) l = true <-> In d l.
Proof.
  rewrite existsb_exists. split.
  - intros (d' & Hin & E). apply String.eqb_eq in E. now subst.
  - intros Hin. exists d. split; [exact Hin | apply String.eqb_refl].
Qed.

Lemma NoDup_add_count (l : counts) (d : string) (n : Z) :
  NoDup (map fst l) -> NoDup (map fst (add_count l d n)).
Proof.
  intros Hnd. rewrite keys_of_add_count.
  destruct (existsb _ (map fst l)) eqn:E; [exact Hnd | ].
  apply NoDup_app; [exact Hnd | constructor; [intros [] | constructor] | ].
  intros x Hx [<- | []].
  apply existsb_eqb_In in Hx. congruence.
Qed.

Lemma NoDup_accumulate (descs : list (string * list Z)) :
  forall l : counts, NoDup (map fst l) -> NoDup (map fst (accumulate descs l)).
Proof.
  induction descs as [| d rest IH]; intros l Hnd; [exact Hnd | ].
  cbn [accumulate fold_left]. apply IH. now apply NoDup_add_count.
Qed.

Lemma keys_accumulate_inv (descs : list (string * list Z)) (x : string) :
  forall l : counts,
    In x (map fst (accumulate descs l)) ->
    In x (map fst l) \/ In x (map fst descs).
Proof.
  induction descs as [| d rest IH]; intros l; cbn [accumulate fold_left map In].
  - now left.
  - fold (accumulate rest). intros H. destruct (IH _ H) as [Hl | Hr]; [ | auto].
    rewrite keys_of_add_count in Hl.
    destruct (existsb _ (map fst l)); [now left | ].
    apply in_app_or in Hl as [Hl | [<- | []]]; auto.
Qed.

Lemma count_of_unique (l : counts) (d : string) (c : Z) :
  NoDup (map fst l) -> In (d, c) l -> count_of l d = c.
Proof.
  induction l as [| [d' c'] rest IH]; [contradiction | ].
  cbn [map fst count_of In]. intros Hnd Hin.
  inversion Hnd as [| ? ? Hnot Hrest]; subst.
  destruct Hin as [[= -> ->] | Hin].
  - now rewrite String.eqb_refl.
  - destruct (String.eqb_spec d' d) as [-> | _]; [ | now apply IH].
    exfalso. apply Hnot. exact (in_map fst _ _ Hin).
Qed.

Lemma of_counts_In_inv (l : counts) (d : string) (c : Z) :
  In (KStr d, NInt c) (of_counts l) -> In (d, c) l.
Proof.
  unfold of_counts. intros H. apply in_map_iff in H as ([d' c'] & E & Hin).
  cbn [fst snd] in E. now injection E as -> ->.
Qed.

Lemma of_counts_keys (l : counts) : map fst (of_counts l) = map KStr (map fst l).
Proof. unfold of_counts. now rewrite !map_map. Qed.

(** ** The rows of the report *)

Lemma row_inv (dtype : key) (count total_elements : num) (line : string) :
  row dtype count total_elements = Ok line ->
  exists label amount pct,
    format_key dtype = Ok label
    /\ format_num count = Ok amount
    /\ percentage count total_elements = Ok pct
    /\ line = row_text label amount pct.
Proof.
  unfold row. intros H.
  destruct (format_key dtype) as [label | ]; [ | discriminate H].
  destruct (format_num count) as [amount | ]; [ | discriminate H].
  destruct (percentage count total_elements) as [pct | ]; [ | discriminate H].
  injection H as <-. now exists label, amount, pct.
Qed.

Lemma py_str_inv (n : Z) (text : string) :
  py_str n = Ok text -> text = str_Z n /\ Z.abs n < str_limit.
Proof.
  unfold py_str. destruct (Z.leb_spec str_limit (Z.abs n)); [discriminate | ].
  intros [= <-]. now split.
Qed.

Lemma format_key_text (k : key) (label : string) :
  format_key k = Ok label -> label = key_text k.
Proof.
  destruct k as [ | b | n | x | s]; cbn [format_key key_text];
    try (now intros [= <-]).
  intros H. now destruct (py_str_inv _ _ H).
Qed.

Lemma format_num_text (v : num) (amount : string) :
  format_num v = Ok amount -> amount = num_text v.
Proof.
  destruct v as [n | x]; cbn [format_num num_text]; [ | now intros [= <-]].
  intros H. now destruct (py_str_inv _ _ H).
Qed.

Lemma printable_row (label amount : string) (pct : float) :
  ascii_text amount = true ->
  printable (row_text label amount pct) = printable label.
Proof.
  intros Ha. unfold row_text.
  rewrite !printable_app, (ascii_text_printable amount Ha),
    (ascii_text_printable _ (ascii_text_format_2f pct)).
  cbn. now rewrite andb_true_r.
Qed.

Lemma report_rows_ok (rows : pydict) (total_elements : num) :
  forall lines : list string,
    report_rows rows total_elements = (lines, Ok tt) ->
    Forall2 (fun bucket line =>
               row (fst bucket) (snd bucket) total_elements = Ok line
               /\ printable line = true) rows lines.
Proof.
  induction rows as [| [dtype count] rest IH]; intros lines H.
  - injection H as <-. constructor.
  - cbn [report_rows] in H.
    destruct (row dtype count total_elements) as [text | ] eqn:R;
      [ | discriminate].
    destruct (printable text) eqn:P; [ | discriminate].
    destruct (report_rows rest total_elements) as [lines' r].
    injection H as <- ->. constructor; [now split | now apply IH].
Qed.

(** The rows of buckets with text labels and integer counts, when every
    count can be converted to text and every label can be printed. *)
Lemma report_rows_of_counts (total : Z) (l : counts) :
  0 < total ->
  Forall (fun sc => 0 <= snd sc <= total) l ->
  Forall (fun sc => snd sc < str_limit) l ->
  Forall (fun sc => printable (fst sc) = true) l ->
  exists lines,
    report_rows (of_counts l) (NInt total) = (lines, Ok tt)
    /\ Forall2 (fun sc line =>
                  exists pct c,
                    percentage (NInt (snd sc)) (NInt total) = Ok pct
                    /\ 0 <= c <= 10000
                    /\ Z.abs (c * total - 10000 * snd sc) < total
                    /\ format_2f pct = hundredths_text c
                    /\ line = row_text (fst sc) (str_Z (snd sc)) pct)
         l lines.
Proof.
  intros Ht Hc Hs Hp. induction l as [| [d c] rest IH].
  - exists []. split; [reflexivity | constructor].
  - inversion Hc as [| ? ? Hc1 Hc2]; subst. inversion Hs as [| ? ? Hs1 Hs2]; subst.
    inversion Hp as [| ? ? Hp1 Hp2]; subst.
    cbn [fst snd] in Hc1, Hs1, Hp1.
    destruct (IH Hc2 Hs2 Hp2) as (lines & R & F).
    destruct (percentage_near c total Hc1 Ht) as (pct & k & P & _ & Hk & Hn & Hf).
    exists (row_text d (str_Z c) pct :: lines).
    cbn [of_counts map fst snd report_rows]. fold (of_counts rest).
    unfold row. cbn [format_key format_num bind].
    rewrite (py_str_ok c) by lia. cbn [bind]. rewrite P. cbn [bind].
    rewrite (printable_row d (str_Z c) pct (ascii_text_str_Z c)), Hp1, R.
    split; [reflexivity | ].
    constructor; [ | exact F]. exists pct, k. now repeat split.
Qed.

Lemma bucket_bounds (items : list (string * json)) :
  Forall (fun sc => 0 <= snd sc <= spec_total items)
    (accumulate (descriptors items) []).
Proof.
  pose proof (nonneg_accumulate _ (descriptors_nonneg items) [] (Forall_nil _)) as Hnn.
  destruct (nonneg_le_sum _ Hnn) as [Hle _].
  rewrite sum_accumulate in Hle. exact Hle.
Qed.

Lemma bucket_labels (items : list (string * json)) (P : string -> Prop) :
  Forall (fun d => P (fst d)) (descriptors items) ->
  Forall (fun sc => P (fst sc)) (accumulate (descriptors items) []).
Proof.
  intros H. apply Forall_forall. intros [d c] Hin. cbn [fst].
  pose proof (in_map fst _ _ Hin) as Hk. cbn [fst] in Hk.
  destruct (keys_accumulate_inv _ _ _ Hk) as [[] | Hd].
  apply in_map_iff in Hd as (desc & <- & Hdesc).
  rewrite Forall_forall in H. exact (H desc Hdesc).
Qed.

(** Each bucket holds the total of its dtype. *)
Lemma bucket_counts (items : list (string * json)) :
  Forall (fun sc => snd sc = dtype_total (fst sc) items)
    (accumulate (descriptors items) []).
Proof.
  assert (Hnd : NoDup (map fst (accumulate (descriptors items) [])))
    by (apply NoDup_accumulate; constructor).
  apply Forall_forall. intros [d c] Hin. cbn [fst snd].
  rewrite <- (count_of_unique _ _ _ Hnd Hin).
  now rewrite count_of_accumulate.
Qed.

(** What [analyze] does with a well-formed header whose total is positive,
    when its counts can be converted to text and its labels can be
    printed. *)
Lemma analysis_well_formed (items : list (string * json)) :
  well_formed items = true ->
  0 < spec_total items ->
  Forall (fun d => dtype_total (fst d) items < str_limit) (descriptors items) ->
  Forall (fun d => printable (fst d) = true) (descriptors items) ->
  exists lines,
    analysis (JDict items)
    = (tensor_heading :: distribution_heading :: lines, Ok tt)
    /\ Forall2 (fun sc line =>
                  exists pct c,
                    percentage (NInt (snd sc)) (NInt (spec_total items)) = Ok pct
                    /\ 0 <= c <= 10000
                    /\ Z.abs (c * spec_total items - 10000 * snd sc)
                       < spec_total items
                    /\ format_2f pct = hundredths_text c
                    /\ line = row_text (fst sc) (str_Z (snd sc)) pct)
         (accumulate (descriptors items) []) lines.
Proof.
  intros Hwf Hpos Hsmall Hprint. unfold analysis, py_items.
  change (@nil (key * num)) with (of_counts []).
  rewrite (tensor_loop_well_formed items [] 0 Hwf). cbn [Z.add].
  assert (Hs : Forall (fun sc => snd sc < str_limit)
                 (accumulate (descriptors items) [])).
  { pose proof (bucket_counts items) as Hc.
    pose proof (bucket_labels items
                  (fun d => dtype_total d items < str_limit) Hsmall) as Hl.
    rewrite Forall_forall in *. intros sc Hin.
    rewrite (Hc sc Hin). exact (Hl sc Hin). }
  destruct (report_rows_of_counts _ _ Hpos (bucket_bounds items) Hs
              (bucket_labels items (fun d => printable d = true) Hprint))
    as (lines & R & F).
  exists lines. rewrite R. now split.
Qed.


Lemma Forall2_Forall_l {A B : Type} (P : A -> Prop) (Q : A -> B -> Prop)
    (l : list A) (l' : list B) :
  Forall P l -> Forall2 Q l l' -> Forall2 (fun x y => P x /\ Q x y) l l'.
Proof.
  intros HP HQ. induction HQ as [| x y l l' Hxy _ IH]; [constructor | ].
  inversion HP as [| ? ? Hx Hl]; subst. constructor; [now split | now apply IH].
Qed.

(** ** A tensor without elements *)


(** ** A zero grand total *)

Lemma dict_set_not_nil (d : pydict) (k : key) (v : num) : dict_set d k v <> [].
Proof.
  destruct d as [| [k' v'] rest]; cbn [dict_set]; [discriminate | ].
  destruct (key_eqb k' k); discriminate.
Qed.

Lemma tensor_loop_keeps_buckets (items : list (string * json)) :
  forall (d d' : pydict) (t t' : num),
    tensor_loop items d t = Ok (d', t') -> d <> [] -> d' <> [].
Proof.
  induction items as [| [name value] rest IH]; intros d d' t t' H Hd.
  - now injection H as <- _.
  - cbn [tensor_loop] in H. destruct (String.eqb name metadata_key).
    + exact (IH _ _ _ _ H Hd).
    + destruct (tensor_entry value) as [[dtype num_elements] | ]; [ | discriminate].
      cbn [bind] in H. destruct (to_key dtype) as [k | ]; [ | discriminate].
      cbn [bind] in H.
      destruct (py_add (dict_get d k (NInt 0)) num_elements) as [count | ];
        [ | discriminate].
      cbn [bind] in H. destruct (py_add t num_elements) as [t1 | ]; [ | discriminate].
      cbn [bind] in H. exact (IH _ _ _ _ H (dict_set_not_nil d k count)).
Qed.

Lemma tensor_loop_makes_bucket (items : list (string * json)) :
  forall (d d' : pydict) (t t' : num),
    tensor_loop items d t = Ok (d', t') -> tensors items <> [] -> d' <> [].
Proof.
  induction items as [| [name value] rest IH]; intros d d' t t' H Ht.
  - now contradiction Ht.
  - cbn [tensor_loop] in H. cbn [tensors filter] in Ht.
    unfold is_tensor at 1 in Ht. cbn [fst] in Ht.
    destruct (String.eqb name metadata_key); cbn [negb] in Ht.
    + exact (IH _ _ _ _ H Ht).
    + destruct (tensor_entry value) as [[dtype num_elements] | ]; [ | discriminate].
      cbn [bind] in H. destruct (to_key dtype) as [k | ]; [ | discriminate].
      cbn [bind] in H.
      destruct (py_add (dict_get d k (NInt 0)) num_elements) as [count | ];
        [ | discriminate].
      cbn [bind] in H. destruct (py_add t num_elements) as [t1 | ]; [ | discriminate].
      cbn [bind] in H.
      exact (tensor_loop_keeps_buckets _ _ _ _ _ H (dict_set_not_nil d k count)).
Qed.

(** With a grand total that is the integer 0, a row fails before it is
    printed: on the division, unless the label or the count is an integer
    too long to be converted to text. *)
Lemma row_of_zero_total (dtype : key) (count : num) :
  exists e,
    row dtype count (NInt 0) = Raise e
    /\ (e = ZeroDivisionError \/ e = ValueError)
    /\ (forall n, format_key dtype = Ok n ->
        forall c, count = NInt c -> Z.abs c < str_limit ->
        e = ZeroDivisionError).
Proof.
  unfold row.
  destruct (format_key dtype) as [label | e] eqn:K; cbn [bind].
  - destruct (format_num count) as [amount | e] eqn:N; cbn [bind].
    + rewrite percentage_of_zero_total. cbn [bind].
      exists ZeroDivisionError. split; [reflexivity | ]. split; [now left | ].
      reflexivity.
    + exists e. split; [reflexivity | ].
      destruct count as [c | x]; cbn [format_num] in N; [ | discriminate N].
      unfold py_str in N.
      destruct (Z.leb_spec str_limit (Z.abs c)) as [Hbig | ]; [ | discriminate N].
      injection N as <-. split; [now right | ].
      intros n _ c' [= <-] Hsmall. lia.
  - exists e. split; [reflexivity | ].
    destruct dtype as [ | b | n | x | s]; cbn [format_key] in K;
      try discriminate K.
    unfold py_str in K. destruct (str_limit <=? Z.abs n); [ | discriminate K].
    injection K as <-. split; [now right | ]. intros n' Hn'. discriminate Hn'.
Qed.

(** C6, amended. When the grand total is the integer 0: a header without
    tensor entries leaves the buckets empty, nothing is divided and the
    analysis ends normally after the two headings; a header with a tensor
    entry has a bucket, and the analysis fails on the first row, after the
    two headings and before any row, with [ZeroDivisionError] when the
    header is well-formed, all its shapes being without elements, and with
    [ZeroDivisionError] or [ValueError] in any case. *)
Theorem zero_total_outcome (items : list (string * json)) (dtypes : pydict)
    (w : world) :
  tensor_loop items [] (NInt 0) = Ok (dtypes, NInt 0) ->
  (tensors items = [] ->
   dtypes = []
   /\ analyze (JDict items) w
      = (Ok tt,
         mkWorld (unread w)
           (events w ++ [EvPrint tensor_heading; EvPrint distribution_heading])))
  /\ (tensors items <> [] ->
      dtypes <> []
      /\ exists e,
           analyze (JDict items) w
           = (Raise e,
              mkWorld (unread w)
                (events w ++ [EvPrint tensor_heading; EvPrint distribution_heading]))
           /\ (e = ZeroDivisionError \/ e = ValueError)
           /\ (well_formed items = true -> e = ZeroDivisionError)).
Proof.
  intros L. split; intros Ht.
  - assert (dtypes = []) as ->.
    { rewrite tensor_loop_tensors, Ht in L. now injection L as <-. }
    split; [reflexivity | ].
    rewrite analyze_analysis. unfold analysis, py_items. rewrite L. reflexivity.
  - pose proof (tensor_loop_makes_bucket _ _ _ _ _ L Ht) as Hne.
    split; [exact Hne | ].
    destruct dtypes as [| [dtype count] rest]; [contradiction | ].
    destruct (row_of_zero_total dtype count) as (e & R & Hkind & Hzero).
    exists e. split; [ | split; [exact Hkind | ]].
    + rewrite analyze_analysis. unfold analysis, py_items. rewrite L.
      cbn [report_rows]. rewrite R. reflexivity.
    + intros Hwf. change (@nil (key * num)) with (of_counts []) in L.
      rewrite (tensor_loop_well_formed items [] 0 Hwf) in L.
      injection L as Hd Htotal. cbn [Z.add] in Htotal.
      pose proof (bucket_bounds items) as Hb. rewrite Htotal in Hb.
      destruct (accumulate (descriptors items) []) as [| [d c] more];
        [discriminate Hd | ].
      cbn [of_counts map fst snd] in Hd. injection Hd as <- <- _.
      inversion Hb as [| ? ? Hc _]; subst. cbn [snd] in Hc.
      apply (Hzero d eq_refl c eq_refl).
      pose proof str_limit_above_64. lia.
Qed.

(** ** First-seen order of text labels *)

Lemma filter_filter {A : Type} (P Q : A -> bool) (l : list A) :
  filter P (filter Q l) = filter (fun x => Q x && P x) l.
Proof.
  induction l as [| x rest IH]; [reflexivity | ].
  cbn [filter]. destruct (Q x); cbn [filter andb]; [ | exact IH].
  destruct (P x); now rewrite IH.
Qed.

Lemma existsb_text (seen : list string) (s : string) :
  existsb (fun k' => key_eqb k' (KStr s)) (map KStr seen)
  = existsb (fun s' => String.eqb s' s) seen.
Proof.
  induction seen as [| s' rest IH]; [reflexivity | ].
  cbn [map existsb key_eqb]. now rewrite IH.
Qed.

Lemma first_seen_from_text (ss : list string) :
  forall seen : list string,
    first_seen_from (map KStr seen) (map KStr ss)
    = map KStr
        (seen ++ filter (fun x => negb (existsb (fun s' => String.eqb s' x) seen))
                   (keep_first ss)).
Proof.
  induction ss as [| s rest IH]; intros seen.
  - cbn. now rewrite app_nil_r.
  - cbn [map first_seen_from keep_first filter]. rewrite existsb_text.
    destruct (existsb (fun s' => String.eqb s' s) seen) eqn:E; cbn [negb].
    + rewrite IH, filter_filter. do 2 f_equal. apply filter_ext. intros x.
      destruct (String.eqb_spec s x) as [<- | _]; cbn [negb andb];
        [now rewrite E | reflexivity].
    + replace (map KStr seen ++ [KStr s]) with (map KStr (seen ++ [s]))
        by (now rewrite map_app).
      rewrite IH, filter_filter, <- app_assoc. cbn [app]. do 3 f_equal.
      apply filter_ext. intros x. rewrite existsb_app. cbn [existsb].
      rewrite orb_false_r, negb_orb, andb_comm. reflexivity.
Qed.

(** For text labels, first-seen order keeps each label where it first
    occurs and drops its later occurrences. *)
Lemma first_seen_text (ss : list string) :
  first_seen (map KStr ss) = map KStr (keep_first ss).
Proof.
  unfold first_seen. change (@nil key) with (map KStr []).
  rewrite first_seen_from_text. cbn [app existsb negb]. f_equal.
  induction (keep_first ss) as [| x rest IH]; [reflexivity | ].
  cbn [filter]. now rewrite IH.
Qed.

Lemma dtype_keys_well_formed (items : list (string * json)) :
  well_formed items = true ->
  dtype_keys items = map KStr (map fst (descriptors items)).
Proof.
  unfold well_formed, dtype_keys, descriptors.
  induction (tensors items) as [| entry rest IH]; [reflexivity | ].
  cbn [forallb flat_map].
  destruct (descriptor (snd entry)) as [[dtype shape] | ] eqn:D; [ | discriminate].
  destruct (descriptor_inv _ _ _ D) as (elems & -> & _).
  cbn [andb to_key app map fst]. intros H. now rewrite (IH H).
Qed.

(** ** The report of a run that ends normally *)

Lemma digit_text (d : Z) :
  0 <= d < 10 ->
  exists c, is_digit c = true /\ str_Z d = String c EmptyString.
Proof.
  intros H.
  assert (C : d = 0 \/ d = 1 \/ d = 2 \/ d = 3 \/ d = 4 \/ d = 5 \/ d = 6
              \/ d = 7 \/ d = 8 \/ d = 9) by lia.
  repeat (destruct C as [-> | C]; [eexists; split; [ | reflexivity]; reflexivity | ]).
  subst d. eexists. split; [ | reflexivity]. reflexivity.
Qed.

(** A number of hundredths is shown with exactly two decimals. *)
Lemma two_decimals_hundredths (sign : string) (c : Z) :
  0 <= c -> two_decimals (sign ++ hundredths_text c).
Proof.
  intros Hc. unfold hundredths_text.
  assert (H1 : 0 <= c mod 100 / 10 < 10).
  { pose proof (Z.mod_pos_bound c 100 ltac:(lia)).
    split; [apply Z.div_pos; lia | apply Z.div_lt_upper_bound; lia]. }
  assert (H2 : 0 <= c mod 10 < 10) by (apply Z.mod_pos_bound; lia).
  destruct (digit_text _ H1) as (d1 & D1 & ->).
  destruct (digit_text _ H2) as (d2 & D2 & ->).
  exists (sign ++ str_Z (c / 100))%string, d1, d2.
  split; [exact D1 | ]. split; [exact D2 | ].
  now rewrite append_assoc.
Qed.

(** A finite float formatted with [.2f] shows an integer part, a point and
    exactly two digits. *)
Lemma format_2f_two_decimals (x : float) :
  is_finite x = true -> two_decimals (format_2f x).
Proof.
  destruct x as [ | s | s | s m e]; try discriminate; intros _.
  - exact (two_decimals_hundredths (sign_text s) 0 ltac:(lia)).
  - unfold format_2f.
    pose proof (scale_nonneg (Z.pos m * 100) 1 (- e) ltac:(lia) ltac:(lia)) as [Ha Hb].
    destruct (scale (Z.pos m * 100) 1 (- e)) as [a b]. cbn [fst snd] in Ha, Hb.
    exact (two_decimals_hundredths (sign_text s) _
             (round_half_even_nonneg a b Ha Hb)).
Qed.

Lemma Forall2_of_counts (P : key * num -> string -> Prop) (l : counts)
    (lines : list string) :
  Forall2 P (of_counts l) lines ->
  Forall2 (fun sc line => P (KStr (fst sc), NInt (snd sc)) line) l lines.
Proof.
  revert lines. induction l as [| sc rest IH]; intros lines H.
  - inversion H. constructor.
  - inversion H as [| ? line ? lines' Hsc Hrest]; subst.
    constructor; [exact Hsc | now apply IH].
Qed.

Lemma map_KStr_inj (l l' : list string) : map KStr l = map KStr l' -> l = l'.
Proof.
  revert l'. induction l as [| s rest IH]; intros [| s' rest'] H;
    try discriminate H; [reflexivity | ].
  cbn [map] in H. injection H as -> H. now rewrite (IH _ H).
Qed.

(** C4, amended. A run that ends normally has printed, after the two
    headings, one row per bucket and nothing else, the buckets in the order
    in which their dtype first occurs in the header; each row reads
    [<dtype>: <count> elements (<percentage>%)] with the percentage
    [count / total * 100] in the [.2f] format, which shows exactly two
    decimals of a finite value. On a well-formed header the count is the
    sum of the products of the shapes of the dtype, in decimal, and the
    percentage shown, a number of hundredths between 0.00 and 100.00, is
    within one hundredth of [100 * count / total]. *)
Theorem report_in_first_seen_order (file : list byte) (w : world) :
  run file = (Ok tt, w) ->
  exists items dtypes total_elements lines,
    json_loads (header_json_of file) = inl (JDict items)
    /\ tensor_loop items [] (NInt 0) = Ok (dtypes, total_elements)
    /\ events w
       = prologue file
           ++ EvPrint tensor_heading :: EvPrint distribution_heading
           :: map EvPrint lines
    /\ map fst dtypes = first_seen (dtype_keys items)
    /\ Forall2 (fun bucket line =>
                  exists pct,
                    percentage (snd bucket) total_elements = Ok pct
                    /\ line = (key_text (fst bucket) ++ ": "
                                 ++ num_text (snd bucket) ++ " elements ("
                                 ++ format_2f pct ++ "%)")%string
                    /\ (is_finite pct = true -> two_decimals (format_2f pct)))
         dtypes lines
    /\ (well_formed items = true ->
        total_elements = NInt (spec_total items)
        /\ dtypes = of_counts (accumulate (descriptors items) [])
        /\ map fst (accumulate (descriptors items) [])
           = keep_first (map fst (descriptors items))
        /\ Forall2 (fun bucket line =>
                      exists pct c,
                        snd bucket = dtype_total (fst bucket) items
                        /\ percentage (NInt (snd bucket)) (NInt (spec_total items))
                           = Ok pct
                        /\ is_finite pct = true
                        /\ format_2f pct = hundredths_text c
                        /\ 0 <= c <= 10000
                        /\ Z.abs (c * spec_total items - 10000 * snd bucket)
                           < spec_total items
                        /\ line = (fst bucket ++ ": " ++ str_Z (snd bucket)
                                     ++ " elements (" ++ hundredths_text c
                                     ++ "%)")%string)
             (accumulate (descriptors items) []) lines).
Proof.
  intros Hrun.
  destruct (Nat.lt_ge_cases (List.length file) 8) as [Hshort | Hlong].
  { rewrite (run_short file Hshort) in Hrun. discriminate. }
  rewrite (run_long file Hlong) in Hrun.
  destruct (header_read file); [discriminate | ].
  destruct (json_loads (header_json_of file)) as [header | e]; [ | discriminate].
  rewrite analyze_analysis in Hrun. cbn [unread events] in Hrun.
  unfold analysis in Hrun.
  destruct header as [ | | | | | | items]; try discriminate.
  cbn [py_items] in Hrun.
  destruct (tensor_loop items [] (NInt 0)) as [[dtypes total_elements] | ] eqn:L;
    [ | discriminate].
  destruct (report_rows dtypes total_elements) as [lines r] eqn:R.
  cbn [fst snd map] in Hrun. injection Hrun as -> <-.
  pose proof (report_rows_ok _ _ _ R) as Rows.
  exists items, dtypes, total_elements, lines.
  split; [reflexivity | ]. split; [exact L | ]. split; [reflexivity | ].
  split; [exact (tensor_loop_keys _ _ _ _ _ L) | ].
  split.
  { eapply Forall2_impl; [ | exact Rows]. cbn beta.
    intros bucket line [Hrow _].
    destruct (row_inv _ _ _ _ Hrow) as (label & amount & pct & K & N & P & ->).
    rewrite (format_key_text _ _ K), (format_num_text _ _ N).
    exists pct. split; [exact P | ]. split; [reflexivity | ].
    apply format_2f_two_decimals. }
  intros Hwf. pose proof L as L'.
  change (@nil (key * num)) with (of_counts []) in L'.
  rewrite (tensor_loop_well_formed items [] 0 Hwf) in L'.
  injection L' as <- <-. cbn [Z.add] in *.
  set (buckets := accumulate (descriptors items) []) in *.
  split; [reflexivity | ]. split; [reflexivity | ]. split.
  { apply map_KStr_inj. rewrite <- of_counts_keys, <- first_seen_text.
    rewrite (tensor_loop_keys _ _ _ _ _ L). cbn [map].
    now rewrite (dtype_keys_well_formed items Hwf). }
  assert (Hnd : NoDup (map fst buckets)) by (apply NoDup_accumulate; constructor).
  assert (Hin : Forall (fun sc => In sc buckets) buckets)
    by (apply Forall_forall; auto).
  eapply Forall2_impl;
    [ | exact (Forall2_Forall_l _ _ _ _ Hin
                 (Forall2_Forall_l _ _ _ _ (bucket_bounds items)
                    (Forall2_of_counts _ _ _ Rows)))].
  cbn beta. intros [d c] line (Hmem & Hc & Hrow & _). cbn [fst snd] in *.
  destruct (row_inv _ _ _ _ Hrow) as (label & amount & pct & K & N & P & ->).
  cbn [format_key format_num] in K, N. injection K as <-.
  destruct (py_str_inv _ _ N) as [-> _].
  assert (Hpos : 0 < spec_total items).
  { destruct (Z.eq_dec (spec_total items) 0) as [E | E]; [ | lia].
    rewrite E, percentage_of_zero_total in P. discriminate P. }
  destruct (percentage_near c (spec_total items) Hc Hpos)
    as (pct' & k & P' & Hfin & Hk & Hnear & Hf).
  rewrite P' in P. injection P as <-.
  exists pct', k. split.
  { rewrite <- (count_of_unique _ _ _ Hnd Hmem). unfold buckets.
    now rewrite count_of_accumulate. }
  split; [exact P' | ]. split; [exact Hfin | ]. split; [exact Hf | ].
  split; [exact Hk | ]. split; [exact Hnear | ].
  unfold row_text. now rewrite Hf.
Qed.

(** ** A descriptor without [dtype] or [shape] *)

Ltac raise_cases H :=
  repeat match type of H with
         | Ok _ = Raise _ => discriminate H
         | Raise _ = Raise _ => injection H as <-
         | context [match ?x with _ => _ end] => destruct x eqn:?; cbn [bind] in H
         | context [if ?b then _ else _] => destruct b eqn:?
         | context [bind ?r _] => destruct r eqn:?; cbn [bind] in H
         end.

Lemma float_of_int_raises (n : Z) (e : exn) :
  float_of_int n = Raise e -> loop_error e.
Proof. unfold float_of_int. intros H. raise_cases H. exact I. Qed.

Lemma getitem_raises (value : json) (field : string) (e : exn) :
  getitem value field = Raise e -> loop_error e.
Proof. unfold getitem. intros H. raise_cases H; exact I. Qed.

Lemma iterate_raises (shape : json) (e : exn) :
  iterate shape = Raise e -> loop_error e.
Proof. unfold iterate. intros H. raise_cases H; exact I. Qed.

Lemma py_repeat_raises (text in_place : bool) (len n : Z) (e : exn) :
  py_repeat text in_place len n = Raise e -> loop_error e.
Proof.
  unfold py_repeat. intros H.
  destruct (negb (fits_index n)); [injection H as <-; exact I | ].
  destruct ((n <=? 0) || (len =? 0)); [discriminate H | ].
  destruct ((n =? 1) && (text || in_place)); [discriminate H | ].
  destruct (ssize_max / n <? len); [injection H as <-; now destruct text | ].
  destruct (allocates _ (len * n)); [discriminate H | ].
  injection H as <-. exact I.
Qed.

Lemma py_mul_raises (acc : pyval) (dim : json) (e : exn) :
  py_mul acc dim = Raise e -> loop_error e.
Proof.
  unfold py_mul. intros H.
  destruct acc as [[a | x] | text len]; destruct dim; cbn [bind] in H;
    try discriminate H; try (injection H as <-; exact I);
    try exact (py_repeat_raises _ _ _ _ _ H).
  all: destruct (float_of_int _) eqn:F; cbn [bind] in H; try discriminate H;
    injection H as <-; exact (float_of_int_raises _ _ F).
Qed.

Lemma multiply_out_raises (dims : list json) (e : exn) :
  forall acc : pyval, multiply_out dims acc = Raise e -> loop_error e.
Proof.
  induction dims as [| dim rest IH]; intros acc H; [discriminate H | ].
  cbn [multiply_out] in H. destruct (py_mul acc dim) as [acc' | e'] eqn:M;
    cbn [bind] in H.
  - exact (IH _ H).
  - injection H as <-. exact (py_mul_raises _ _ _ M).
Qed.

Lemma tensor_entry_raises (value : json) (e : exn) :
  tensor_entry value = Raise e -> loop_error e.
Proof.
  unfold tensor_entry. intros H.
  destruct (getitem value "dtype") as [dtype | ] eqn:G1; cbn [bind] in H;
    [ | injection H as <-; exact (getitem_raises _ _ _ G1)].
  destruct (getitem value "shape") as [shape | ] eqn:G2; cbn [bind] in H;
    [ | injection H as <-; exact (getitem_raises _ _ _ G2)].
  destruct (iterate shape) as [dims | ] eqn:It; cbn [bind] in H;
    [ | injection H as <-; exact (iterate_raises _ _ It)].
  destruct (multiply_out dims (PNum (NInt 1))) eqn:Mo; cbn [bind] in H;
    [discriminate H | injection H as <-; exact (multiply_out_raises _ _ _ Mo)].
Qed.

Lemma to_key_raises (v : json) (e : exn) : to_key v = Raise e -> loop_error e.
Proof. destruct v; intros H; try discriminate H; injection H as <-; exact I. Qed.

Lemma py_add_raises (a : num) (b : pyval) (e : exn) :
  py_add a b = Raise e -> loop_error e.
Proof.
  unfold py_add. intros H.
  destruct a; destruct b as [[] | text len]; cbn [bind] in H;
    try discriminate H; try (injection H as <-; exact I).
  all: destruct (float_of_int _) eqn:F; cbn [bind] in H; try discriminate H;
    injection H as <-; exact (float_of_int_raises _ _ F).
Qed.

Lemma tensor_loop_raises (items : list (string * json)) (e : exn) :
  forall (d : pydict) (t : num),
    tensor_loop items d t = Raise e -> loop_error e.
Proof.
  induction items as [| [name value] rest IH]; intros d t H; [discriminate H | ].
  cbn [tensor_loop] in H. destruct (String.eqb name metadata_key).
  - exact (IH _ _ H).
  - destruct (tensor_entry value) as [[dtype num_elements] | ] eqn:E;
      cbn [bind] in H; [ | injection H as <-; exact (tensor_entry_raises _ _ E)].
    destruct (to_key dtype) as [k | ] eqn:K; cbn [bind] in H;
      [ | injection H as <-; exact (to_key_raises _ _ K)].
    destruct (py_add (dict_get d k (NInt 0)) num_elements) as [count | ] eqn:A1;
      cbn [bind] in H; [ | injection H as <-; exact (py_add_raises _ _ _ A1)].
    destruct (py_add t num_elements) as [t1 | ] eqn:A2;
      cbn [bind] in H; [ | injection H as <-; exact (py_add_raises _ _ _ A2)].
    exact (IH _ _ H).
Qed.

Lemma loop_error_status (e : exn) : loop_error e -> exit_status (Raise e) = 1.
Proof. destruct e; cbn; intros H; (contradiction || reflexivity). Qed.

Lemma tensor_entry_lacks (value : json) :
  lacks value "dtype" = true \/ lacks value "shape" = true ->
  exists e, tensor_entry value = Raise e.
Proof.
  unfold lacks, tensor_entry.
  destruct (getitem value "dtype") as [dtype | e1]; cbn [bind];
    [ | intros _; now exists e1].
  destruct (getitem value "shape") as [shape | e2]; cbn [bind];
    [intros [H | H]; discriminate H | intros _; now exists e2].
Qed.

Lemma tensor_entry_lacks_member (members : list (string * json)) :
  lacks (JDict members) "dtype" = true \/ lacks (JDict members) "shape" = true ->
  tensor_entry (JDict members)
  = Raise (KeyError (if lacks (JDict members) "dtype" then "dtype" else "shape")).
Proof.
  unfold lacks, tensor_entry, getitem.
  destruct (find _ members) as [kv | ]; cbn [bind].
  - destruct (find _ members) as [kv' | ]; cbn [bind]; [ | reflexivity].
    intros [H | H]; discriminate H.
  - reflexivity.
Qed.

Lemma tensor_loop_lacks (items : list (string * json)) (name : string)
    (value : json) :
  In (name, value) items ->
  is_tensor (name, value) = true ->
  lacks value "dtype" = true \/ lacks value "shape" = true ->
  forall (d : pydict) (t : num), exists e, tensor_loop items d t = Raise e.
Proof.
  intros Hin Htensor Hlacks.
  induction items as [| [name' value'] rest IH]; [contradiction | ].
  intros d t. cbn [tensor_loop]. destruct Hin as [Heq | Hin].
  - injection Heq as -> ->. unfold is_tensor in Htensor. cbn [fst] in Htensor.
    destruct (String.eqb name metadata_key); [discriminate Htensor | ].
    destruct (tensor_entry_lacks value Hlacks) as [e ->]. now exists e.
  - destruct (String.eqb name' metadata_key); [now apply IH | ].
    destruct (tensor_entry value') as [[dtype num_elements] | e];
      cbn [bind]; [ | now exists e].
    destruct (to_key dtype) as [k | e]; cbn [bind]; [ | now exists e].
    destruct (py_add (dict_get d k (NInt 0)) num_elements) as [count | e];
      cbn [bind]; [ | now exists e].
    destruct (py_add t num_elements) as [t1 | e]; cbn [bind]; [ | now exists e].
    now apply IH.
Qed.

Lemma tensor_loop_app (pre post : list (string * json)) :
  forall (d : pydict) (t : num),
    tensor_loop (pre ++ post) d t
    = match tensor_loop pre d t with
      | Ok (d', t') => tensor_loop post d' t'
      | Raise e => Raise e
      end.
Proof.
  induction pre as [| [name value] rest IH]; intros d t; [reflexivity | ].
  cbn [app tensor_loop]. destruct (String.eqb name metadata_key); [apply IH | ].
  destruct (tensor_entry value) as [[dtype num_elements] | e];
    cbn [bind]; [ | reflexivity].
  destruct (to_key dtype) as [k | e]; cbn [bind]; [ | reflexivity].
  destruct (py_add (dict_get d k (NInt 0)) num_elements) as [count | e];
    cbn [bind]; [ | reflexivity].
  destruct (py_add t num_elements) as [t1 | e]; cbn [bind]; [ | reflexivity].
  apply IH.
Qed.

(** C7, amended. A tensor entry whose value lacks [dtype] or [shape]: the
    analysis fails with exit status 1 after the first heading, before the
    report; the entry is neither skipped nor given a default. When the
    entries before it are accepted and its value is a mapping, the failure
    is the [KeyError] of the missing field, [dtype] first: it names the key
    of the entry only if that key is the name of the field. *)
Theorem missing_field_fails (items : list (string * json)) (name : string)
    (value : json) (w : world) :
  In (name, value) items ->
  is_tensor (name, value) = true ->
  lacks value "dtype" = true \/ lacks value "shape" = true ->
  exists e,
    analyze (JDict items) w
    = (Raise e, mkWorld (unread w) (events w ++ [EvPrint tensor_heading]))
    /\ exit_status (Raise e) = 1
    /\ (forall pre post members d t,
          items = pre ++ (name, value) :: post ->
          tensor_loop pre [] (NInt 0) = Ok (d, t) ->
          value = JDict members ->
          e = KeyError (if lacks value "dtype" then "dtype" else "shape")
          /\ names_key e name
             = String.eqb (if lacks value "dtype" then "dtype" else "shape") name).
Proof.
  intros Hin Htensor Hlacks.
  destruct (tensor_loop_lacks _ _ _ Hin Htensor Hlacks [] (NInt 0)) as [e L].
  exists e. split; [ | split].
  - rewrite analyze_analysis. unfold analysis, py_items. now rewrite L.
  - exact (loop_error_status _ (tensor_loop_raises _ _ _ _ L)).
  - intros pre post members d t -> Hpre ->.
    rewrite tensor_loop_app, Hpre in L. cbn [tensor_loop] in L.
    unfold is_tensor in Htensor. cbn [fst] in Htensor.
    destruct (String.eqb name metadata_key); [discriminate Htensor | ].
    rewrite (tensor_entry_lacks_member members Hlacks) in L. cbn [bind] in L.
    injection L as <-. now split.
Qed.

(** ** Beyond the specification: the container *)

Lemma Z_of_byte_of_Z (z : Z) : Z_of_byte (Sample.byte_of_Z z) = z mod 256.
Proof.
  unfold Z_of_byte, Sample.byte_of_Z.
  pose proof (Z.mod_pos_bound z 256 ltac:(lia)) as Hm.
  destruct (Byte.of_N (Z.to_N (z mod 256))) as [b | ] eqn:E.
  - apply Byte.to_of_N in E. rewrite E. lia.
  - apply Byte.of_N_None_iff in E. lia.
Qed.

Lemma le_value_digits (len : nat) :
  forall n : Z,
    0 <= n ->
    le_value (map (fun i => Sample.byte_of_Z (Z.shiftr n (8 * Z.of_nat i)))
                (seq 0 len))
    = n mod 256 ^ Z.of_nat len.
Proof.
  induction len as [| len IH]; intros n Hn.
  - cbn. now rewrite Z.mod_1_r.
  - cbn [seq map le_value]. rewrite <- seq_shift, map_map.
    rewrite Z_of_byte_of_Z. change (8 * Z.of_nat 0) with 0. rewrite Z.shiftr_0_r.
    erewrite map_ext; [rewrite (IH (Z.shiftr n 8)) | ].
    + rewrite Z.shiftr_div_pow2 by lia. change (2 ^ 8) with 256.
      rewrite Nat2Z.inj_succ, Z.pow_succ_r by lia.
      rewrite Z.rem_mul_r; [reflexivity | lia | apply Z.pow_pos_nonneg; lia].
    + apply Z.shiftr_nonneg. exact Hn.
    + intros i. cbn beta. rewrite Z.shiftr_shiftr by lia. do 2 f_equal. lia.
Qed.

Lemma length_pack_Q (n : Z) : List.length (Sample.pack_Q n) = 8%nat.
Proof. reflexivity. Qed.

Lemma length_list_byte_of_string (s : string) :
  List.length (list_byte_of_string s) = String.length s.
Proof.
  unfold list_byte_of_string. rewrite length_map.
  induction s as [| c s IH]; [reflexivity | ]. cbn [list_ascii_of_string
  List.length String.length]. now rewrite IH.
Qed.

Lemma reads_app (evs1 evs2 : list event) :
  reads (evs1 ++ evs2) = reads evs1 ++ reads evs2.
Proof.
  induction evs1 as [| ev rest IH]; [reflexivity | ].
  destruct ev; cbn [app reads]; rewrite IH; reflexivity.
Qed.

Lemma reads_prints (lines : list string) : reads (map EvPrint lines) = [].
Proof. induction lines; [reflexivity | assumption]. Qed.

Lemma le_uint_pack_Q (n : Z) :
  0 <= n < 2 ^ 64 -> le_uint (Sample.pack_Q n) = n.
Proof.
  intros Hn. rewrite le_uint_value. unfold Sample.pack_Q.
  rewrite (le_value_digits 8 n) by apply Hn.
  change (256 ^ Z.of_nat 8) with (2 ^ 64). now apply Z.mod_small.
Qed.

(** X1. The length prefix round trip: the eight bytes that [struct.pack]
    writes for a number below [2^64] are unpacked to that number. *)
Theorem unpack_pack (n : Z) :
  0 <= n < 2 ^ 64 -> unpack_Q (Sample.pack_Q n) = Ok n.
Proof.
  intros Hn. unfold unpack_Q. rewrite length_pack_Q. cbn [Nat.eqb].
  now rewrite (le_uint_pack_Q n Hn).
Qed.

Lemma length_file_of (text : string) (payload : list byte) :
  List.length (Sample.file_of text payload)
  = (8 + String.length text + List.length payload)%nat.
Proof.
  unfold Sample.file_of.
  rewrite !length_app, length_pack_Q, length_list_byte_of_string. lia.
Qed.

Lemma file_of_parts (text : string) (payload : list byte) :
  firstn 8 (Sample.file_of text payload)
  = Sample.pack_Q (Z.of_nat (String.length text))
  /\ skipn 8 (Sample.file_of text payload) = list_byte_of_string text ++ payload.
Proof.
  unfold Sample.file_of. split.
  - rewrite firstn_app, length_pack_Q, Nat.sub_diag, firstn_O, app_nil_r.
    apply firstn_all2. now rewrite length_pack_Q.
  - rewrite skipn_app, length_pack_Q, Nat.sub_diag, skipn_O.
    rewrite skipn_all2 by (now rewrite length_pack_Q). reflexivity.
Qed.

(** X2. A file made of the length of a header text, the text and any tensor
    data: the script announces that length, hands exactly the text to
    [json.loads], and leaves the tensor data unread. *)
Theorem container_decoded (text : string) (payload : list byte) :
  Z.of_nat (String.length text) < 2 ^ 64 ->
  header_size_of (Sample.file_of text payload) = Z.of_nat (String.length text)
  /\ header_json_of (Sample.file_of text payload) = list_byte_of_string text
  /\ after_header (Sample.file_of text payload) = payload
  /\ exists later,
       events (snd (run (Sample.file_of text payload)))
       = EvRead 8 (Sample.pack_Q (Z.of_nat (String.length text)))
         :: EvPrint ("Header size: " ++ str_Z (Z.of_nat (String.length text)))
         :: EvRead (Z.of_nat (String.length text)) (list_byte_of_string text)
         :: EvLoads (list_byte_of_string text)
         :: map EvPrint later
       /\ unread (snd (run (Sample.file_of text payload))) = payload.
Proof.
  intros Hlen.
  destruct (file_of_parts text payload) as [F8 S8].
  pose proof (length_file_of text payload) as Hfile.
  set (file := Sample.file_of text payload) in *. clearbody file.
  assert (Hsize : header_size_of file = Z.of_nat (String.length text)).
  { unfold header_size_of. rewrite F8. apply le_uint_pack_Q.
    split; [apply Nat2Z.is_nonneg | exact Hlen]. }
  assert (Hjson : header_json_of file = list_byte_of_string text).
  { unfold header_json_of. rewrite Hsize, S8, Nat2Z.id.
    rewrite firstn_app, length_list_byte_of_string, Nat.sub_diag, firstn_O, app_nil_r.
    apply firstn_all2. now rewrite length_list_byte_of_string. }
  assert (Hafter : after_header file = payload).
  { unfold after_header. rewrite Hsize, S8, Nat2Z.id.
    rewrite skipn_app, length_list_byte_of_string, Nat.sub_diag, skipn_O.
    rewrite skipn_all2 by (now rewrite length_list_byte_of_string). reflexivity. }
  split; [exact Hsize | ]. split; [exact Hjson | ]. split; [exact Hafter | ].
  assert (H8 : (8 <= List.length file)%nat)
    by (rewrite Hfile;
        apply Nat.le_trans with (8 + String.length text)%nat;
        [apply Nat.le_add_r | apply Nat.le_add_r]).
  assert (Hin : 8 + header_size_of file <= Z.of_nat (List.length file))
    by (rewrite Hsize, Hfile; lia).
  rewrite (run_long file H8), (header_read_within file Hin).
  unfold prologue. rewrite Hjson, Hsize, Hafter, F8.
  destruct (json_loads (list_byte_of_string text)) as [header | e].
  - rewrite analyze_analysis. cbn [snd events unread app].
    exists (fst (analysis header)). split; reflexivity.
  - exists []. split; reflexivity.
Qed.

Lemma header_size_app (file extra : list byte) :
  (8 <= List.length file)%nat ->
  header_size_of (file ++ extra) = header_size_of file.
Proof.
  intros Hlen. unfold header_size_of. rewrite firstn_app.
  replace (8 - List.length file)%nat with 0%nat by lia.
  now rewrite firstn_O, app_nil_r.
Qed.

Lemma header_json_app (file extra : list byte) :
  8 + header_size_of file <= Z.of_nat (List.length file) ->
  header_json_of (file ++ extra) = header_json_of file
  /\ after_header (file ++ extra) = after_header file ++ extra.
Proof.
  intros Hlen. pose proof (header_size_nonneg file) as Hpos.
  unfold header_json_of, after_header. rewrite header_size_app by lia.
  rewrite skipn_app. replace (8 - List.length file)%nat with 0%nat by lia.
  rewrite skipn_O, firstn_app, skipn_app, length_skipn.
  replace (Z.to_nat (header_size_of file) - (List.length file - 8))%nat
    with 0%nat by lia.
  now rewrite firstn_O, skipn_O, app_nil_r.
Qed.

Lemma reads_prologue (file : list byte) :
  reads (prologue file) = [8; header_size_of file].
Proof. reflexivity. Qed.

(** X3. The tensor data is never read: a file that holds its header in full
    is read twice, for 8 and for H bytes, and whatever follows the header
    changes neither the result of the run nor anything it prints; it is
    only left unread. *)
Theorem payload_never_read (file extra : list byte) :
  8 + header_size_of file <= Z.of_nat (List.length file) ->
  reads (events (snd (run (file ++ extra)))) = [8; header_size_of file]
  /\ fst (run (file ++ extra)) = fst (run file)
  /\ events (snd (run (file ++ extra))) = events (snd (run file))
  /\ unread (snd (run (file ++ extra))) = unread (snd (run file)) ++ extra.
Proof.
  intros Hlen. pose proof (header_size_nonneg file) as Hpos.
  destruct (header_json_app file extra Hlen) as [Hjson Hafter].
  assert (Hpro : prologue (file ++ extra) = prologue file).
  { unfold prologue. rewrite Hjson, header_size_app by lia.
    rewrite firstn_app. replace (8 - List.length file)%nat with 0%nat by lia.
    now rewrite firstn_O, app_nil_r. }
  rewrite (run_long (file ++ extra)) by (rewrite length_app; lia).
  rewrite (header_read_within (file ++ extra))
    by (rewrite header_size_app, length_app by lia; lia).
  rewrite (run_long file) by lia. rewrite (header_read_within file Hlen).
  rewrite Hjson, Hafter, Hpro.
  destruct (json_loads (header_json_of file)) as [header | e].
  - rewrite !analyze_analysis. cbn [fst snd events unread].
    rewrite reads_app, reads_prints, app_nil_r, reads_prologue.
    repeat split; reflexivity.
  - cbn [fst snd events unread]. rewrite reads_prologue.
    repeat split; reflexivity.
Qed.

(** X4. A header cut short is not noticed as such. When fewer than H bytes
    follow the prefix, the read of H bytes raises [OverflowError] for an H
    beyond the longest bytes object and [MemoryError] for an H that the
    machine cannot allocate; otherwise [json.loads] is given the bytes that
    are there, and the run goes on or fails as the decoder decides, the
    file being read to its end. *)
Theorem truncated_header_decoded (file : list byte) :
  (8 <= List.length file)%nat ->
  Z.of_nat (List.length file) < 8 + header_size_of file ->
  header_json_of file = skipn 8 file
  /\ Z.of_nat (List.length (header_json_of file)) < header_size_of file
  /\ run file
     = if bytes_max <? header_size_of file
       then (Raise OverflowError, mkWorld (skipn 8 file) (opening file))
       else if allocates Bytes (header_size_of file)
       then match json_loads (skipn 8 file) with
            | inl header => analyze header (mkWorld [] (prologue file))
            | inr e => (Raise (DecodeError e), mkWorld [] (prologue file))
            end
       else (Raise MemoryError, mkWorld (skipn 8 file) (opening file)).
Proof.
  intros Hlen Hshort.
  assert (Hjson : header_json_of file = skipn 8 file).
  { unfold header_json_of. apply firstn_all2. rewrite length_skipn. lia. }
  assert (Hafter : after_header file = []).
  { unfold after_header. apply skipn_all2. rewrite length_skipn. lia. }
  split; [exact Hjson | ]. split.
  - rewrite Hjson, length_skipn. lia.
  - rewrite (run_long file Hlen). unfold header_read.
    destruct (Z.leb_spec (8 + header_size_of file) (Z.of_nat (List.length file)));
      [lia | ].
    destruct (bytes_max <? header_size_of file); [reflexivity | ].
    destruct (allocates Bytes (header_size_of file)); [ | reflexivity].
    now rewrite Hafter, Hjson.
Qed.

(** ** Beyond the specification: how a run can end *)

(** X5. A header that decodes to something other than an object: the run
    prints the first heading, then fails on [header.items()] with
    [AttributeError] and exit status 1. *)
Theorem header_not_an_object (file : list byte) (header : json) :
  (8 <= List.length file)%nat ->
  header_read file = None ->
  json_loads (header_json_of file) = inl header ->
  (forall items, header <> JDict items) ->
  fst (run file) = Raise AttributeError
  /\ exit_status (fst (run file)) = 1
  /\ events (snd (run file)) = prologue file ++ [EvPrint tensor_heading]
  /\ stdout (events (snd (run file)))
     = ("Header size: " ++ str_Z (header_size_of file) ++ nl
          ++ tensor_heading ++ nl)%string.
Proof.
  intros Hlen Hread Hparsed Hnot.
  assert (A : analysis header = ([tensor_heading], Raise AttributeError)).
  { destruct header; try reflexivity. now contradiction (Hnot members). }
  rewrite (run_long file Hlen), Hread, Hparsed, analyze_analysis, A.
  cbn [fst snd events unread exit_status map].
  split; [reflexivity | ]. split; [reflexivity | ]. split; [reflexivity | ].
  rewrite stdout_app, stdout_prologue. cbn [stdout].
  now rewrite !append_assoc.
Qed.

(** X6. No report without a full aggregation: when the loop over the header
    raises, on any entry, the analysis ends with that exception and exit
    status 1, having printed the first heading only; the exception is a
    [KeyError], a [TypeError], an [OverflowError] or a [MemoryError]. *)
Theorem failed_aggregation_prints_no_report (items : list (string * json))
    (e : exn) (w : world) :
  tensor_loop items [] (NInt 0) = Raise e ->
  analyze (JDict items) w
  = (Raise e, mkWorld (unread w) (events w ++ [EvPrint tensor_heading]))
  /\ loop_error e
  /\ exit_status (Raise e) = 1.
Proof.
  intros L. pose proof (tensor_loop_raises _ _ _ _ L) as He.
  split; [ | split; [exact He | exact (loop_error_status _ He)]].
  rewrite analyze_analysis. unfold analysis, py_items. now rewrite L.
Qed.








(** ** Beyond the specification: what each bucket holds *)

(** X8. On a well-formed header the buckets are exactly the dtypes that
    occur, each once, and each bucket holds the sum of the products of the
    shapes of the tensors of its dtype. *)
Theorem bucket_holds_dtype_total (items : list (string * json)) :
  well_formed items = true ->
  exists dtypes labels,
    tensor_loop items [] (NInt 0) = Ok (dtypes, NInt (spec_total items))
    /\ map fst dtypes = map KStr labels
    /\ NoDup labels
    /\ (forall dtype, In dtype labels <-> In dtype (map fst (descriptors items)))
    /\ (forall dtype c,
          In (KStr dtype, NInt c) dtypes
          <-> In dtype labels /\ c = dtype_total dtype items)
    /\ (forall dtype,
          dict_get dtypes (KStr dtype) (NInt 0) = NInt (dtype_total dtype items)).
Proof.
  intros Hwf. set (l := accumulate (descriptors items) []).
  assert (Hnd : NoDup (map fst l)) by (apply NoDup_accumulate; constructor).
  assert (Hcount : forall dtype, count_of l dtype = dtype_total dtype items).
  { intros dtype. unfold l. now rewrite count_of_accumulate. }
  exists (of_counts l), (map fst l).
  split; [exact (tensor_loop_well_formed items [] 0 Hwf) | ].
  split; [apply of_counts_keys | ]. split; [exact Hnd | ]. split; [ | split].
  - intros dtype. split; intros H.
    + destruct (keys_accumulate_inv _ _ _ H) as [[] | Hd]. exact Hd.
    + apply keys_accumulate. now right.
  - intros dtype c. split.
    + intros H. apply of_counts_In_inv in H. split.
      * exact (in_map fst _ _ H).
      * rewrite <- Hcount. symmetry. now apply count_of_unique.
    + intros [Hin ->]. apply of_counts_In. rewrite <- Hcount.
      now apply count_of_In.
  - intros dtype. now rewrite dict_get_of_counts, Hcount.
Qed.

(** ** Beyond the specification: one bucket per dtype, whatever the keys *)

Lemma feqb_refl_finite (x : float) : is_finite x = true -> feqb x x = true.
Proof.
  destruct x as [ | s | s | s m e]; try discriminate; intros _; [reflexivity | ].
  cbn [feqb]. now rewrite Bool.eqb_reflx, Z.eqb_refl.
Qed.

Lemma key_eqb_refl (k : key) : key_eqb k k = true.
Proof.
  destruct k as [ | b | n | x | s]; cbn [key_eqb].
  - reflexivity.
  - apply Bool.eqb_reflx.
  - apply Z.eqb_refl.
  - destruct x as [ | s | s | s m e]; [reflexivity | | reflexivity | ].
    + cbn. apply Bool.eqb_reflx.
    + now apply feqb_refl_finite.
  - apply String.eqb_refl.
Qed.

Lemma distinct_keys_snoc (seen : list key) (k : key) :
  distinct_keys seen ->
  existsb (fun k' => key_eqb k' k) seen = false ->
  distinct_keys (seen ++ [k]).
Proof.
  unfold distinct_keys. intros Hd Hnew.
  induction Hd as [| k0 rest Hk0 _ IH]; cbn [app].
  - constructor; [constructor | constructor].
  - cbn [existsb] in Hnew. apply orb_false_iff in Hnew as [Hk Hrest].
    constructor; [ | now apply IH].
    apply Forall_app. split; [exact Hk0 | ]. constructor; [exact Hk | constructor].
Qed.

Lemma first_seen_from_distinct (ks : list key) :
  forall seen : list key,
    distinct_keys seen -> distinct_keys (first_seen_from seen ks).
Proof.
  induction ks as [| k rest IH]; intros seen Hd; [exact Hd | ].
  cbn [first_seen_from]. apply IH.
  destruct (existsb (fun k' => key_eqb k' k) seen) eqn:E; [exact Hd | ].
  now apply distinct_keys_snoc.
Qed.

Lemma first_seen_from_grows (ks : list key) :
  forall seen : list key,
    exists more, first_seen_from seen ks = seen ++ more.
Proof.
  induction ks as [| k rest IH]; intros seen.
  - exists []. now rewrite app_nil_r.
  - cbn [first_seen_from].
    destruct (existsb (fun k' => key_eqb k' k) seen); [apply IH | ].
    destruct (IH (seen ++ [k])) as [more ->]. exists (k :: more).
    now rewrite <- app_assoc.
Qed.

Lemma first_seen_from_covers (ks : list key) (k : key) :
  forall seen : list key,
    In k ks ->
    existsb (fun k' => key_eqb k' k) (first_seen_from seen ks) = true.
Proof.
  induction ks as [| k0 rest IH]; intros seen; [contradiction | ].
  cbn [In first_seen_from]. intros [-> | Hin]; [ | now apply IH].
  destruct (first_seen_from_grows rest
              (if existsb (fun k' => key_eqb k' k) seen then seen else seen ++ [k]))
    as [more ->].
  rewrite existsb_app. apply orb_true_iff. left.
  destruct (existsb (fun k' => key_eqb k' k) seen) eqn:E; [exact E | ].
  rewrite existsb_app. cbn [existsb]. now rewrite key_eqb_refl, orb_true_r.
Qed.

Lemma first_seen_from_sound (ks : list key) (k : key) :
  forall seen : list key,
    In k (first_seen_from seen ks) -> In k seen \/ In k ks.
Proof.
  induction ks as [| k0 rest IH]; intros seen; cbn [first_seen_from In];
    [now left | ].
  intros H. destruct (IH _ H) as [Hs | Hr]; [ | auto].
  destruct (existsb (fun k' => key_eqb k' k0) seen); [now left | ].
  apply in_app_or in Hs as [Hs | [<- | []]]; auto.
Qed.

(** X9. Whatever the dtypes are (texts, numbers, [true], [null]), a loop
    that ends normally leaves one bucket per dtype: no two bucket keys are
    equal, every dtype of the header equals the key of a bucket, and every
    bucket key is a dtype of the header. *)
Theorem one_bucket_per_dtype (items : list (string * json)) (dtypes : pydict)
    (total_elements : num) :
  tensor_loop items [] (NInt 0) = Ok (dtypes, total_elements) ->
  distinct_keys (map fst dtypes)
  /\ (forall k, In k (dtype_keys items) ->
        exists k', In k' (map fst dtypes) /\ key_eqb k' k = true)
  /\ (forall k, In k (map fst dtypes) -> In k (dtype_keys items)).
Proof.
  intros L. rewrite (tensor_loop_keys _ _ _ _ _ L). cbn [map].
  split; [ | split].
  - apply first_seen_from_distinct. constructor.
  - intros k Hin.
    pose proof (first_seen_from_covers _ k [] Hin) as H.
    apply existsb_exists in H as (k' & Hk' & E). now exists k'.
  - intros k Hin. destruct (first_seen_from_sound _ _ _ Hin) as [[] | H].
    exact H.
Qed.

(** ** Beyond the specification: dimensions of either sign *)

Lemma multiply_out_integers (elems : list json) :
  forall (shape : list Z) (a : Z),
    integers elems = Some shape ->
    multiply_out elems (PNum (NInt a)) = Ok (PNum (NInt (a * product shape))).
Proof.
  induction elems as [| dim rest IH]; intros shape a Hd.
  - injection Hd as <-. cbn. f_equal. f_equal. f_equal. lia.
  - cbn [integers] in Hd. destruct dim; try discriminate.
    destruct (integers rest) as [shape' | ]; [ | discriminate].
    injection Hd as <-. cbn [multiply_out py_mul bind].
    rewrite (IH shape' (a * n) eq_refl). cbn [product fold_right].
    fold (product shape'). f_equal. f_equal. f_equal. lia.
Qed.

Lemma tensor_entry_signed (value : json) (dtype : string) (shape : list Z) :
  signed_descriptor value = Some (dtype, shape) ->
  tensor_entry value = Ok (JStr dtype, PNum (NInt (product shape))).
Proof.
  unfold signed_descriptor, tensor_entry. intros H.
  destruct (getitem value "dtype") as [[] | ]; try discriminate.
  destruct (getitem value "shape") as [[] | ]; try discriminate.
  destruct (integers elems) as [shape' | ] eqn:E; [ | discriminate].
  injection H as <- <-. cbn [bind iterate].
  rewrite (multiply_out_integers elems shape' 1 E). cbn [bind].
  now rewrite Z.mul_1_l.
Qed.

Lemma tensors_cons (name : string) (value : json) (rest : list (string * json)) :
  tensors ((name, value) :: rest)
  = if String.eqb name metadata_key then tensors rest
    else (name, value) :: tensors rest.
Proof.
  unfold tensors. cbn [filter]. unfold is_tensor at 1. cbn [fst].
  now destruct (String.eqb name metadata_key).
Qed.

Lemma integer_shaped_cons (name : string) (value : json)
    (rest : list (string * json)) :
  integer_shaped ((name, value) :: rest) = true ->
  integer_shaped rest = true
  /\ (String.eqb name metadata_key = false ->
      exists d, signed_descriptor value = Some d
                /\ signed_descriptors ((name, value) :: rest)
                   = d :: signed_descriptors rest)
  /\ (String.eqb name metadata_key = true ->
      signed_descriptors ((name, value) :: rest) = signed_descriptors rest).
Proof.
  unfold integer_shaped, signed_descriptors. rewrite tensors_cons.
  destruct (String.eqb name metadata_key); cbn [forallb flat_map snd].
  - intros H. split; [exact H | ]. split; [discriminate | reflexivity].
  - destruct (signed_descriptor value) as [d | ]; [ | discriminate].
    cbn [andb app]. intros H. split; [exact H | ]. split; [ | discriminate].
    intros _. now exists d.
Qed.

Lemma tensor_loop_integer_shaped (items : list (string * json)) :
  forall (l : counts) (t : Z),
    integer_shaped items = true ->
    tensor_loop items (of_counts l) (NInt t)
    = Ok (of_counts (accumulate (signed_descriptors items) l),
          NInt (t + signed_total items)).
Proof.
  induction items as [| [name value] rest IH]; intros l t Hok.
  - cbn. now rewrite Z.add_0_r.
  - destruct (integer_shaped_cons _ _ _ Hok) as (Hrest & Htensor & Hmeta).
    cbn [tensor_loop]. destruct (String.eqb name metadata_key) eqn:E.
    + rewrite (IH l t Hrest). unfold signed_total. now rewrite (Hmeta eq_refl).
    + destruct (Htensor eq_refl) as ([dtype shape] & Hd & Hds).
      rewrite (tensor_entry_signed _ _ _ Hd). cbn [bind to_key].
      rewrite dict_get_of_counts. cbn [py_add bind].
      rewrite dict_set_of_counts, (IH _ _ Hrest).
      unfold signed_total. rewrite Hds.
      cbn [accumulate fold_left fst snd map sum_Z fold_right].
      f_equal. f_equal. f_equal.
      fold (sum_Z (map (fun d => product (snd d)) (signed_descriptors rest))).
      lia.
Qed.

Lemma dimensions_integers (elems : list json) (shape : list Z) :
  dimensions elems = Some shape -> integers elems = Some shape.
Proof.
  revert shape. induction elems as [| dim rest IH]; intros shape H; [exact H | ].
  cbn [dimensions integers] in *. destruct dim; try discriminate.
  destruct (0 <=? n); [ | discriminate].
  destruct (dimensions rest) as [shape' | ]; [ | discriminate].
  now rewrite (IH shape' eq_refl).
Qed.

Lemma descriptor_signed (value : json) (d : string * list Z) :
  descriptor value = Some d -> signed_descriptor value = Some d.
Proof.
  unfold descriptor, signed_descriptor.
  destruct (getitem value "dtype") as [[] | ]; try discriminate.
  destruct (getitem value "shape") as [[] | ]; try discriminate.
  destruct (dimensions elems) as [shape | ] eqn:E; [ | discriminate].
  now rewrite (dimensions_integers _ _ E).
Qed.

Lemma well_formed_integer_shaped (items : list (string * json)) :
  well_formed items = true ->
  integer_shaped items = true /\ signed_descriptors items = descriptors items.
Proof.
  unfold well_formed, integer_shaped, signed_descriptors, descriptors.
  induction (tensors items) as [| entry rest IH]; [now split | ].
  cbn [forallb flat_map].
  destruct (descriptor (snd entry)) as [d | ] eqn:D; [ | discriminate].
  rewrite (descriptor_signed _ _ D). cbn [andb]. intros H.
  destruct (IH H) as [H1 H2]. split; [exact H1 | now rewrite H2].
Qed.

(** X10. Dimensions are not validated: on a header whose shapes are lists
    of integers of either sign, the loop ends normally, the grand total is
    the sum of the products of the shapes as they stand, negative ones
    included, and the bucket counts add up to it. A well-formed header is
    such a header, with the same total. *)
Theorem signed_shapes_multiplied (items : list (string * json)) :
  integer_shaped items = true ->
  (exists dtypes,
     tensor_loop items [] (NInt 0) = Ok (dtypes, NInt (signed_total items))
     /\ sum_counts dtypes = Some (signed_total items))
  /\ (well_formed items = true -> signed_total items = spec_total items).
Proof.
  intros Hok. split.
  - exists (of_counts (accumulate (signed_descriptors items) [])). split.
    + exact (tensor_loop_integer_shaped items [] 0 Hok).
    + rewrite sum_counts_of_counts, sum_accumulate. reflexivity.
  - intros Hwf. destruct (well_formed_integer_shaped items Hwf) as [_ E].
    unfold signed_total, spec_total. now rewrite E.
Qed.

(** ** Beyond the specification: the order of the entries *)

Lemma Permutation_filter {A : Type} (f : A -> bool) (l l' : list A) :
  Permutation l l' -> Permutation (filter f l) (filter f l').
Proof.
  induction 1 as [| x l l' _ IH | x y l | l l' l'' _ IH1 _ IH2]; cbn [filter].
  - constructor.
  - destruct (f x); [now constructor | exact IH].
  - destruct (f x), (f y); try apply Permutation_refl. apply perm_swap.
  - now transitivity (filter f l').
Qed.

Lemma Permutation_flat_map {A B : Type} (f : A -> list B) (l l' : list A) :
  Permutation l l' -> Permutation (flat_map f l) (flat_map f l').
Proof.
  induction 1 as [| x l l' _ IH | x y l | l l' l'' _ IH1 _ IH2]; cbn [flat_map].
  - constructor.
  - now apply Permutation_app_head.
  - rewrite !app_assoc. apply Permutation_app_tail, Permutation_app_comm.
  - now transitivity (flat_map f l').
Qed.

Lemma sum_Z_Permutation (l l' : list Z) :
  Permutation l l' -> sum_Z l = sum_Z l'.
Proof.
  unfold sum_Z.
  induction 1 as [| x l l' _ IH | x y l | l l' l'' _ IH1 _ IH2];
    cbn [fold_right]; lia.
Qed.

Lemma descriptors_Permutation (items items' : list (string * json)) :
  Permutation items items' ->
  Permutation (descriptors items) (descriptors items').
Proof.
  intros H. unfold descriptors, tensors.
  now apply Permutation_flat_map, Permutation_filter.
Qed.

Lemma well_formed_Permutation (items items' : list (string * json)) :
  Permutation items items' ->
  well_formed items = true -> well_formed items' = true.
Proof.
  unfold well_formed, tensors. intros H Hwf.
  apply forallb_forall. intros entry Hin.
  rewrite forallb_forall in Hwf. apply Hwf.
  apply (Permutation_in entry (Permutation_sym (Permutation_filter is_tensor _ _ H))).
  exact Hin.
Qed.

Lemma accumulate_In (descs : list (string * list Z)) (d : string) (c : Z) :
  In (d, c) (accumulate descs [])
  <-> In d (map fst descs)
      /\ c = sum_Z (map (fun x => product (snd x))
                      (filter (fun x => String.eqb (fst x) d) descs)).
Proof.
  assert (Hnd : NoDup (map fst (accumulate descs [])))
    by (apply NoDup_accumulate; constructor).
  split.
  - intros Hin. split.
    + destruct (keys_accumulate_inv _ _ _ (in_map fst _ _ Hin)) as [[] | H].
      exact H.
    + rewrite <- (count_of_unique _ _ _ Hnd Hin), count_of_accumulate.
      reflexivity.
  - intros [Hin ->].
    replace (sum_Z _) with (count_of (accumulate descs []) d)
      by (rewrite count_of_accumulate; reflexivity).
    apply count_of_In, keys_accumulate. now right.
Qed.

Lemma accumulate_Permutation (descs descs' : list (string * list Z)) :
  Permutation descs descs' ->
  Permutation (accumulate descs []) (accumulate descs' []).
Proof.
  intros H. apply NoDup_Permutation.
  - apply (NoDup_map_inv fst), NoDup_accumulate. constructor.
  - apply (NoDup_map_inv fst), NoDup_accumulate. constructor.
  - intros [d c]. rewrite !accumulate_In.
    rewrite (sum_Z_Permutation _ _
               (Permutation_map _ (Permutation_filter
                                     (fun x => String.eqb (fst x) d) _ _ H))).
    split; intros [Hin Hc]; (split; [ | exact Hc]).
    + exact (Permutation_in _ (Permutation_map fst H) Hin).
    + exact (Permutation_in _ (Permutation_sym (Permutation_map fst H)) Hin).
Qed.

(** X11. The order of the entries of a well-formed header does not matter
    to the counts: a header with the same entries in another order gives the
    same grand total and the same buckets, each with the same count; only
    the order of the buckets may differ. *)
Theorem entry_order_irrelevant (items items' : list (string * json)) :
  Permutation items items' ->
  well_formed items = true ->
  exists dtypes dtypes',
    tensor_loop items [] (NInt 0) = Ok (dtypes, NInt (spec_total items))
    /\ tensor_loop items' [] (NInt 0) = Ok (dtypes', NInt (spec_total items))
    /\ Permutation dtypes dtypes'
    /\ (forall dtype,
          dict_get dtypes' (KStr dtype) (NInt 0)
          = dict_get dtypes (KStr dtype) (NInt 0)).
Proof.
  intros Hperm Hwf.
  pose proof (well_formed_Permutation _ _ Hperm Hwf) as Hwf'.
  pose proof (descriptors_Permutation _ _ Hperm) as Hd.
  assert (Htotal : spec_total items' = spec_total items).
  { unfold spec_total. symmetry.
    exact (sum_Z_Permutation _ _ (Permutation_map _ Hd)). }
  exists (of_counts (accumulate (descriptors items) [])),
         (of_counts (accumulate (descriptors items') [])).
  split; [exact (tensor_loop_well_formed items [] 0 Hwf) | ].
  split.
  { rewrite <- Htotal. exact (tensor_loop_well_formed items' [] 0 Hwf'). }
  split.
  { unfold of_counts. apply Permutation_map. now apply accumulate_Permutation. }
  intros dtype. rewrite !dict_get_of_counts, !count_of_accumulate.
  cbn [count_of]. do 2 f_equal. symmetry.
  exact (sum_Z_Permutation _ _
           (Permutation_map _ (Permutation_filter
                                 (fun x => String.eqb (fst x) dtype) _ _ Hd))).
Qed.

(** ** Beyond the specification: the printed percentages *)

(** X12. On a well-formed header with a positive grand total, counts that
    can be converted to text and labels that can be printed, the run ends
    normally and every row shows a percentage between 0.00 and 100.00: the
    hundredths of some [c] with [0 <= c <= 10000], without a sign, within
    one hundredth of [100 * count / total]. *)
Theorem percentages_between_0_and_100 (items : list (string * json)) (w : world) :
  well_formed items = true ->
  0 < spec_total items ->
  Forall (fun d => dtype_total (fst d) items < str_limit) (descriptors items) ->
  Forall (fun d => printable (fst d) = true) (descriptors items) ->
  exists lines,
    analyze (JDict items) w
    = (Ok tt,
       mkWorld (unread w)
         (events w ++ EvPrint tensor_heading :: EvPrint distribution_heading
            :: map EvPrint lines))
    /\ Forall2 (fun sc line =>
                  exists c,
                    0 <= c <= 10000
                    /\ Z.abs (c * spec_total items - 10000 * snd sc)
                       < spec_total items
                    /\ line = (fst sc ++ ": " ++ str_Z (snd sc) ++ " elements ("
                                 ++ hundredths_text c ++ "%)")%string)
         (accumulate (descriptors items) []) lines.
Proof.
  intros Hwf Hpos Hsmall Hprint.
  destruct (analysis_well_formed items Hwf Hpos Hsmall Hprint)
    as (lines & A & F).
  exists lines. split.
  - rewrite analyze_analysis, A. reflexivity.
  - eapply Forall2_impl; [ | exact F].
    cbn beta. intros [d n] line (pct & c & _ & Hc & Hnear & Hf & ->).
    cbn [fst snd] in *. exists c. split; [exact Hc | ]. split; [exact Hnear | ].
    unfold row_text. now rewrite Hf.
Qed.

(** ** Beyond the specification: a header with one dtype *)

Lemma accumulate_one_dtype (dtype : string) (descs : list (string * list Z)) :
  forall c : Z,
    Forall (fun d => fst d = dtype) descs ->
    accumulate descs [(dtype, c)]
    = [(dtype, c + sum_Z (map (fun d => product (snd d)) descs))].
Proof.
  induction descs as [| d rest IH]; intros c Hall.
  - cbn. now rewrite Z.add_0_r.
  - inversion Hall as [| ? ? Hd Hrest]; subst.
    cbn [accumulate fold_left add_count]. rewrite String.eqb_refl.
    fold (accumulate rest). rewrite (IH _ Hrest).
    cbn [map sum_Z fold_right]. do 2 f_equal. unfold sum_Z. lia.
Qed.

(** X13. A well-formed header whose tensors all have the same dtype, a
    label that can be printed, and whose grand total is positive and can be
    converted to text: the report is the one row
    [<dtype>: <total> elements (100.00%)]. *)
Theorem single_dtype_is_100_percent (items : list (string * json))
    (dtype : string) (w : world) :
  well_formed items = true ->
  0 < spec_total items < str_limit ->
  printable dtype = true ->
  Forall (fun d => fst d = dtype) (descriptors items) ->
  analyze (JDict items) w
  = (Ok tt,
     mkWorld (unread w)
       (events w
          ++ [EvPrint tensor_heading; EvPrint distribution_heading;
              EvPrint (dtype ++ ": " ++ str_Z (spec_total items)
                         ++ " elements (100.00%)")])).
Proof.
  intros Hwf Hpos Hprint Hall.
  assert (Hacc : accumulate (descriptors items) []
                 = [(dtype, spec_total items)]).
  { unfold spec_total in *. destruct (descriptors items) as [| d rest].
    - cbn [map sum_Z fold_right] in Hpos. lia.
    - inversion Hall as [| ? ? Hd Hrest]; subst.
      cbn [accumulate fold_left add_count]. fold (accumulate rest).
      rewrite (accumulate_one_dtype _ rest _ Hrest). reflexivity. }
  rewrite analyze_analysis. unfold analysis, py_items.
  change (@nil (key * num)) with (of_counts []).
  rewrite (tensor_loop_well_formed items [] 0 Hwf), Hacc.
  cbn [Z.add of_counts map fst snd report_rows]. unfold row.
  cbn [format_key format_num bind]. rewrite py_str_ok by lia. cbn [bind].
  destruct (percentage_of_whole _ (proj1 Hpos)) as (pct & -> & Hf).
  cbn [bind].
  rewrite (printable_row dtype _ pct (ascii_text_str_Z _)), Hprint.
  cbn [fst snd map]. unfold row_text. now rewrite Hf.
Qed.

(** ** Beyond the specification: a shape that is not a list *)

Lemma py_add_sequence (a : num) (text : bool) (len : Z) :
  py_add a (PSeq text len) = Raise TypeError.
Proof. now destruct a. Qed.

Lemma multiply_out_texts (dims : list json) (text : bool) (len : Z) :
  Forall (fun dim => exists s, dim = JStr s) dims ->
  multiply_out dims (PSeq text len) = Raise TypeError \/ dims = [].
Proof.
  intros [| dim rest (s & ->) _]; [now right | now left].
Qed.

(** A text taken once is a text. *)
Lemma py_repeat_once (in_place : bool) (len : Z) :
  exists len', py_repeat true in_place len 1 = Ok (PSeq true len').
Proof.
  unfold py_repeat. change (negb (fits_index 1)) with false.
  change (1 <=? 0) with false. cbn [orb andb Z.eqb].
  destruct (len =? 0); eexists; reflexivity.
Qed.

Lemma tensor_loop_text_dimensions (name : string) (value dtype shape : json)
    (dims : list json) (rest : list (string * json)) (d : pydict) (t : num) :
  String.eqb name metadata_key = false ->
  getitem value "dtype" = Ok dtype ->
  getitem value "shape" = Ok shape ->
  iterate shape = Ok dims ->
  dims <> [] ->
  Forall (fun dim => exists s, dim = JStr s) dims ->
  tensor_loop ((name, value) :: rest) d t = Raise TypeError.
Proof.
  intros Hname Hd Hs Hit Hne Hall. cbn [tensor_loop]. rewrite Hname.
  unfold tensor_entry. rewrite Hd, Hs. cbn [bind]. rewrite Hit. cbn [bind].
  destruct Hall as [| dim more (s & ->) Hmore]; [contradiction | ].
  cbn [multiply_out py_mul].
  destruct (py_repeat_once false (Z.of_nat (String.length s))) as [len ->].
  cbn [bind].
  destruct (multiply_out_texts more true len Hmore) as [-> | ->];
    [reflexivity | ].
  cbn [multiply_out bind]. destruct (to_key dtype) as [k | e] eqn:K; cbn [bind].
  - now rewrite py_add_sequence.
  - destruct dtype; try discriminate K; now injection K as <-.
Qed.

(** X14. A shape that is not a list. An empty text or an empty object is
    run through like an empty list, so the tensor counts one element; a
    non-empty text or object, whose characters or keys cannot be multiplied
    into a number, and a shape that is a number, [true], [false] or [null],
    which cannot be iterated, stop the loop with [TypeError]. *)
Theorem shape_not_a_list (name : string) (value dtype shape : json)
    (rest : list (string * json)) (d : pydict) (t : num) :
  String.eqb name metadata_key = false ->
  getitem value "dtype" = Ok dtype ->
  getitem value "shape" = Ok shape ->
  match shape with
  | JList _ => True
  | JStr EmptyString | JDict [] => tensor_entry value = Ok (dtype, PNum (NInt 1))
  | _ => tensor_loop ((name, value) :: rest) d t = Raise TypeError
  end.
Proof.
  intros Hname Hd Hs.
  assert (Hfail : iterate shape = Raise TypeError ->
                  tensor_loop ((name, value) :: rest) d t = Raise TypeError).
  { intros Hit. cbn [tensor_loop]. rewrite Hname. unfold tensor_entry.
    rewrite Hd, Hs. cbn [bind]. now rewrite Hit. }
  assert (Hone : iterate shape = Ok [] ->
                 tensor_entry value = Ok (dtype, PNum (NInt 1))).
  { intros Hit. unfold tensor_entry. rewrite Hd, Hs. cbn [bind].
    now rewrite Hit. }
  destruct shape as [ | b | n | x | s | elems | members];
    try (apply Hfail; reflexivity); [ | exact I | ].
  - destruct s as [| c s]; [apply Hone; reflexivity | ].
    eapply tensor_loop_text_dimensions; try eassumption; try reflexivity.
    + discriminate.
    + apply Forall_forall. intros dim Hin.
      apply in_map_iff in Hin as (c' & <- & _). eauto.
  - destruct members as [| kv members]; [apply Hone; reflexivity | ].
    eapply tensor_loop_text_dimensions; try eassumption; try reflexivity.
    + discriminate.
    + apply Forall_forall. intros dim Hin.
      apply in_map_iff in Hin as (kv' & <- & _). eauto.
Qed.

(** ** Beyond the specification: a dtype that is not a text *)

(** X15. The dtype is not validated either. With a shape of integers, a
    dtype that is a list or an object cannot be a dictionary key and stops
    the loop with [TypeError]; any other dtype, a number, [true], [false]
    or [null] as well as a text, is taken as the label of a bucket that
    holds the product of the shape. *)
Theorem dtype_not_a_text (name : string) (value dtype : json)
    (elems : list json) (shape : list Z) :
  String.eqb name metadata_key = false ->
  getitem value "dtype" = Ok dtype ->
  getitem value "shape" = Ok (JList elems) ->
  integers elems = Some shape ->
  match dtype with
  | JList _ | JDict _ =>
      forall rest d t, tensor_loop ((name, value) :: rest) d t = Raise TypeError
  | _ =>
      exists k,
        to_key dtype = Ok k
        /\ tensor_loop [(name, value)] [] (NInt 0)
           = Ok ([(k, NInt (product shape))], NInt (product shape))
  end.
Proof.
  intros Hname Hd Hs Hint.
  assert (E : tensor_entry value = Ok (dtype, PNum (NInt (product shape)))).
  { unfold tensor_entry. rewrite Hd, Hs. cbn [bind iterate].
    rewrite (multiply_out_integers elems shape 1 Hint). cbn [bind].
    now rewrite Z.mul_1_l. }
  assert (Hkey : forall k, to_key dtype = Ok k ->
                 tensor_loop [(name, value)] [] (NInt 0)
                 = Ok ([(k, NInt (product shape))], NInt (product shape))).
  { intros k K. cbn [tensor_loop]. rewrite Hname, E. cbn [bind]. rewrite K.
    reflexivity. }
  assert (Hbad : to_key dtype = Raise TypeError ->
                 forall rest d t,
                   tensor_loop ((name, value) :: rest) d t = Raise TypeError).
  { intros K rest d t. cbn [tensor_loop]. rewrite Hname, E. cbn [bind].
    now rewrite K. }
  destruct dtype; try (apply Hbad; reflexivity);
    (eexists; split; [reflexivity | apply Hkey; reflexivity]).
Qed.

End Script.

(** ** The script at sample inputs *)

(** The examples of the specification. *)
Example two_tensors_one_dtype :
  analysis Sample.repr Sample.memory Sample.encodes
    (JDict [("a", Sample.tensor "F32" [2; 3]); ("b", Sample.tensor "F32" [4])])
  = ([tensor_heading; distribution_heading; "F32: 10 elements (100.00%)"], Ok tt).
Proof. vm_compute. reflexivity. Qed.

Example two_dtypes_and_metadata :
  run Sample.loads Sample.repr Sample.memory Sample.encodes Sample.two_dtypes_file
  = (Ok tt,
     mkWorld [x00; x00]
       (prologue Sample.two_dtypes_file
          ++ [EvPrint tensor_heading; EvPrint distribution_heading;
              EvPrint "F32: 2 elements (50.00%)";
              EvPrint "I64: 2 elements (50.00%)"])).
Proof. vm_compute. reflexivity. Qed.

Example four_byte_file :
  run Sample.loads Sample.repr Sample.memory Sample.encodes Sample.short_file
  = (Raise (SystemExit 1),
     mkWorld [] [EvRead 8 Sample.short_file; EvPrint "File too short"]).
Proof. vm_compute. reflexivity. Qed.

(** Thirds are rounded to two decimals; a scalar counts one element. *)
Example thirds :
  fst (analysis Sample.repr Sample.memory Sample.encodes
         (JDict [("a", Sample.tensor "F16" []); ("b", Sample.tensor "BF16" [2])]))
  = [tensor_heading; distribution_heading;
     "F16: 1 elements (33.33%)"; "BF16: 2 elements (66.67%)"].
Proof. vm_compute. reflexivity. Qed.

(** [True] and [1] are one dictionary key, spelled as it first came. *)
Example numeric_dtypes :
  fst (analysis Sample.repr Sample.memory Sample.encodes
         (JDict [("a", JDict [("dtype", JBool true); ("shape", JList [JInt 3])]);
                 ("b", JDict [("dtype", JInt 1); ("shape", JList [JBool true])])]))
  = [tensor_heading; distribution_heading; "True: 4 elements (100.00%)"].
Proof. vm_compute. reflexivity. Qed.

(** A shape that is a text fails on the product of two characters. *)
Example text_shape :
  analysis Sample.repr Sample.memory Sample.encodes
    (JDict [("a", JDict [("dtype", JStr "F32"); ("shape", JStr "2x3")])])
  = ([tensor_heading], Raise TypeError).
Proof. vm_compute. reflexivity. Qed.

(** A header that is not an object has no [items]. *)
Example list_header :
  analysis Sample.repr Sample.memory Sample.encodes (JList [])
  = ([tensor_heading], Raise AttributeError).
Proof. vm_compute. reflexivity. Qed.

(** A dimension [1e999] is the float infinity: the count is [inf] and the
    percentage is not a number. *)
Example infinite_dimension :
  run Sample.loads Sample.repr Sample.memory Sample.encodes
    Sample.infinite_shape_file
  = (Ok tt,
     mkWorld []
       (prologue Sample.infinite_shape_file
          ++ [EvPrint tensor_heading; EvPrint distribution_heading;
              EvPrint "F32: inf elements (nan%)"])).
Proof. vm_compute. reflexivity. Qed.

(** [NaN] is not JSON; [json.loads] takes it and the run ends normally. *)
Example nan_dimension :
  run Sample.loads Sample.repr Sample.memory Sample.encodes Sample.nan_shape_file
  = (Ok tt,
     mkWorld []
       (prologue Sample.nan_shape_file
          ++ [EvPrint tensor_heading; EvPrint distribution_heading;
              EvPrint "F32: nan elements (nan%)"])).
Proof. vm_compute. reflexivity. Qed.

(** A count of 4401 digits is not printed; the next row is not reached. *)
Example long_count :
  analysis Sample.repr Sample.memory Sample.encodes (JDict Sample.huge_count)
  = ([tensor_heading; distribution_heading], Raise ValueError).
Proof. vm_compute. reflexivity. Qed.

(** A count of 4401 digits cancelled by a negative one: the total is 0, and
    the row fails on the count before the division. *)
Example long_count_before_division :
  analysis Sample.repr Sample.memory Sample.encodes
    (JDict [("a", Sample.tensor "F32" [10 ^ 2200; 10 ^ 2200]);
            ("b", Sample.tensor "I8" [- 10 ^ 2200; 10 ^ 2200])])
  = ([tensor_heading; distribution_heading], Raise ValueError).
Proof. vm_compute. reflexivity. Qed.

(** A text cannot be repeated [10^30] times, nor allocated [2^63 - 1]
    characters long; a list of [2^62] times two items is too long. *)
Example repeated_sequences :
  map (fun shape =>
         snd (analysis Sample.repr Sample.memory Sample.encodes
                (JDict [("a", JDict [("dtype", JStr "F32");
                                     ("shape", JList shape)])])))
    [ [JInt (10 ^ 30); JStr "a"];
      [JInt (2 ^ 63 - 1); JStr "a"];
      [JInt (2 ^ 62); JStr "ab"];
      [JInt (2 ^ 62); JList [JInt 1; JInt 2]];
      [JInt 3; JStr "ab"; JInt 2] ]
  = [Raise OverflowError; Raise MemoryError; Raise OverflowError;
     Raise MemoryError; Raise TypeError].
Proof. vm_compute. reflexivity. Qed.

(** A header that announces more bytes than a bytes object can hold. *)
Example header_size_too_large :
  run Sample.loads Sample.repr Sample.memory Sample.encodes
    (Sample.pack_Q (2 ^ 64 - 1) ++ list_byte_of_string "{}")
  = (Raise OverflowError,
     mkWorld (list_byte_of_string "{}")
       [EvRead 8 (Sample.pack_Q (2 ^ 64 - 1));
        EvPrint "Header size: 18446744073709551615"]).
Proof. vm_compute. reflexivity. Qed.

(** A label that standard output cannot encode ends the report. *)
Example unprintable_row :
  analysis Sample.repr Sample.memory Sample.encodes
    (JDict Sample.unprintable_label)
  = ([tensor_heading; distribution_heading], Raise UnicodeEncodeError).
Proof. vm_compute. reflexivity. Qed.

(** The grammar of JSON at sample texts: it has neither [NaN] nor numbers
    that start with [0], nor a comma before a closing bracket. *)
Example json_grammar :
  map (fun s => valid_json (list_byte_of_string (Sample.json_text s)))
    ["{}"; " { 'a' : [1, 2.5e-3, -0, true, null, 'x\n'] } "; "[1e999]";
     "oops"; "NaN"; "{'a':[NaN]}"; "01"; "[1,]"; "{'a':1,}"; "{a:1}"; "'\x'"]
  = [true; true; true;
     false; false; false; false; false; false; false; false].
Proof. vm_compute. reflexivity. Qed.

(** ** The theorems at sample inputs *)

Lemma grand_total_is_sum_of_products_witness :
  well_formed Sample.two_dtypes = true
  /\ product [] = 1
  /\ map (fun entry => descriptor (snd entry)) (tensors Sample.two_dtypes)
     = map Some (descriptors Sample.two_dtypes)
  /\ exists dtypes,
       tensor_loop Sample.memory Sample.two_dtypes [] (NInt 0)
       = Ok (dtypes, NInt (spec_total Sample.two_dtypes))
       /\ sum_counts dtypes = Some (spec_total Sample.two_dtypes).
Proof.
  split; [reflexivity | ].
  apply (grand_total_is_sum_of_products Sample.memory Sample.two_dtypes).
  reflexivity.
Defined.

Lemma short_file_exits_witness :
  (List.length Sample.short_file < 8)%nat
  /\ stdout (events (snd (run Sample.loads Sample.repr Sample.memory
                            Sample.encodes Sample.short_file)))
     = ("File too short" ++ nl)%string
  /\ fst (run Sample.loads Sample.repr Sample.memory Sample.encodes
            Sample.short_file)
     = Raise (SystemExit 1)
  /\ exit_status (fst (run Sample.loads Sample.repr Sample.memory
                         Sample.encodes Sample.short_file)) = 1
  /\ reads (events (snd (run Sample.loads Sample.repr Sample.memory
                           Sample.encodes Sample.short_file))) = [8].
Proof.
  split; [cbn; lia | ].
  apply (short_file_exits Sample.loads Sample.repr Sample.memory Sample.encodes
           Sample.short_file).
  cbn. lia.
Defined.

(** C4, the sentence as the specification has it, refuted. The header whose
    one tensor has the dimension [1e999] gives a report that ends normally
    and whose row, [F32: inf elements (nan%)], has no decimal point. *)
Lemma two_decimals_counterexample :
  ~ report_sentence Sample.repr Sample.memory Sample.encodes
      Sample.infinite_shape.
Proof.
  intros H.
  assert (L : tensor_loop Sample.memory Sample.infinite_shape [] (NInt 0)
              = Ok ([(KStr "F32", NFloat (FInf false))], NFloat (FInf false)))
    by (vm_compute; reflexivity).
  assert (R : report_rows Sample.repr Sample.encodes
                [(KStr "F32", NFloat (FInf false))] (NFloat (FInf false))
              = (["F32: inf elements (nan%)"], Ok tt))
    by (vm_compute; reflexivity).
  specialize (H _ _ _ L R).
  inversion H as [| ? ? (label & amount & p & E & whole & d1 & d2 & _ & _ & ->) _].
  apply (f_equal (fun s => existsb (Ascii.eqb ".") (list_ascii_of_string s))) in E.
  rewrite !list_ascii_app, !existsb_app in E.
  change (existsb (Ascii.eqb ".") (list_ascii_of_string ".")) with true in E.
  rewrite orb_true_l, !orb_true_r in E. discriminate E.
Qed.

Lemma report_in_first_seen_order_witness :
  let file := Sample.two_dtypes_file in
  let w := snd (run Sample.loads Sample.repr Sample.memory Sample.encodes file) in
  run Sample.loads Sample.repr Sample.memory Sample.encodes file = (Ok tt, w)
  /\ exists items dtypes total_elements lines,
       Sample.loads (header_json_of file) = inl (JDict items)
       /\ tensor_loop Sample.memory items [] (NInt 0) = Ok (dtypes, total_elements)
       /\ events w
          = prologue file
              ++ EvPrint tensor_heading :: EvPrint distribution_heading
              :: map EvPrint lines
       /\ map fst dtypes = first_seen (dtype_keys items)
       /\ Forall2 (fun bucket line =>
                     exists pct,
                       percentage (snd bucket) total_elements = Ok pct
                       /\ line = (key_text Sample.repr (fst bucket) ++ ": "
                                    ++ num_text Sample.repr (snd bucket)
                                    ++ " elements (" ++ format_2f pct
                                    ++ "%)")%string
                       /\ (is_finite pct = true -> two_decimals (format_2f pct)))
            dtypes lines
       /\ (well_formed items = true ->
           total_elements = NInt (spec_total items)
           /\ dtypes = of_counts (accumulate (descriptors items) [])
           /\ map fst (accumulate (descriptors items) [])
              = keep_first (map fst (descriptors items))
           /\ Forall2 (fun bucket line =>
                         exists pct c,
                           snd bucket = dtype_total (fst bucket) items
                           /\ percentage (NInt (snd bucket))
                                (NInt (spec_total items)) = Ok pct
                           /\ is_finite pct = true
                           /\ format_2f pct = hundredths_text c
                           /\ 0 <= c <= 10000
                           /\ Z.abs (c * spec_total items - 10000 * snd bucket)
                              < spec_total items
                           /\ line = (fst bucket ++ ": " ++ str_Z (snd bucket)
                                        ++ " elements (" ++ hundredths_text c
                                        ++ "%)")%string)
                (accumulate (descriptors items) []) lines).
Proof.
  intros file w. split; [vm_compute; reflexivity | ].
  apply (report_in_first_seen_order Sample.loads Sample.repr Sample.memory
           Sample.encodes file w).
  vm_compute. reflexivity.
Defined.

Lemma header_size_printed_first_witness :
  let file := Sample.two_dtypes_file in
  (8 <= List.length file)%nat
  /\ header_read Sample.memory file = None
  /\ header_size_of file = le_value (firstn 8 file)
  /\ 0 <= header_size_of file < 2 ^ 64
  /\ exists later,
       events (snd (run Sample.loads Sample.repr Sample.memory Sample.encodes file))
       = EvRead 8 (firstn 8 file)
         :: EvPrint ("Header size: " ++ str_Z (header_size_of file))
         :: later
       /\ (header_read Sample.memory file = None ->
           exists rest,
             later = EvRead (header_size_of file) (header_json_of file)
                     :: EvLoads (header_json_of file) :: rest)
       /\ (forall e,
             header_read Sample.memory file = Some e ->
             later = []
             /\ fst (run Sample.loads Sample.repr Sample.memory Sample.encodes file)
                = Raise e).
Proof.
  intros file. split; [vm_compute; lia | ]. split; [vm_compute; reflexivity | ].
  apply (header_size_printed_first Sample.loads Sample.repr Sample.memory
           Sample.encodes file).
  vm_compute. lia.
Defined.

(** C6, the sentence as the specification has it, refuted. The empty header
    has grand total 0 and its analysis ends normally; the header whose one
    tensor has shape [[0]] has grand total 0 and a bucket. *)
Lemma zero_total_counterexample :
  ~ zero_total_sentence Sample.repr Sample.memory Sample.encodes []
  /\ ~ zero_total_sentence Sample.repr Sample.memory Sample.encodes
         Sample.all_empty.
Proof.
  split; intros H.
  - destruct (H [] eq_refl) as [Hfail _]. discriminate Hfail.
  - destruct (H [(KStr "F32", NInt 0)] eq_refl) as [_ Hempty].
    discriminate Hempty.
Qed.

Lemma zero_total_outcome_witness :
  let items := Sample.all_empty in
  let dtypes := [(KStr "F32", NInt 0)] in
  let w := mkWorld [] [] in
  tensor_loop Sample.memory items [] (NInt 0) = Ok (dtypes, NInt 0)
  /\ tensors items <> []
  /\ well_formed items = true
  /\ (tensors items = [] ->
      dtypes = []
      /\ analyze Sample.repr Sample.memory Sample.encodes (JDict items) w
         = (Ok tt,
            mkWorld (unread w)
              (events w ++ [EvPrint tensor_heading; EvPrint distribution_heading])))
  /\ (tensors items <> [] ->
      dtypes <> []
      /\ exists e,
           analyze Sample.repr Sample.memory Sample.encodes (JDict items) w
           = (Raise e,
              mkWorld (unread w)
                (events w ++ [EvPrint tensor_heading; EvPrint distribution_heading]))
           /\ (e = ZeroDivisionError \/ e = ValueError)
           /\ (well_formed items = true -> e = ZeroDivisionError)).
Proof.
  intros items dtypes w. split; [reflexivity | ].
  split; [discriminate | ]. split; [reflexivity | ].
  apply (zero_total_outcome Sample.repr Sample.memory Sample.encodes items dtypes w).
  reflexivity.
Defined.

(** C7, the sentence as the specification has it, refuted. The entry [w]
    has no [dtype]; the run fails with [KeyError('dtype')], which names the
    field and not [w]. *)
Lemma missing_field_counterexample :
  ~ missing_field_sentence Sample.repr Sample.memory Sample.encodes
      Sample.no_dtype.
Proof.
  intros H.
  destruct (H "w" (JDict [("shape", JList [JInt 1])])
              (or_introl eq_refl) eq_refl (or_introl eq_refl))
    as (e & He & _ & Hnames).
  cbn in He. injection He as <-. discriminate Hnames.
Qed.

Lemma missing_field_fails_witness :
  let items := Sample.no_dtype in
  let value := JDict [("shape", JList [JInt 1])] in
  let w := mkWorld [] [] in
  In ("w", value) items
  /\ is_tensor ("w", value) = true
  /\ (lacks value "dtype" = true \/ lacks value "shape" = true)
  /\ exists e,
       analyze Sample.repr Sample.memory Sample.encodes (JDict items) w
       = (Raise e, mkWorld (unread w) (events w ++ [EvPrint tensor_heading]))
       /\ exit_status (Raise e) = 1
       /\ (forall pre post members d t,
             items = pre ++ ("w", value) :: post ->
             tensor_loop Sample.memory pre [] (NInt 0) = Ok (d, t) ->
             value = JDict members ->
             e = KeyError (if lacks value "dtype" then "dtype" else "shape")
             /\ names_key e "w"
                = String.eqb (if lacks value "dtype" then "dtype" else "shape") "w").
Proof.
  intros items value w.
  split; [left; reflexivity | ]. split; [reflexivity | ].
  split; [left; reflexivity | ].
  apply (missing_field_fails Sample.repr Sample.memory Sample.encodes items "w"
           value w).
  - left. reflexivity.
  - reflexivity.
  - left. reflexivity.
Defined.

(** C8, the sentence as the specification has it, refuted. The header
    [{"a":{"dtype":"F32","shape":[NaN]}}] is not JSON, [json.loads] takes
    it, and the run goes on to the report and ends normally. *)
Lemma malformed_header_counterexample :
  ~ malformed_header_sentence Sample.loads Sample.repr Sample.memory
      Sample.encodes Sample.nan_shape_file.
Proof.
  intros H.
  assert (V : valid_json (header_json_of Sample.nan_shape_file) = false)
    by (vm_compute; reflexivity).
  assert (R : fst (run Sample.loads Sample.repr Sample.memory Sample.encodes
                     Sample.nan_shape_file) = Ok tt)
    by (vm_compute; reflexivity).
  destruct (H V) as (e & Hrun & _).
  rewrite R in Hrun. discriminate Hrun.
Qed.

Lemma malformed_header_stops_witness :
  let file := Sample.malformed_file in
  let e := JSONDecodeError "Expecting value" 0 in
  8 + header_size_of file <= Z.of_nat (List.length file)
  /\ Sample.loads (header_json_of file) = inr e
  /\ Z.of_nat (List.length (header_json_of file)) = header_size_of file
  /\ fst (run Sample.loads Sample.repr Sample.memory Sample.encodes file)
     = Raise (DecodeError e)
  /\ exit_status (fst (run Sample.loads Sample.repr Sample.memory
                         Sample.encodes file)) = 1
  /\ events (snd (run Sample.loads Sample.repr Sample.memory Sample.encodes file))
     = prologue file
  /\ stdout (events (snd (run Sample.loads Sample.repr Sample.memory
                            Sample.encodes file)))
     = ("Header size: " ++ str_Z (header_size_of file) ++ nl)%string.
Proof.
  intros file e. split; [vm_compute; discriminate | ].
  split; [vm_compute; reflexivity | ].
  apply (malformed_header_stops Sample.loads Sample.repr Sample.memory
           Sample.encodes file e).
  - vm_compute. discriminate.
  - vm_compute. reflexivity.
Defined.

Lemma no_tensors_report_witness :
  let file := Sample.only_metadata_file in
  let items := Sample.only_metadata in
  (8 <= List.length file)%nat
  /\ header_read Sample.memory file = None
  /\ Sample.loads (header_json_of file) = inl (JDict items)
  /\ Forall (fun entry => fst entry = metadata_key) items
  /\ fst (run Sample.loads Sample.repr Sample.memory Sample.encodes file) = Ok tt
  /\ exit_status (fst (run Sample.loads Sample.repr Sample.memory
                         Sample.encodes file)) = 0
  /\ events (snd (run Sample.loads Sample.repr Sample.memory Sample.encodes file))
     = prologue file ++ [EvPrint tensor_heading; EvPrint distribution_heading]
  /\ stdout (events (snd (run Sample.loads Sample.repr Sample.memory
                            Sample.encodes file)))
     = ("Header size: " ++ str_Z (header_size_of file) ++ nl
          ++ tensor_heading ++ nl ++ distribution_heading ++ nl)%string.
Proof.
  intros file items.
  assert (Hlen : (8 <= List.length file)%nat) by (vm_compute; lia).
  assert (Hread : header_read Sample.memory file = None)
    by (vm_compute; reflexivity).
  assert (Hloads : Sample.loads (header_json_of file) = inl (JDict items))
    by (vm_compute; reflexivity).
  assert (Hmeta : Forall (fun entry => fst entry = metadata_key) items)
    by (repeat constructor).
  split; [exact Hlen | ]. split; [exact Hread | ]. split; [exact Hloads | ].
  split; [exact Hmeta | ].
  exact (no_tensors_report Sample.loads Sample.repr Sample.memory Sample.encodes
           file items Hlen Hread Hloads Hmeta).
Defined.



(** ** The further theorems at sample inputs *)

Lemma unpack_pack_witness :
  0 <= 96 < 2 ^ 64 /\ unpack_Q (Sample.pack_Q 96) = Ok 96.
Proof.
  assert (H : 0 <= 96 < 2 ^ 64) by (split; [discriminate | reflexivity]).
  split; [exact H | exact (unpack_pack 96 H)].
Defined.

Lemma container_decoded_witness :
  let text := Sample.two_dtypes_text in
  let payload := [x00; x00] in
  Z.of_nat (String.length text) < 2 ^ 64
  /\ header_size_of (Sample.file_of text payload) = Z.of_nat (String.length text)
  /\ header_json_of (Sample.file_of text payload) = list_byte_of_string text
  /\ after_header (Sample.file_of text payload) = payload
  /\ exists later,
       events (snd (run Sample.loads Sample.repr Sample.memory Sample.encodes
                      (Sample.file_of text payload)))
       = EvRead 8 (Sample.pack_Q (Z.of_nat (String.length text)))
         :: EvPrint ("Header size: " ++ str_Z (Z.of_nat (String.length text)))
         :: EvRead (Z.of_nat (String.length text)) (list_byte_of_string text)
         :: EvLoads (list_byte_of_string text)
         :: map EvPrint later
       /\ unread (snd (run Sample.loads Sample.repr Sample.memory Sample.encodes
                         (Sample.file_of text payload)))
          = payload.
Proof.
  intros text payload.
  assert (H : Z.of_nat (String.length text) < 2 ^ 64) by (vm_compute; reflexivity).
  split; [exact H | ].
  exact (container_decoded Sample.loads Sample.repr Sample.memory Sample.encodes
           text payload H).
Defined.

Lemma payload_never_read_witness :
  let file := Sample.only_metadata_file in
  let extra := [x01; x02; x03] in
  8 + header_size_of file <= Z.of_nat (List.length file)
  /\ reads (events (snd (run Sample.loads Sample.repr Sample.memory
                           Sample.encodes (file ++ extra))))
     = [8; header_size_of file]
  /\ fst (run Sample.loads Sample.repr Sample.memory Sample.encodes (file ++ extra))
     = fst (run Sample.loads Sample.repr Sample.memory Sample.encodes file)
  /\ events (snd (run Sample.loads Sample.repr Sample.memory Sample.encodes
                    (file ++ extra)))
     = events (snd (run Sample.loads Sample.repr Sample.memory Sample.encodes file))
  /\ unread (snd (run Sample.loads Sample.repr Sample.memory Sample.encodes
                    (file ++ extra)))
     = unread (snd (run Sample.loads Sample.repr Sample.memory Sample.encodes
                      file)) ++ extra.
Proof.
  intros file extra.
  assert (H : 8 + header_size_of file <= Z.of_nat (List.length file))
    by (vm_compute; discriminate).
  split; [exact H | ].
  exact (payload_never_read Sample.loads Sample.repr Sample.memory Sample.encodes
           file extra H).
Defined.

Lemma truncated_header_decoded_witness :
  let file := Sample.pack_Q 20 ++ list_byte_of_string "0123456789" in
  (8 <= List.length file)%nat
  /\ Z.of_nat (List.length file) < 8 + header_size_of file
  /\ header_json_of file = skipn 8 file
  /\ Z.of_nat (List.length (header_json_of file)) < header_size_of file
  /\ run Sample.loads Sample.repr Sample.memory Sample.encodes file
     = if bytes_max <? header_size_of file
       then (Raise OverflowError, mkWorld (skipn 8 file) (opening file))
       else if allocates Sample.memory Bytes (header_size_of file)
       then match Sample.loads (skipn 8 file) with
            | inl header =>
                analyze Sample.repr Sample.memory Sample.encodes header
                  (mkWorld [] (prologue file))
            | inr e => (Raise (DecodeError e), mkWorld [] (prologue file))
            end
       else (Raise MemoryError, mkWorld (skipn 8 file) (opening file)).
Proof.
  intros file.
  assert (H1 : (8 <= List.length file)%nat) by (vm_compute; lia).
  assert (H2 : Z.of_nat (List.length file) < 8 + header_size_of file)
    by (vm_compute; reflexivity).
  split; [exact H1 | ]. split; [exact H2 | ].
  exact (truncated_header_decoded Sample.loads Sample.repr Sample.memory
           Sample.encodes file H1 H2).
Defined.

Lemma header_not_an_object_witness :
  let file := Sample.file_of "[]" [] in
  let loads := fun _ : list byte => @inl json decode_error (JList []) in
  (8 <= List.length file)%nat
  /\ header_read Sample.memory file = None
  /\ loads (header_json_of file) = inl (JList [])
  /\ (forall items, JList [] <> JDict items)
  /\ fst (run loads Sample.repr Sample.memory Sample.encodes file)
     = Raise AttributeError
  /\ exit_status (fst (run loads Sample.repr Sample.memory Sample.encodes file)) = 1
  /\ events (snd (run loads Sample.repr Sample.memory Sample.encodes file))
     = prologue file ++ [EvPrint tensor_heading]
  /\ stdout (events (snd (run loads Sample.repr Sample.memory Sample.encodes file)))
     = ("Header size: " ++ str_Z (header_size_of file) ++ nl
          ++ tensor_heading ++ nl)%string.
Proof.
  intros file loads.
  assert (H1 : (8 <= List.length file)%nat) by (vm_compute; lia).
  assert (H2 : header_read Sample.memory file = None) by (vm_compute; reflexivity).
  assert (H3 : loads (header_json_of file) = inl (JList [])) by reflexivity.
  assert (H4 : forall items, JList [] <> JDict items) by discriminate.
  split; [exact H1 | ]. split; [exact H2 | ]. split; [exact H3 | ].
  split; [exact H4 | ].
  exact (header_not_an_object loads Sample.repr Sample.memory Sample.encodes file
           (JList []) H1 H2 H3 H4).
Defined.

Lemma failed_aggregation_prints_no_report_witness :
  let items := Sample.no_dtype in
  let w := mkWorld [] [] in
  tensor_loop Sample.memory items [] (NInt 0) = Raise (KeyError "dtype")
  /\ analyze Sample.repr Sample.memory Sample.encodes (JDict items) w
     = (Raise (KeyError "dtype"),
        mkWorld (unread w) (events w ++ [EvPrint tensor_heading]))
  /\ loop_error (KeyError "dtype")
  /\ exit_status (Raise (KeyError "dtype")) = 1.
Proof.
  intros items w.
  assert (H : tensor_loop Sample.memory items [] (NInt 0) = Raise (KeyError "dtype"))
    by reflexivity.
  split; [exact H | ].
  exact (failed_aggregation_prints_no_report Sample.repr Sample.memory
           Sample.encodes items _ w H).
Defined.

Lemma bucket_holds_dtype_total_witness :
  let items := Sample.two_dtypes in
  well_formed items = true
  /\ exists dtypes labels,
       tensor_loop Sample.memory items [] (NInt 0)
       = Ok (dtypes, NInt (spec_total items))
       /\ map fst dtypes = map KStr labels
       /\ NoDup labels
       /\ (forall dtype, In dtype labels <-> In dtype (map fst (descriptors items)))
       /\ (forall dtype c,
             In (KStr dtype, NInt c) dtypes
             <-> In dtype labels /\ c = dtype_total dtype items)
       /\ (forall dtype,
             dict_get dtypes (KStr dtype) (NInt 0) = NInt (dtype_total dtype items)).
Proof.
  intros items.
  assert (H : well_formed items = true) by reflexivity.
  split; [exact H | exact (bucket_holds_dtype_total Sample.memory items H)].
Defined.

Lemma one_bucket_per_dtype_witness :
  let items :=
    [("a", JDict [("dtype", JBool true); ("shape", JList [JInt 3])]);
     ("b", JDict [("dtype", JStr "F32"); ("shape", JList [])]);
     ("c", JDict [("dtype", JInt 1); ("shape", JList [JInt 2])])] in
  let dtypes := [(KBool true, NInt 5); (KStr "F32", NInt 1)] in
  tensor_loop Sample.memory items [] (NInt 0) = Ok (dtypes, NInt 6)
  /\ distinct_keys (map fst dtypes)
  /\ (forall k, In k (dtype_keys items) ->
        exists k', In k' (map fst dtypes) /\ key_eqb k' k = true)
  /\ (forall k, In k (map fst dtypes) -> In k (dtype_keys items)).
Proof.
  intros items dtypes.
  assert (H : tensor_loop Sample.memory items [] (NInt 0) = Ok (dtypes, NInt 6))
    by reflexivity.
  split; [exact H | exact (one_bucket_per_dtype Sample.memory items dtypes (NInt 6) H)].
Defined.

Lemma signed_shapes_multiplied_witness :
  let items := [("a", Sample.tensor "F32" [-2; 3]); ("b", Sample.tensor "I8" [4])] in
  integer_shaped items = true
  /\ (exists dtypes,
        tensor_loop Sample.memory items [] (NInt 0)
        = Ok (dtypes, NInt (signed_total items))
        /\ sum_counts dtypes = Some (signed_total items))
  /\ (well_formed items = true -> signed_total items = spec_total items).
Proof.
  intros items.
  assert (H : integer_shaped items = true) by reflexivity.
  split; [exact H | exact (signed_shapes_multiplied Sample.memory items H)].
Defined.

Lemma entry_order_irrelevant_witness :
  let a := ("a", Sample.tensor "F32" [2; 3]) in
  let b := ("b", Sample.tensor "I64" [4]) in
  let items := [a; b] in
  let items' := [b; a] in
  Permutation items items'
  /\ well_formed items = true
  /\ exists dtypes dtypes',
       tensor_loop Sample.memory items [] (NInt 0)
       = Ok (dtypes, NInt (spec_total items))
       /\ tensor_loop Sample.memory items' [] (NInt 0)
          = Ok (dtypes', NInt (spec_total items))
       /\ Permutation dtypes dtypes'
       /\ (forall dtype,
             dict_get dtypes' (KStr dtype) (NInt 0)
             = dict_get dtypes (KStr dtype) (NInt 0)).
Proof.
  intros a b items items'.
  assert (H1 : Permutation items items') by apply perm_swap.
  assert (H2 : well_formed items = true) by reflexivity.
  split; [exact H1 | ]. split; [exact H2 | ].
  exact (entry_order_irrelevant Sample.memory items items' H1 H2).
Defined.

Lemma percentages_between_0_and_100_witness :
  let items := Sample.empty_tensor in
  let w := mkWorld [] [] in
  well_formed items = true
  /\ 0 < spec_total items
  /\ Forall (fun d => dtype_total (fst d) items < str_limit) (descriptors items)
  /\ Forall (fun d => printable Sample.encodes (fst d) = true) (descriptors items)
  /\ exists lines,
       analyze Sample.repr Sample.memory Sample.encodes (JDict items) w
       = (Ok tt,
          mkWorld (unread w)
            (events w ++ EvPrint tensor_heading :: EvPrint distribution_heading
               :: map EvPrint lines))
       /\ Forall2 (fun sc line =>
                     exists c,
                       0 <= c <= 10000
                       /\ Z.abs (c * spec_total items - 10000 * snd sc)
                          < spec_total items
                       /\ line = (fst sc ++ ": " ++ str_Z (snd sc) ++ " elements ("
                                    ++ hundredths_text c ++ "%)")%string)
            (accumulate (descriptors items) []) lines.
Proof.
  intros items w.
  assert (H1 : well_formed items = true) by reflexivity.
  assert (H2 : 0 < spec_total items) by reflexivity.
  assert (H3 : Forall (fun d => dtype_total (fst d) items < str_limit)
                 (descriptors items))
    by (repeat constructor; vm_compute; reflexivity).
  assert (H4 : Forall (fun d => printable Sample.encodes (fst d) = true)
                 (descriptors items))
    by (repeat constructor).
  split; [exact H1 | ]. split; [exact H2 | ]. split; [exact H3 | ].
  split; [exact H4 | ].
  exact (percentages_between_0_and_100 Sample.repr Sample.memory Sample.encodes
           items w H1 H2 H3 H4).
Defined.

Lemma single_dtype_is_100_percent_witness :
  let items := [("a", Sample.tensor "F32" [2; 3]); ("b", Sample.tensor "F32" [4])] in
  let w := mkWorld [] [] in
  well_formed items = true
  /\ 0 < spec_total items < str_limit
  /\ printable Sample.encodes "F32" = true
  /\ Forall (fun d => fst d = "F32") (descriptors items)
  /\ analyze Sample.repr Sample.memory Sample.encodes (JDict items) w
     = (Ok tt,
        mkWorld (unread w)
          (events w
             ++ [EvPrint tensor_heading; EvPrint distribution_heading;
                 EvPrint ("F32" ++ ": " ++ str_Z (spec_total items)
                            ++ " elements (100.00%)")])).
Proof.
  intros items w.
  assert (H1 : well_formed items = true) by reflexivity.
  assert (H2 : 0 < spec_total items < str_limit)
    by (split; vm_compute; reflexivity).
  assert (H3 : printable Sample.encodes "F32" = true) by reflexivity.
  assert (H4 : Forall (fun d => fst d = "F32") (descriptors items))
    by (repeat constructor).
  split; [exact H1 | ]. split; [exact H2 | ]. split; [exact H3 | ].
  split; [exact H4 | ].
  exact (single_dtype_is_100_percent Sample.repr Sample.memory Sample.encodes
           items "F32" w H1 H2 H3 H4).
Defined.

Lemma shape_not_a_list_witness :
  let value := JDict [("dtype", JStr "F32"); ("shape", JStr "2x3")] in
  String.eqb "a" metadata_key = false
  /\ getitem value "dtype" = Ok (JStr "F32")
  /\ getitem value "shape" = Ok (JStr "2x3")
  /\ tensor_loop Sample.memory [("a", value)] [] (NInt 0) = Raise TypeError.
Proof.
  intros value.
  assert (H1 : String.eqb "a" metadata_key = false) by reflexivity.
  assert (H2 : getitem value "dtype" = Ok (JStr "F32")) by reflexivity.
  assert (H3 : getitem value "shape" = Ok (JStr "2x3")) by reflexivity.
  split; [exact H1 | ]. split; [exact H2 | ]. split; [exact H3 | ].
  exact (shape_not_a_list Sample.memory "a" value (JStr "F32") (JStr "2x3") []
           [] (NInt 0) H1 H2 H3).
Defined.

Lemma dtype_not_a_text_witness :
  let value := JDict [("dtype", JInt 8); ("shape", JList [JInt 2; JInt 5])] in
  String.eqb "a" metadata_key = false
  /\ getitem value "dtype" = Ok (JInt 8)
  /\ getitem value "shape" = Ok (JList [JInt 2; JInt 5])
  /\ integers [JInt 2; JInt 5] = Some [2; 5]
  /\ exists k,
       to_key (JInt 8) = Ok k
       /\ tensor_loop Sample.memory [("a", value)] [] (NInt 0)
          = Ok ([(k, NInt (product [2; 5]))], NInt (product [2; 5])).
Proof.
  intros value.
  assert (H1 : String.eqb "a" metadata_key = false) by reflexivity.
  assert (H2 : getitem value "dtype" = Ok (JInt 8)) by reflexivity.
  assert (H3 : getitem value "shape" = Ok (JList [JInt 2; JInt 5])) by reflexivity.
  assert (H4 : integers [JInt 2; JInt 5] = Some [2; 5]) by reflexivity.
  split; [exact H1 | ]. split; [exact H2 | ]. split; [exact H3 | ].
  split; [exact H4 | ].
  exact (dtype_not_a_text Sample.memory "a" value (JInt 8) [JInt 2; JInt 5] [2; 5]
           H1 H2 H3 H4).
Defined.
